(** * Controle Financeiro: installments, monthly totals and category sums

    A shallow embedding of [main.py]: the expense writer [add_despesa], the
    monthly aggregation [get_dados_mensais], the per-category sums of the
    dashboard and the submission handler of the form [form_despesa].

    Conventions of the embedding.
    - Monetary amounts are Python floats in the source: IEEE 754 binary64
      numbers.  A finite float is embedded as the rational it denotes
      ([Q]), and an operation on floats is the exact operation followed by
      [Py.to_float], the rounding to the nearest float.  Sums of a column
      are exact sums of the stored floats, compared with [==] ([Qeq]).
    - [datetime.date] is a record of year, month and day; date arithmetic
      goes through the proleptic Gregorian ordinal as in CPython.
    - The spreadsheet, the source of [uuid.uuid4()], the cache and the
      screen form the [World] that every effectful function threads; an
      exception leaves the world as it was when it was raised. *)

From Stdlib Require Import ZArith QArith Qround Qabs Qpower Lia Lqa Bool List.
From Stdlib Require Import Ascii String Sorted Permutation DecimalString.
From Stdlib Require Floats.
Import ListNotations.

Local Open Scope string_scope.
Local Open Scope list_scope.
Local Open Scope Z_scope.

(** ** Python values used by the code *)

Module Py.

(** Truth value of a [str]: empty strings are false. *)
Definition truthy (s : string) : bool :=
  match s with
  | EmptyString => false
  | String _ _ => true
  end.

(** [str(n)] for an [int]. *)
Definition str_int (n : Z) : string := NilZero.string_of_int (Z.to_int n).

(** [s[:k]] for a [str]. *)
Definition slice_to (k : nat) (s : string) : string := substring 0 k s.

(** Decimal digits of [n], zero-padded on the left to [w] characters (the
    [%0wd] conversions behind [%Y], [%m] and [%d]). *)
Fixpoint pad_digits (w : nat) (n : Z) : string :=
  match w with
  | O => EmptyString
  | S w' =>
      (pad_digits w' (n / 10) ++
       String (ascii_of_N (48 + Z.to_N (n mod 10))) EmptyString)%string
  end.

(** [round(x)] to an integer, ties to even. *)
Definition round_half_even (x : Q) : Z :=
  let f := Qfloor x in
  match (x - inject_Z f ?= 1 # 2)%Q with
  | Lt => f
  | Gt => f + 1
  | Eq => if Z.even f then f else f + 1
  end.

(** *** Floats

    The float nearest to a real number has a significand of 53 bits, or is
    a multiple of [2^-1074] when the number is too small for that; a number
    half way between two floats goes to the one with the even significand. *)

(** The exponent [e] of a positive rational [q]: [2^e <= q < 2^(e+1)]. *)
Definition ilog2 (q : Q) : Z :=
  let e := Z.log2 (Qnum q) - Z.log2 (Zpos (Qden q)) in
  if Qle_bool (2 ^ e) q then e else e - 1.

(** The float nearest to a positive rational. *)
Definition nearest (q : Q) : Q :=
  let s := Z.max (ilog2 q - 52) (-1074) in
  Qred (inject_Z (round_half_even (q / 2 ^ s)) * 2 ^ s).

(** The float nearest to a rational.  (Numbers beyond the largest float do
    not arise here: a quotient by a nonzero int and a rounding to two
    places are no larger than the float they start from allows.) *)
Definition to_float (q : Q) : Q :=
  match Qnum q with
  | Z0 => 0%Q
  | Zpos _ => nearest q
  | Zneg _ => (- nearest (- q))%Q
  end.

(** [x / n] for a float [x] and an int [n <> 0]: the quotient of the two
    numbers, rounded once.  (The int converts to a float without change
    when it is below [2^53] in size, as the installment counts of this
    program are.) *)
Definition truediv (x : Q) (n : Z) : Q := to_float (x / inject_Z n).

(** [round(x, 2)] for a float [x]: the decimal of two places nearest to
    [x], ties to the even one, and then the float nearest to that
    decimal. *)
Definition round2 (x : Q) : Q :=
  to_float (inject_Z (round_half_even (x * 100)) / 100).

End Py.

(** ** [datetime.date] *)

Module Date.

Record date : Type := mkdate { year : Z; month : Z; day : Z }.

Definition MINYEAR : Z := 1.
Definition MAXYEAR : Z := 9999.
Definition MAXORDINAL : Z := 3652059.

Definition is_leap (y : Z) : bool :=
  (y mod 4 =? 0) && (negb (y mod 100 =? 0) || (y mod 400 =? 0)).

Definition days_before_year (y : Z) : Z :=
  let y := y - 1 in y * 365 + y / 4 - y / 100 + y / 400.

Definition days_in_month (y m : Z) : Z :=
  if (m =? 2) && is_leap y then 29
  else nth (Z.to_nat m) [0; 31; 28; 31; 30; 31; 30; 31; 31; 30; 31; 30; 31] 0.

Definition DAYS_BEFORE_MONTH : list Z :=
  [0; 0; 31; 59; 90; 120; 151; 181; 212; 243; 273; 304; 334].

Definition days_before_month (y m : Z) : Z :=
  nth (Z.to_nat m) DAYS_BEFORE_MONTH 0 + (if (2 <? m) && is_leap y then 1 else 0).

(** [date.toordinal()]: 1 for 0001-01-01. *)
Definition toordinal (d : date) : Z :=
  days_before_year (year d) + days_before_month (year d) (month d) + day d.

Definition DI400Y : Z := 146097.
Definition DI100Y : Z := 36524.
Definition DI4Y : Z := 1461.

(** [date.fromordinal(n)], the algorithm of CPython's [_ord2ymd]. *)
Definition fromordinal (n : Z) : date :=
  let n := n - 1 in
  let n400 := n / DI400Y in
  let n := n mod DI400Y in
  let y := n400 * 400 + 1 in
  let n100 := n / DI100Y in
  let n := n mod DI100Y in
  let n4 := n / DI4Y in
  let n := n mod DI4Y in
  let n1 := n / 365 in
  let n := n mod 365 in
  let y := y + n100 * 100 + n4 * 4 + n1 in
  if (n1 =? 4) || (n100 =? 4) then mkdate (y - 1) 12 31
  else
    let leapyear := (n1 =? 3) && (negb (n4 =? 24) || (n100 =? 3)) in
    let m := Z.shiftr (n + 50) 5 in
    let preceding :=
      nth (Z.to_nat m) DAYS_BEFORE_MONTH 0
      + (if (2 <? m) && leapyear then 1 else 0) in
    if n <? preceding then
      let m' := m - 1 in
      let preceding' :=
        preceding
        - (nth (Z.to_nat m') [0; 31; 28; 31; 30; 31; 30; 31; 31; 30; 31; 30; 31] 0
           + (if (m' =? 2) && leapyear then 1 else 0)) in
      mkdate y m' (n - preceding' + 1)
    else mkdate y m (n - preceding + 1).

(** A well-formed [date] value: what the constructor accepts. *)
Definition valid (d : date) : bool :=
  (MINYEAR <=? year d) && (year d <=? MAXYEAR)
  && (1 <=? month d) && (month d <=? 12)
  && (1 <=? day d) && (day d <=? days_in_month (year d) (month d)).

(** [%Y]: the year in decimal.  The C library does not pad it, so a year
    below 1000 is written with fewer than four digits (CPython before 3.13
    on Linux); from the year 1000 on it has four digits everywhere. *)
Definition year_text (y : Z) : string :=
  if y <? 10 then Py.pad_digits 1 y
  else if y <? 100 then Py.pad_digits 2 y
  else if y <? 1000 then Py.pad_digits 3 y
  else Py.pad_digits 4 y.

(** [d.strftime('%Y-%m-%d')]. *)
Definition strftime_Ymd (d : date) : string :=
  (year_text (year d) ++ "-" ++ Py.pad_digits 2 (month d)
   ++ "-" ++ Py.pad_digits 2 (day d))%string.

End Date.

(** ** The world: spreadsheet, identifiers, cache and screen *)

Module Receita.

(** A row of the worksheet "Receitas", in the column order of the sheet:
    ID | Data | Categoria | Tipo_Receita | Valor | Descricao. *)
Record linha : Type := mklinha {
  ID : string;
  Data : string;
  Categoria : string;
  Tipo_Receita : string;
  Valor : Q;
  Descricao : string
}.

(** The values of the widgets of "form_receita" at submission. *)
Record form : Type := mkform {
  data_receita : Date.date;
  tipo_receita : string;
  categoria_receita : string;
  valor_receita : Q;
  descricao_receita : string
}.

End Receita.

(** A row of the worksheet "Despesas", in the column order of the sheet:
    ID | Data | Categoria | Forma_Pagamento | Cartao | Valor | Parcelas |
    Parcela_Atual | ID_Grupo_Parcelado | Descricao. *)
Record Despesa : Type := mkDespesa {
  ID : string;
  Data : string;
  Categoria : string;
  Forma_Pagamento : string;
  Cartao : string;
  Valor : Q;
  Parcelas : Z;
  Parcela_Atual : Z;
  ID_Grupo_Parcelado : string;
  Descricao : string
}.

(** What a run does to its surroundings, in the order it does it. *)
Inductive effect : Type :=
| Uuid4 (s : string)          (* uuid.uuid4() was called; [s] is its str() *)
| AppendRow (r : Despesa)     (* sheet.append_row(r) on "Despesas" *)
| AppendRowReceitas (r : Receita.linha) (* sheet.append_row(r) on "Receitas" *)
| CacheDataClear              (* st.cache_data.clear() *)
| StError (msg : string)      (* st.error(msg) *)
| StSuccess (msg : string)    (* st.success(msg) *)
| StBalloons.                 (* st.balloons() *)

Record World : Type := mkWorld {
  despesas : list Despesa;    (* rows of the worksheet "Despesas" *)
  uuids : nat -> string;      (* str(uuid.uuid4()) of the k-th call *)
  uuid_calls : nat;           (* calls of uuid.uuid4() so far *)
  log : list effect           (* effects so far, oldest first *)
}.

Inductive exn : Type := ZeroDivisionError | OverflowError.

Inductive outcome (A : Type) : Type :=
| Returned (a : A)
| Raised (e : exn).
Arguments Returned {A} a.
Arguments Raised {A} e.

(** Computations over the world that return or raise. *)
Definition M (A : Type) : Type := World -> outcome A * World.

Definition ret {A} (a : A) : M A := fun w => (Returned a, w).

Definition raise {A} (e : exn) : M A := fun w => (Raised e, w).

Definition bind {A B} (m : M A) (k : A -> M B) : M B :=
  fun w =>
    match m w with
    | (Returned a, w') => k a w'
    | (Raised e, w') => (Raised e, w')
    end.

Notation "x <- m ;; k" := (bind m (fun x => k))
  (at level 61, m at next level, right associativity).
Notation "m ;; k" := (bind m (fun _ => k))
  (at level 61, right associativity).

Definition emit (e : effect) : M unit :=
  fun w => (Returned tt,
            mkWorld (despesas w) (uuids w) (uuid_calls w) (log w ++ [e])).

(** [for x in l: body(x)]. *)
Fixpoint for_each {A} (l : list A) (body : A -> M unit) : M unit :=
  match l with
  | [] => ret tt
  | x :: l' => body x ;; for_each l' body
  end.

(** [range(n)]. *)
Definition range (n : Z) : list Z := map Z.of_nat (seq 0 (Z.to_nat n)).

(** [str(uuid.uuid4())[:8]]. *)
Definition uuid4_8 : M string :=
  fun w =>
    let s := uuids w (uuid_calls w) in
    (Returned (Py.slice_to 8 s),
     mkWorld (despesas w) (uuids w) (S (uuid_calls w)) (log w ++ [Uuid4 s])).

(** [sheet.append_row(r)]: the row goes below the last row of the sheet. *)
Definition append_row (r : Despesa) : M unit :=
  fun w => (Returned tt,
            mkWorld (despesas w ++ [r]) (uuids w) (uuid_calls w)
                    (log w ++ [AppendRow r])).

Definition cache_data_clear : M unit := emit CacheDataClear.

(** [x / n] for a float [x] and an int [n]. *)
Definition float_div (x : Q) (n : Z) : M Q :=
  if n =? 0 then raise ZeroDivisionError else ret (Py.truediv x n).

(** [d + timedelta(days=k)]. *)
Definition date_add_days (d : Date.date) (k : Z) : M Date.date :=
  if 999999999 <? Z.abs k then raise OverflowError
  else
    let o := Date.toordinal d + k in
    if (0 <? o) && (o <=? Date.MAXORDINAL) then ret (Date.fromordinal o)
    else raise OverflowError.

(** ** [add_despesa] *)

(** The list [nova_linha] of one pass of the loop. *)
Definition nova_linha (despesa_id : string) (data_parcela : Date.date)
    (categoria forma_pagamento cartao : string) (valor_parcela : Q)
    (num_parcelas i : Z) (grupo_id descricao : string) : Despesa :=
  mkDespesa
    despesa_id
    (Date.strftime_Ymd data_parcela)
    categoria
    forma_pagamento
    (if Py.truthy cartao then cartao else "")
    (Py.round2 valor_parcela)
    num_parcelas
    (i + 1)
    grupo_id
    (descricao ++ " - Parcela " ++ Py.str_int (i + 1) ++ "/"
       ++ Py.str_int num_parcelas)%string.

Definition add_despesa (data : Date.date)
    (categoria forma_pagamento cartao : string) (valor_total : Q)
    (num_parcelas : Z) (descricao : string) : M unit :=
  grupo_id <- uuid4_8 ;;
  valor_parcela <- float_div valor_total num_parcelas ;;
  for_each (range num_parcelas) (fun i =>
    despesa_id <- uuid4_8 ;;
    data_parcela <- date_add_days data (30 * i) ;;
    append_row
      (nova_linha despesa_id data_parcela categoria forma_pagamento cartao
                  valor_parcela num_parcelas i grupo_id descricao)) ;;
  cache_data_clear.

(** ** Submission of the form [form_despesa] *)

Module Form.

(** The values of the widgets when the form is submitted. *)
Record despesa : Type := mkdespesa {
  data_despesa : Date.date;
  categoria_despesa : string;
  forma_pagamento : string;
  valor_total : Q;
  cartao_selecionado : string;
  num_parcelas : Z;
  descricao_despesa : string
}.

(** What the widgets allow: [min_value=0.0] on the amount and
    [min_value=1, max_value=120] on the number of installments. *)
Definition widgets_ok (f : despesa) : Prop :=
  (0 <= valor_total f)%Q /\ 1 <= num_parcelas f <= 120.

End Form.

(** [x > 0] for a float. *)
Definition float_pos (x : Q) : bool :=
  match (0 ?= x)%Q with
  | Lt => true
  | _ => false
  end.

Definition st_error (msg : string) : M unit := emit (StError msg).
Definition st_success (msg : string) : M unit := emit (StSuccess msg).
Definition st_balloons : M unit := emit StBalloons.

Definition msg_campos : string := "⚠️ Preencha todos os campos obrigatórios".
Definition msg_cartao : string :=
  "⚠️ Selecione um cartão para pagamento em crédito".

(** The block under [if submitted:] of the form "form_despesa". *)
Definition form_despesa_submitted (f : Form.despesa) : M unit :=
  if float_pos (Form.valor_total f)
     && Py.truthy (Form.categoria_despesa f)
     && Py.truthy (Form.forma_pagamento f)
  then
    if (Form.forma_pagamento f =? "Crédito")%string
       && negb (Py.truthy (Form.cartao_selecionado f))
    then st_error msg_cartao
    else
      add_despesa (Form.data_despesa f) (Form.categoria_despesa f)
                  (Form.forma_pagamento f) (Form.cartao_selecionado f)
                  (Form.valor_total f) (Form.num_parcelas f)
                  (Form.descricao_despesa f) ;;
      st_success ("✅ Despesa adicionada com sucesso! ("
                  ++ Py.str_int (Form.num_parcelas f)
                  ++ " parcela(s) criada(s))")%string ;;
      st_balloons
  else st_error msg_campos.

(** ** Loaded tables and their aggregation *)

Module DF.

(** A row of a table returned by [load_receitas] or [load_despesas], with
    the columns the aggregations read: [Data] as a timestamp, [Categoria]
    and [Valor] as a number.  These are the rows whose cells Data and Valor
    are filled in; tables with blank cells are [DFLoaded.row], further
    down. *)
Record row : Type := mkrow {
  Data : Date.date;
  Categoria : string;
  Valor : Q
}.

(** [df.empty or len(df) == 0]. *)
Definition empty {A} (df : list A) : bool :=
  match df with
  | [] => true
  | _ :: _ => false
  end.

End DF.

(** A [Period] of frequency 'M': year and month. *)
Definition Period : Type := (Z * Z)%type.

(** [ts.to_period('M')]. *)
Definition to_period_M (d : Date.date) : Period := (Date.year d, Date.month d).

(** [str(p)] for a monthly period: '%Y-%m'. *)
Definition period_str (p : Period) : string :=
  (Py.pad_digits 4 (fst p) ++ "-" ++ Py.pad_digits 2 (snd p))%string.

(** The order of periods: by year, then by month. *)
Definition period_compare (p q : Period) : comparison :=
  match fst p ?= fst q with
  | Eq => snd p ?= snd q
  | c => c
  end.

Section GroupBy.

Variable K : Type.
Variable cmp : K -> K -> comparison.

(** A [Series] indexed by keys: its entries in index order. *)
Definition Series : Type := list (K * Q).

(** One more value for the group of key [k]; groups stay in ascending
    order of their keys, and a group adds its values in row order. *)
Fixpoint add_to_group (k : K) (v : Q) (g : Series) : Series :=
  match g with
  | [] => [(k, v)]
  | (k', v') :: g' =>
      match cmp k k' with
      | Lt => (k, v) :: g
      | Eq => (k', (v' + v)%Q) :: g'
      | Gt => (k', v') :: add_to_group k v g'
      end
  end.

(** [df.groupby(key)['Valor'].sum()] over the rows [(key, Valor)]. *)
Definition groupby_sum (rows : list (K * Q)) : Series :=
  fold_left (fun g kv => add_to_group (fst kv) (snd kv) g) rows [].

(** [s.get(k)]: the entry of [k], if any. *)
Fixpoint series_get (s : Series) (k : K) : option Q :=
  match s with
  | [] => None
  | (k', v) :: s' =>
      match cmp k k' with
      | Eq => Some v
      | _ => series_get s' k
      end
  end.

(** Insertion of a key into a sorted index without repeats. *)
Fixpoint index_insert (k : K) (idx : list K) : list K :=
  match idx with
  | [] => [k]
  | k' :: idx' =>
      match cmp k k' with
      | Lt => k :: idx
      | Eq => idx
      | Gt => k' :: index_insert k idx'
      end
  end.

(** The sorted union of two indexes. *)
Definition index_union (a b : list K) : list K :=
  fold_left (fun idx k => index_insert k idx) b a.

End GroupBy.

Arguments add_to_group {K} cmp k v g.
Arguments groupby_sum {K} cmp rows.
Arguments series_get {K} cmp s k.
Arguments index_insert {K} cmp k idx.
Arguments index_union {K} cmp a b.

(** [x.fillna(0)] on one cell. *)
Definition fillna0 (x : option Q) : Q :=
  match x with
  | Some v => v
  | None => 0%Q
  end.

(** A row of the table returned by [get_dados_mensais]. *)
Record Mensal : Type := mkMensal {
  Mes : string;
  Receitas : Q;
  Despesas : Q;
  Saldo : Q
}.

(** [df.groupby('Mes')['Valor'].sum()] after [Mes = Data.dt.to_period('M')]. *)
Definition soma_mensal (df : list DF.row) : Series Period :=
  groupby_sum period_compare
    (map (fun r => (to_period_M (DF.Data r), DF.Valor r)) df).

(** [get_dados_mensais], as a function of the two loaded tables. *)
Definition get_dados_mensais (df_receitas df_despesas : list DF.row)
  : list Mensal :=
  if DF.empty df_receitas && DF.empty df_despesas then []
  else
    let receitas_mensais :=
      if negb (DF.empty df_receitas) then soma_mensal df_receitas else [] in
    let despesas_mensais :=
      if negb (DF.empty df_despesas) then soma_mensal df_despesas else [] in
    if DF.empty receitas_mensais && DF.empty despesas_mensais then []
    else
      map (fun p =>
             let receitas := fillna0 (series_get period_compare receitas_mensais p) in
             let despesas := fillna0 (series_get period_compare despesas_mensais p) in
             mkMensal (period_str p) receitas despesas (receitas - despesas)%Q)
          (index_union period_compare
             (map fst receitas_mensais) (map fst despesas_mensais)).

(** [df.groupby('Categoria')['Valor'].sum().reset_index()]. *)
Definition soma_por_categoria (df : list DF.row) : Series string :=
  groupby_sum String.compare
    (map (fun r => (DF.Categoria r, DF.Valor r)) df).

(** The table behind the chart "Receitas por Categoria": none when the
    dashboard shows the notice instead. *)
Definition receitas_cat (df_receitas : list DF.row) : option (Series string) :=
  if negb (DF.empty df_receitas) then Some (soma_por_categoria df_receitas)
  else None.

(** The table behind the chart "Despesas por Categoria". *)
Definition despesas_cat (df_despesas : list DF.row) : option (Series string) :=
  if negb (DF.empty df_despesas) then Some (soma_por_categoria df_despesas)
  else None.

(** [Series.sum()] of a column of amounts. *)
Definition col_sum (l : list Q) : Q := fold_right Qplus 0%Q l.
Arguments col_sum l : simpl never.

(** ** Examples *)

(** A world to run examples in: an empty sheet, identifiers numbered from
    their position. *)
Definition w_empty : World :=
  mkWorld []
    (fun k => (Py.pad_digits 8 (Z.of_nat k) ++ "-0000-4000-8000-000000000000")%string)
    0 [].


Example fromordinal_1 : Date.fromordinal 1 = Date.mkdate 1 1 1.
Proof. reflexivity. Qed.

Example fromordinal_max : Date.fromordinal Date.MAXORDINAL = Date.mkdate 9999 12 31.
Proof. reflexivity. Qed.

Example toordinal_2024 : Date.toordinal (Date.mkdate 2024 1 31) = 738916.
Proof. reflexivity. Qed.

Example strftime_ex :
  Date.strftime_Ymd (Date.fromordinal (738916 + 30)) = "2024-03-01".
Proof. reflexivity. Qed.

(** Years below 1000 are written without padding. *)
Example strftime_year_999 :
  Date.strftime_Ymd (Date.mkdate 999 12 20) = "999-12-20" /\
  Date.strftime_Ymd (Date.mkdate 1 1 1) = "1-01-01".
Proof. split; reflexivity. Qed.

(** 100 / 3 is the float 33.333333333333336, and its [round(_, 2)] is the
    float nearest to 33.33. *)
Example round2_ex : Py.round2 (Py.truediv 100 3) = Py.to_float (3333 # 100).
Proof. vm_compute. reflexivity. Qed.

(** The cents that [round(T / n, 2)] gives are those of the floats, not of
    the exact quotient: 0.05 / 2 gives 0.03, 0.03 / 6 gives 0.01,
    100.01 / 2 gives 50.01 and 0.25 / 2 gives 0.12. *)
Example round2_cents :
  Py.round2 (Py.truediv (Py.to_float (5 # 100)) 2) = Py.to_float (3 # 100) /\
  Py.round2 (Py.truediv (Py.to_float (3 # 100)) 6) = Py.to_float (1 # 100) /\
  Py.round2 (Py.truediv (Py.to_float (10001 # 100)) 2)
  = Py.to_float (5001 # 100) /\
  Py.round2 (Py.truediv (Py.to_float (25 # 100)) 2) = Py.to_float (12 # 100).
Proof. vm_compute. repeat split. Qed.

Module FloatCheck.
Import Floats.

(** The rational that a finite float of the machine denotes. *)
Definition Q_of_float (f : float) : option Q :=
  match Prim2SF f with
  | S754_zero _ => Some 0%Q
  | S754_finite s m e =>
      Some (Qred ((if s then -1 else 1) * inject_Z (Zpos m) * 2 ^ e))
  | _ => None
  end.

(** [Py.to_float] and [Py.truediv] give the floats that the division of
    the machine gives. *)
Example to_float_machine :
  Q_of_float (5 / 100)%float = Some (Py.to_float (5 # 100)) /\
  Q_of_float (3 / 100)%float = Some (Py.to_float (3 # 100)) /\
  Q_of_float (10001 / 100)%float = Some (Py.to_float (10001 # 100)) /\
  Q_of_float (3333 / 100)%float = Some (Py.to_float (3333 # 100)) /\
  Q_of_float (1 / 3)%float = Some (Py.to_float (1 # 3)).
Proof. vm_compute. repeat split. Qed.

Example truediv_machine :
  Q_of_float (5 / 100 / 2)%float
  = Some (Py.truediv (Py.to_float (5 # 100)) 2) /\
  Q_of_float (3 / 100 / 6)%float
  = Some (Py.truediv (Py.to_float (3 # 100)) 6) /\
  Q_of_float (3 / 10 / 3)%float
  = Some (Py.truediv (Py.to_float (3 # 10)) 3) /\
  Q_of_float (100 / 3)%float = Some (Py.truediv 100 3) /\
  Q_of_float (1000000000000000 / 3)%float
  = Some (Py.truediv 1000000000000000 3) /\
  Q_of_float (1000000000000000 / 7)%float
  = Some (Py.truediv 1000000000000000 7).
Proof. vm_compute. repeat split. Qed.

End FloatCheck.

Example str_int_ex : Py.str_int 12 = "12" /\ Py.str_int 0 = "0".
Proof. split; reflexivity. Qed.


Example add_despesa_100_3 :
  let '(o, w) := add_despesa (Date.mkdate 2024 1 31) "Casa" "PIX" "" 100 3
                             "Sofa" w_empty in
  o = Returned tt /\
  map Data (despesas w) = ["2024-01-31"; "2024-03-01"; "2024-03-31"] /\
  map Valor (despesas w)
  = [Py.to_float (3333 # 100); Py.to_float (3333 # 100);
     Py.to_float (3333 # 100)] /\
  map Parcela_Atual (despesas w) = [1; 2; 3] /\
  map ID_Grupo_Parcelado (despesas w) = ["00000000"; "00000000"; "00000000"] /\
  map ID (despesas w) = ["00000001"; "00000002"; "00000003"] /\
  map Descricao (despesas w) =
    ["Sofa - Parcela 1/3"; "Sofa - Parcela 2/3"; "Sofa - Parcela 3/3"].
Proof. vm_compute. repeat split. Qed.

(** ** Calendar facts: ordinals and dates *)

Module DateFacts.
Import Date.

Lemma is_leap_parts (a b c d : Z) :
  0 <= a -> 0 <= b < 4 -> 0 <= c < 25 -> 0 <= d < 4 ->
  is_leap (a * 400 + 1 + b * 100 + c * 4 + d)
  = (d =? 3) && (negb (c =? 24) || (b =? 3)).
Proof.
  intros Ha Hb Hc Hd. unfold is_leap.
  set (y := a * 400 + 1 + b * 100 + c * 4 + d).
  assert (H4 : y mod 4 = (d + 1) mod 4).
  { unfold y. Z.to_euclidean_division_equations. lia. }
  assert (H100 : y mod 100 = (c * 4 + d + 1) mod 100).
  { unfold y. Z.to_euclidean_division_equations. lia. }
  assert (H400 : y mod 400 = (b * 100 + c * 4 + d + 1) mod 400).
  { unfold y. Z.to_euclidean_division_equations. lia. }
  rewrite H4, H100, H400.
  destruct (d =? 3) eqn:E3; destruct (c =? 24) eqn:E24; destruct (b =? 3) eqn:Eb;
    rewrite ?Z.eqb_eq, ?Z.eqb_neq in *; cbn [andb orb negb];
    repeat match goal with
           | |- context [?x =? 0] => destruct (x =? 0) eqn:?
           end; rewrite ?Z.eqb_eq, ?Z.eqb_neq in *; cbn [andb orb negb];
    try reflexivity; exfalso; Z.to_euclidean_division_equations; lia.
Qed.

Lemma days_before_year_parts (a b c d : Z) :
  0 <= a -> 0 <= b < 4 -> 0 <= c < 25 -> 0 <= d < 4 ->
  days_before_year (a * 400 + 1 + b * 100 + c * 4 + d)
  = a * DI400Y + b * DI100Y + c * DI4Y + d * 365.
Proof.
  intros. unfold days_before_year, DI400Y, DI100Y, DI4Y.
  Z.to_euclidean_division_equations. lia.
Qed.

(** The month and day that [fromordinal] derives from the day [n] of the
    year (from 0) and the leap flag. *)
Definition month_day (n : Z) (leapyear : bool) : Z * Z :=
  let m := Z.shiftr (n + 50) 5 in
  let preceding :=
    nth (Z.to_nat m) DAYS_BEFORE_MONTH 0
    + (if (2 <? m) && leapyear then 1 else 0) in
  if n <? preceding then
    let m' := m - 1 in
    let preceding' :=
      preceding
      - (nth (Z.to_nat m') [0; 31; 28; 31; 30; 31; 30; 31; 31; 30; 31; 30; 31] 0
         + (if (m' =? 2) && leapyear then 1 else 0)) in
    (m', n - preceding' + 1)
  else (m, n - preceding + 1).

Definition month_day_ok (leap : bool) (n : Z) : bool :=
  let '(m, d) := month_day n leap in
  (1 <=? m) && (m <=? 12) && (1 <=? d)
  && (d <=? (if (m =? 2) && leap then 29
             else nth (Z.to_nat m) [0; 31; 28; 31; 30; 31; 30; 31; 31; 30; 31; 30; 31] 0))
  && (nth (Z.to_nat m) DAYS_BEFORE_MONTH 0
      + (if (2 <? m) && leap then 1 else 0) + d =? n + 1).

Fixpoint all_below (k : nat) (p : Z -> bool) : bool :=
  match k with
  | O => true
  | S k' => p (Z.of_nat k') && all_below k' p
  end.

Lemma all_below_spec (p : Z -> bool) (k : nat) :
  all_below k p = true -> forall n, 0 <= n < Z.of_nat k -> p n = true.
Proof.
  induction k as [|k IH]; intros H n Hn; [lia|].
  cbn [all_below] in H. apply andb_true_iff in H. destruct H as [Hk Hr].
  destruct (Z.eq_dec n (Z.of_nat k)) as [->|Hne]; [exact Hk|].
  apply IH; [exact Hr|lia].
Qed.

Lemma month_day_checked (leap : bool) (n : Z) :
  0 <= n < 365 -> month_day_ok leap n = true.
Proof.
  intros Hn. apply (all_below_spec (month_day_ok leap) 365); [|exact Hn].
  destruct leap; vm_compute; reflexivity.
Qed.

Lemma toordinal_fromordinal (o : Z) :
  1 <= o -> toordinal (fromordinal o) = o.
Proof.
  intros Ho. unfold fromordinal.
  set (n := o - 1).
  set (a := n / DI400Y). set (r400 := n mod DI400Y).
  set (b := r400 / DI100Y). set (r100 := r400 mod DI100Y).
  set (c := r100 / DI4Y). set (r4 := r100 mod DI4Y).
  set (d := r4 / 365). set (n0 := r4 mod 365).
  cbv zeta.
  assert (Hfacts :
    0 <= a /\ 0 <= b <= 4 /\ 0 <= c < 25 /\ 0 <= d <= 4 /\ 0 <= n0 < 365 /\
    o = a * DI400Y + b * DI100Y + c * DI4Y + d * 365 + n0 + 1 /\
    (b = 4 -> c = 0 /\ d = 0 /\ n0 = 0) /\
    (d = 4 -> n0 = 0 /\ c <> 24)).
  { pose proof (Z.div_mod n DI400Y ltac:(discriminate)) as E1.
    pose proof (Z.mod_pos_bound n DI400Y eq_refl) as B1.
    pose proof (Z.div_mod r400 DI100Y ltac:(discriminate)) as E2.
    pose proof (Z.mod_pos_bound r400 DI100Y eq_refl) as B2.
    pose proof (Z.div_mod r100 DI4Y ltac:(discriminate)) as E3.
    pose proof (Z.mod_pos_bound r100 DI4Y eq_refl) as B3.
    pose proof (Z.div_mod r4 365 ltac:(discriminate)) as E4.
    pose proof (Z.mod_pos_bound r4 365 eq_refl) as B4.
    fold a r400 in E1, B1. fold b r100 in E2, B2.
    fold c r4 in E3, B3. fold d n0 in E4, B4.
    unfold DI400Y, DI100Y, DI4Y in *.
    assert (n = o - 1) by reflexivity.
    clearbody a b c d n0 r4 r100 r400 n. lia. }
  clearbody a b c d n0. clear r4 r100 r400 n.
  destruct Hfacts as (Ha & Hb & Hc & Hd & Hn0 & Ho' & Hb4 & Hd4).
  destruct ((d =? 4) || (b =? 4)) eqn:E.
  - apply orb_true_iff in E. unfold toordinal. cbn [year month day].
    destruct (Z.eq_dec b 4) as [Eb|Eb].
    + destruct (Hb4 Eb) as (-> & -> & ->). subst b.
      replace (a * 400 + 1 + 4 * 100 + 0 * 4 + 0 - 1)
        with (a * 400 + 1 + 3 * 100 + 24 * 4 + 3) by lia.
      unfold days_before_month.
      rewrite is_leap_parts, days_before_year_parts by lia.
      change (nth (Z.to_nat 12) DAYS_BEFORE_MONTH 0) with 334.
      change (2 <? 12) with true. change (3 =? 3) with true.
      change (24 =? 24) with true. cbn [andb orb negb].
      unfold DI400Y, DI100Y, DI4Y in *. lia.
    + assert (d = 4) as -> by (destruct E as [E|E]; apply Z.eqb_eq in E; lia).
      destruct (Hd4 eq_refl) as (-> & Hc24).
      replace (a * 400 + 1 + b * 100 + c * 4 + 4 - 1)
        with (a * 400 + 1 + b * 100 + c * 4 + 3) by lia.
      unfold days_before_month.
      rewrite is_leap_parts, days_before_year_parts by lia.
      replace (c =? 24) with false by (symmetry; apply Z.eqb_neq; exact Hc24).
      change (nth (Z.to_nat 12) DAYS_BEFORE_MONTH 0) with 334.
      change (2 <? 12) with true. change (3 =? 3) with true.
      cbn [andb orb negb].
      unfold DI400Y, DI100Y, DI4Y in *. lia.
  - apply orb_false_iff in E. destruct E as [Ed Eb].
    apply Z.eqb_neq in Ed. apply Z.eqb_neq in Eb.
    set (leap := (d =? 3) && (negb (c =? 24) || (b =? 3))).
    pose proof (month_day_checked leap n0 Hn0) as Hmd.
    unfold month_day_ok, month_day in Hmd. cbv zeta in Hmd.
    set (y := a * 400 + 1 + b * 100 + c * 4 + d).
    assert (Hleap : is_leap y = leap) by (apply is_leap_parts; lia).
    assert (Hdby : days_before_year y
                   = a * DI400Y + b * DI100Y + c * DI4Y + d * 365)
      by (apply days_before_year_parts; lia).
    destruct (n0 <? _) in Hmd |- *;
      unfold toordinal, days_before_month; cbn [year month day];
      rewrite Hleap, Hdby;
      repeat (apply andb_true_iff in Hmd; destruct Hmd as [Hmd ?]);
      match goal with H : (_ =? _) = true |- _ => apply Z.eqb_eq in H end;
      lia.
Qed.

Lemma toordinal_pos (d : date) : valid d = true -> 0 < toordinal d.
Proof.
  unfold valid, toordinal, days_before_month, days_before_year, MINYEAR.
  intros H. repeat (apply andb_true_iff in H; destruct H as [H ?]).
  repeat match goal with
         | H : (_ <=? _) = true |- _ => apply Z.leb_le in H
         end.
  assert (Hm : 0 <= nth (Z.to_nat (month d)) DAYS_BEFORE_MONTH 0).
  { unfold DAYS_BEFORE_MONTH.
    generalize (Z.to_nat (month d)). intros k.
    do 13 (destruct k as [|k]; [cbn; lia|]).
    destruct k; cbn; lia. }
  destruct ((2 <? month d) && is_leap (year d));
    Z.to_euclidean_division_equations; lia.
Qed.
End DateFacts.

(** *** The order of dates and of their ordinals *)

Module DateOrder.
Import Date.

(** What [fromordinal] computes, in terms of the 400-, 100-, 4- and 1-year
    cycles [a], [b], [c], [d] and the day [n0] of the year. *)
Lemma fromordinal_parts (o : Z) :
  1 <= o ->
  exists a b c d n0,
    0 <= a /\ 0 <= b <= 4 /\ 0 <= c < 25 /\ 0 <= d <= 4 /\ 0 <= n0 < 365 /\
    o = a * DI400Y + b * DI100Y + c * DI4Y + d * 365 + n0 + 1 /\
    (b = 4 -> c = 0 /\ d = 0 /\ n0 = 0) /\
    (d = 4 -> n0 = 0 /\ c <> 24) /\
    fromordinal o
    = if (d =? 4) || (b =? 4)
      then mkdate (a * 400 + 1 + b * 100 + c * 4 + d - 1) 12 31
      else
        let md := DateFacts.month_day
                    n0 ((d =? 3) && (negb (c =? 24) || (b =? 3))) in
        mkdate (a * 400 + 1 + b * 100 + c * 4 + d) (fst md) (snd md).
Proof.
  intros Ho.
  set (n := o - 1).
  set (a := n / DI400Y). set (r400 := n mod DI400Y).
  set (b := r400 / DI100Y). set (r100 := r400 mod DI100Y).
  set (c := r100 / DI4Y). set (r4 := r100 mod DI4Y).
  set (d := r4 / 365). set (n0 := r4 mod 365).
  exists a, b, c, d, n0.
  assert (Hfacts :
    0 <= a /\ 0 <= b <= 4 /\ 0 <= c < 25 /\ 0 <= d <= 4 /\ 0 <= n0 < 365 /\
    o = a * DI400Y + b * DI100Y + c * DI4Y + d * 365 + n0 + 1 /\
    (b = 4 -> c = 0 /\ d = 0 /\ n0 = 0) /\
    (d = 4 -> n0 = 0 /\ c <> 24)).
  { pose proof (Z.div_mod n DI400Y ltac:(discriminate)) as E1.
    pose proof (Z.mod_pos_bound n DI400Y eq_refl) as B1.
    pose proof (Z.div_mod r400 DI100Y ltac:(discriminate)) as E2.
    pose proof (Z.mod_pos_bound r400 DI100Y eq_refl) as B2.
    pose proof (Z.div_mod r100 DI4Y ltac:(discriminate)) as E3.
    pose proof (Z.mod_pos_bound r100 DI4Y eq_refl) as B3.
    pose proof (Z.div_mod r4 365 ltac:(discriminate)) as E4.
    pose proof (Z.mod_pos_bound r4 365 eq_refl) as B4.
    fold a r400 in E1, B1. fold b r100 in E2, B2.
    fold c r4 in E3, B3. fold d n0 in E4, B4.
    unfold DI400Y, DI100Y, DI4Y in *.
    assert (n = o - 1) by reflexivity.
    clearbody a b c d n0 r4 r100 r400 n. lia. }
  repeat (split; [apply Hfacts|]).
  unfold fromordinal, DateFacts.month_day. cbv zeta.
  fold n. fold a r400. fold b r100. fold c r4. fold d n0.
  destruct ((d =? 4) || (b =? 4)); [reflexivity|].
  match goal with |- context [n0 <? ?p] => destruct (n0 <? p) end;
    reflexivity.
Qed.

(** Every ordinal of the range is the ordinal of a calendar date. *)
Lemma fromordinal_valid (o : Z) :
  1 <= o <= MAXORDINAL -> valid (fromordinal o) = true.
Proof.
  intros [Ho Hmax].
  destruct (fromordinal_parts o Ho)
    as (a & b & c & d & n0 & Ha & Hb & Hc & Hd & Hn0 & Eo & Hb4 & Hd4 & ->).
  unfold MAXORDINAL, DI400Y, DI100Y, DI4Y in *.
  destruct ((d =? 4) || (b =? 4)) eqn:E.
  - unfold valid, MINYEAR, MAXYEAR. cbn [year month day].
    change (days_in_month (a * 400 + 1 + b * 100 + c * 4 + d - 1) 12) with 31.
    apply orb_true_iff in E.
    repeat (apply andb_true_iff; split); try reflexivity; apply Z.leb_le;
      destruct E as [E|E]; apply Z.eqb_eq in E; lia.
  - apply orb_false_iff in E. destruct E as [Ed Eb].
    apply Z.eqb_neq in Ed. apply Z.eqb_neq in Eb.
    set (leap := (d =? 3) && (negb (c =? 24) || (b =? 3))).
    pose proof (DateFacts.month_day_checked leap n0 Hn0) as Hmd.
    unfold DateFacts.month_day_ok in Hmd. cbv zeta.
    destruct (DateFacts.month_day n0 leap) as [m dd].
    repeat (apply andb_true_iff in Hmd; destruct Hmd as [Hmd ?]).
    unfold valid, MINYEAR, MAXYEAR. cbn [year month day fst snd].
    assert (Hleap : is_leap (a * 400 + 1 + b * 100 + c * 4 + d) = leap)
      by (apply DateFacts.is_leap_parts; lia).
    unfold days_in_month. rewrite Hleap.
    repeat (apply andb_true_iff; split); try assumption; apply Z.leb_le; lia.
Qed.


(** The order of dates: by year, then month, then day. *)
Definition date_lt (d1 d2 : date) : Prop :=
  year d1 < year d2 \/
  (year d1 = year d2 /\
   (month d1 < month d2 \/ (month d1 = month d2 /\ day d1 < day d2))).

Lemma date_trichotomy (d1 d2 : date) :
  date_lt d1 d2 \/ d1 = d2 \/ date_lt d2 d1.
Proof.
  destruct d1 as [y1 m1 x1], d2 as [y2 m2 x2]. unfold date_lt.
  cbn [year month day].
  destruct (Z.eq_dec y1 y2) as [->|Hy]; [|lia].
  destruct (Z.eq_dec m1 m2) as [->|Hm]; [|lia].
  destruct (Z.eq_dec x1 x2) as [->|Hx]; [|lia].
  right. left. reflexivity.
Qed.

Definition year_length (y : Z) : Z := if is_leap y then 366 else 365.

Lemma days_before_year_succ (y : Z) :
  days_before_year (y + 1) = days_before_year y + year_length y.
Proof.
  unfold days_before_year, year_length, is_leap. cbv zeta.
  replace (y + 1 - 1) with y by lia.
  destruct (y mod 4 =? 0) eqn:E4; destruct (y mod 100 =? 0) eqn:E100;
    destruct (y mod 400 =? 0) eqn:E400;
    rewrite ?Z.eqb_eq, ?Z.eqb_neq in *; cbn [andb orb negb];
    Z.to_euclidean_division_equations; lia.
Qed.

Lemma year_length_pos (y : Z) : 365 <= year_length y.
Proof. unfold year_length. destruct (is_leap y); lia. Qed.

Lemma days_before_year_mono (y : Z) (k : nat) :
  days_before_year y <= days_before_year (y + Z.of_nat k).
Proof.
  induction k as [|k IH].
  - rewrite Z.add_0_r. lia.
  - replace (y + Z.of_nat (S k)) with (y + Z.of_nat k + 1) by lia.
    rewrite days_before_year_succ.
    pose proof (year_length_pos (y + Z.of_nat k)). lia.
Qed.

Lemma days_before_year_lt (y1 y2 : Z) :
  y1 < y2 -> days_before_year y1 + year_length y1 <= days_before_year y2.
Proof.
  intros H. rewrite <- days_before_year_succ.
  replace y2 with (y1 + 1 + Z.of_nat (Z.to_nat (y2 - y1 - 1))) by lia.
  apply days_before_year_mono.
Qed.

Lemma month_cases (m : Z) :
  1 <= m <= 12 ->
  m = 1 \/ m = 2 \/ m = 3 \/ m = 4 \/ m = 5 \/ m = 6 \/
  m = 7 \/ m = 8 \/ m = 9 \/ m = 10 \/ m = 11 \/ m = 12.
Proof. lia. Qed.

(** The days before a month and the days of the month, by leap flag. *)
Lemma month_table (y m : Z) :
  1 <= m <= 12 ->
  0 <= days_before_month y m /\
  28 <= days_in_month y m /\
  days_before_month y m + days_in_month y m <= year_length y /\
  (m < 12 ->
   days_before_month y (m + 1) = days_before_month y m + days_in_month y m).
Proof.
  intros Hm. unfold days_before_month, days_in_month, year_length.
  destruct (month_cases m Hm) as [->|[->|[->|[->|[->|[->|[->|[->|[->|[->|[->| ->]]]]]]]]]]];
    destruct (is_leap y);
    repeat split; try (apply Z.leb_le; reflexivity);
    intros H; try reflexivity; lia.
Qed.

Lemma days_before_month_mono (y m : Z) (k : nat) :
  1 <= m -> m + Z.of_nat k <= 12 ->
  days_before_month y m <= days_before_month y (m + Z.of_nat k).
Proof.
  intros Hm. induction k as [|k IH]; intros Hk.
  - rewrite Z.add_0_r. lia.
  - replace (m + Z.of_nat (S k)) with (m + Z.of_nat k + 1) by lia.
    destruct (month_table y (m + Z.of_nat k)) as (_ & H28 & _ & Hs); [lia|].
    rewrite Hs by lia. specialize (IH ltac:(lia)). lia.
Qed.

Lemma valid_fields (d : date) :
  valid d = true ->
  1 <= year d <= 9999 /\ 1 <= month d <= 12 /\
  1 <= day d <= days_in_month (year d) (month d).
Proof.
  unfold valid, MINYEAR, MAXYEAR. intros H.
  repeat (apply andb_true_iff in H; destruct H as [H ?]).
  repeat match goal with
         | H : (_ <=? _) = true |- _ => apply Z.leb_le in H
         end.
  lia.
Qed.

(** Later dates have later ordinals. *)
Lemma toordinal_lt (d1 d2 : date) :
  valid d1 = true -> valid d2 = true ->
  date_lt d1 d2 -> toordinal d1 < toordinal d2.
Proof.
  intros V1 V2 Hlt.
  destruct (valid_fields d1 V1) as (Hy1 & Hm1 & Hd1).
  destruct (valid_fields d2 V2) as (Hy2 & Hm2 & Hd2).
  destruct (month_table (year d1) (month d1) Hm1) as (H10 & _ & H1y & H1s).
  destruct (month_table (year d2) (month d2) Hm2) as (H20 & _ & _ & _).
  unfold toordinal. destruct Hlt as [Hy|[Ey [Hm|[Em Hd]]]].
  - pose proof (days_before_year_lt _ _ Hy). lia.
  - rewrite <- Ey in *.
    assert (Hmono : days_before_month (year d1) (month d1 + 1)
                    <= days_before_month (year d1) (month d2)).
    { replace (month d2)
        with (month d1 + 1 + Z.of_nat (Z.to_nat (month d2 - month d1 - 1)))
        by lia.
      apply days_before_month_mono; lia. }
    rewrite H1s in Hmono by lia. lia.
  - rewrite Ey, Em. lia.
Qed.

Lemma toordinal_inj (d1 d2 : date) :
  valid d1 = true -> valid d2 = true ->
  toordinal d1 = toordinal d2 -> d1 = d2.
Proof.
  intros V1 V2 E. destruct (date_trichotomy d1 d2) as [H|[H|H]].
  - pose proof (toordinal_lt _ _ V1 V2 H). lia.
  - exact H.
  - pose proof (toordinal_lt _ _ V2 V1 H). lia.
Qed.

Lemma toordinal_max (d : date) : valid d = true -> toordinal d <= MAXORDINAL.
Proof.
  intros V. destruct (date_trichotomy d (mkdate 9999 12 31)) as [H|[H|H]].
  - pose proof (toordinal_lt d (mkdate 9999 12 31) V eq_refl H) as Hlt.
    change (toordinal (mkdate 9999 12 31)) with MAXORDINAL in Hlt. lia.
  - rewrite H. apply Z.le_refl.
  - exfalso. destruct (valid_fields d V) as (Hy & Hm & Hd).
    assert (Hdim : days_in_month (year d) (month d) <= 31).
    { unfold days_in_month.
      destruct (month_cases (month d) Hm) as [->|[->|[->|[->|[->|[->|[->|[->|[->|[->|[->| ->]]]]]]]]]]];
        destruct (is_leap (year d)); apply Z.leb_le; reflexivity. }
    unfold date_lt in H. cbn [year month day] in H. lia.
Qed.

Lemma valid_day_31 (d : date) : valid d = true -> day d <= 31.
Proof.
  intros V. destruct (valid_fields d V) as (Hy & Hm & Hd).
  assert (days_in_month (year d) (month d) <= 31); [|lia].
  unfold days_in_month.
  destruct (month_cases (month d) Hm) as [->|[->|[->|[->|[->|[->|[->|[->|[->|[->|[->| ->]]]]]]]]]]];
    destruct (is_leap (year d)); apply Z.leb_le; reflexivity.
Qed.

(** A date is the date of its ordinal. *)
Lemma fromordinal_toordinal (d : date) :
  valid d = true -> fromordinal (toordinal d) = d.
Proof.
  intros V.
  pose proof (DateFacts.toordinal_pos d V) as Hpos.
  pose proof (toordinal_max d V) as Hmax.
  apply toordinal_inj.
  - apply fromordinal_valid. lia.
  - exact V.
  - apply DateFacts.toordinal_fromordinal. lia.
Qed.

Lemma fromordinal_lt (o1 o2 : Z) :
  1 <= o1 -> o1 < o2 -> o2 <= MAXORDINAL ->
  date_lt (fromordinal o1) (fromordinal o2).
Proof.
  intros H1 H12 H2.
  assert (V1 : valid (fromordinal o1) = true) by (apply fromordinal_valid; lia).
  assert (V2 : valid (fromordinal o2) = true) by (apply fromordinal_valid; lia).
  pose proof (DateFacts.toordinal_fromordinal o1 ltac:(lia)) as E1.
  pose proof (DateFacts.toordinal_fromordinal o2 ltac:(lia)) as E2.
  destruct (date_trichotomy (fromordinal o1) (fromordinal o2)) as [H|[H|H]].
  - exact H.
  - rewrite H in E1. lia.
  - pose proof (toordinal_lt _ _ V2 V1 H). lia.
Qed.

End DateOrder.

(** ** What a run of [add_despesa] writes *)

Section AddDespesa.

Variable data : Date.date.
Variables categoria forma_pagamento cartao : string.
Variable valor_total : Q.
Variable num_parcelas : Z.
Variable descricao : string.

(** The body of the loop, for a group identifier and an installment value. *)
Definition parcela_body (grupo_id : string) (valor_parcela : Q) (i : Z) : M unit :=
  despesa_id <- uuid4_8 ;;
  data_parcela <- date_add_days data (30 * i) ;;
  append_row
    (nova_linha despesa_id data_parcela categoria forma_pagamento cartao
                valor_parcela num_parcelas i grupo_id descricao).

(** The row of pass [k] (from 0) of a call that started after [c] calls of
    [uuid.uuid4()], where [u] gives the identifiers. *)
Definition parcela (u : nat -> string) (c : nat) (k : nat) : Despesa :=
  nova_linha (Py.slice_to 8 (u (c + 1 + k)%nat))
             (Date.fromordinal (Date.toordinal data + 30 * Z.of_nat k))
             categoria forma_pagamento cartao
             (Py.truediv valor_total num_parcelas)
             num_parcelas (Z.of_nat k) (Py.slice_to 8 (u c)) descricao.

(** The effects of pass [k]. *)
Definition parcela_effects (u : nat -> string) (c : nat) (k : nat) : list effect :=
  [Uuid4 (u (c + 1 + k)%nat); AppendRow (parcela u c k)].

(** Every installment date of [n] installments is a [date]. *)
Definition dates_representable (n : Z) : Prop :=
  0 < Date.toordinal data /\
  Date.toordinal data + 30 * (n - 1) <= Date.MAXORDINAL.

Lemma add_despesa_unfold w :
  add_despesa data categoria forma_pagamento cartao valor_total num_parcelas
              descricao w
  = (grupo_id <- uuid4_8 ;;
     valor_parcela <- float_div valor_total num_parcelas ;;
     for_each (range num_parcelas) (parcela_body grupo_id valor_parcela) ;;
     cache_data_clear) w.
Proof. reflexivity. Qed.

Lemma date_add_days_ok (k : Z) (w : World) :
  0 <= k ->
  0 < Date.toordinal data ->
  Date.toordinal data + k <= Date.MAXORDINAL ->
  date_add_days data k w
  = (Returned (Date.fromordinal (Date.toordinal data + k)), w).
Proof.
  intros Hk Hlo Hhi. unfold date_add_days, Date.MAXORDINAL in *.
  destruct (999999999 <? Z.abs k) eqn:E.
  - apply Z.ltb_lt in E. lia.
  - replace (0 <? Date.toordinal data + k) with true
      by (symmetry; apply Z.ltb_lt; lia).
    replace (Date.toordinal data + k <=? 3652059) with true
      by (symmetry; apply Z.leb_le; lia).
    reflexivity.
Qed.

(** The loop over passes [a .. a + len - 1], started after [c + 1 + a] calls
    of [uuid.uuid4()]: it returns, and appends one row per pass, in order. *)
Lemma for_each_parcelas (u : nat -> string) (c : nat) (len : nat) :
  forall (a : nat) (w : World),
    uuids w = u ->
    uuid_calls w = (c + 1 + a)%nat ->
    0 < Date.toordinal data ->
    Date.toordinal data + 30 * (Z.of_nat (a + len) - 1) <= Date.MAXORDINAL
      \/ len = O ->
    for_each (map Z.of_nat (seq a len))
             (parcela_body (Py.slice_to 8 (u c))
                           (Py.truediv valor_total num_parcelas)) w
    = (Returned tt,
       mkWorld (despesas w ++ map (parcela u c) (seq a len))
               u
               (c + 1 + a + len)%nat
               (log w ++ flat_map (parcela_effects u c) (seq a len))).
Proof.
  induction len as [|len IH]; intros a w Hu Hc Hlo Hhi.
  - simpl. unfold ret. rewrite !app_nil_r, Nat.add_0_r, <- Hc, <- Hu.
    destruct w; reflexivity.
  - destruct Hhi as [Hhi|Hhi]; [|discriminate].
    cbn [seq map for_each]. unfold bind at 1. unfold parcela_body at 1.
    unfold bind at 1. unfold uuid4_8 at 1.
    cbn -[Z.mul Z.add Date.fromordinal Date.toordinal].
    unfold bind at 1.
    rewrite date_add_days_ok by lia.
    unfold append_row at 1. cbn [despesas uuids uuid_calls log].
    rewrite Hu, Hc.
    rewrite IH.
    + cbn [despesas uuids uuid_calls log flat_map map parcela_effects].
      unfold parcela at 2 4.
      rewrite <- !app_assoc. cbn [app].
      f_equal. f_equal. lia.
    + reflexivity.
    + cbn [uuid_calls]. lia.
    + exact Hlo.
    + destruct len; [right; reflexivity|left]. lia.
Qed.

(** The rows and the effects of a whole call from world [w]. *)
Definition parcelas (w : World) : list Despesa :=
  map (parcela (uuids w) (uuid_calls w)) (seq 0 (Z.to_nat num_parcelas)).

Definition add_despesa_effects (w : World) : list effect :=
  Uuid4 (uuids w (uuid_calls w))
  :: flat_map (parcela_effects (uuids w) (uuid_calls w))
              (seq 0 (Z.to_nat num_parcelas))
  ++ [CacheDataClear].

(** With at least one installment and representable dates the call returns;
    the sheet, the identifiers drawn and the effects are as follows. *)
Lemma add_despesa_returns (w : World) :
  1 <= num_parcelas ->
  dates_representable num_parcelas ->
  add_despesa data categoria forma_pagamento cartao valor_total num_parcelas
              descricao w
  = (Returned tt,
     mkWorld (despesas w ++ parcelas w)
             (uuids w)
             (uuid_calls w + 1 + Z.to_nat num_parcelas)%nat
             (log w ++ add_despesa_effects w)).
Proof.
  intros Hn [Hlo Hhi]. rewrite add_despesa_unfold.
  unfold bind at 1. unfold uuid4_8 at 1. cbn [fst snd].
  unfold bind at 1. unfold float_div.
  destruct (num_parcelas =? 0) eqn:E; [apply Z.eqb_eq in E; lia|].
  unfold ret at 1. unfold bind at 1. unfold range.
  rewrite (for_each_parcelas (uuids w) (uuid_calls w)); cbn [uuids uuid_calls].
  - unfold cache_data_clear, emit. cbn [despesas uuids uuid_calls log].
    unfold parcelas, add_despesa_effects.
    rewrite Nat.add_0_r, <- !app_assoc. reflexivity.
  - reflexivity.
  - lia.
  - exact Hlo.
  - left. rewrite Nat.add_0_l, Z2Nat.id by lia. exact Hhi.
Qed.

Lemma parcelas_length (w : World) :
  List.length (parcelas w) = Z.to_nat num_parcelas.
Proof. unfold parcelas. now rewrite length_map, length_seq. Qed.

Lemma parcelas_nth (w : World) (k : nat) (d : Despesa) :
  (k < Z.to_nat num_parcelas)%nat ->
  nth k (parcelas w) d = parcela (uuids w) (uuid_calls w) k.
Proof.
  intros Hk. unfold parcelas.
  rewrite (nth_indep _ d (parcela (uuids w) (uuid_calls w) O))
    by (now rewrite length_map, length_seq).
  rewrite map_nth, seq_nth by exact Hk. reflexivity.
Qed.

Lemma parcelas_In (w : World) (r : Despesa) :
  In r (parcelas w) <->
  exists k, (k < Z.to_nat num_parcelas)%nat
            /\ r = parcela (uuids w) (uuid_calls w) k.
Proof.
  unfold parcelas. rewrite in_map_iff. split.
  - intros [k [Hr Hk]]. apply in_seq in Hk. exists k. split; [lia|now symmetry].
  - intros [k [Hk Hr]]. exists k. split; [now symmetry|apply in_seq; lia].
Qed.

Lemma parcelas_Parcela_Atual (w : World) :
  map Parcela_Atual (parcelas w)
  = map Z.of_nat (seq 1 (Z.to_nat num_parcelas)).
Proof.
  unfold parcelas. rewrite map_map, <- seq_shift, map_map.
  apply map_ext. intros k. cbn. lia.
Qed.

(** What every row written by a call looks like, whether the call returns
    or raises on the way. *)
Definition row_of_call (grupo_id : string) (valor_parcela : Q) (r : Despesa)
  : Prop :=
  exists despesa_id data_parcela i,
    0 <= i < num_parcelas /\
    r = nova_linha despesa_id data_parcela categoria forma_pagamento cartao
                   valor_parcela num_parcelas i grupo_id descricao.

Lemma parcela_body_rows (g : string) (vp : Q) (i : Z) (w : World) :
  0 <= i < num_parcelas ->
  exists rows,
    despesas (snd (parcela_body g vp i w)) = despesas w ++ rows /\
    Forall (row_of_call g vp) rows.
Proof.
  intros Hi. unfold parcela_body, bind, uuid4_8, date_add_days.
  destruct (999999999 <? Z.abs (30 * i)).
  - exists []. cbn. rewrite app_nil_r. split; [reflexivity|constructor].
  - destruct ((0 <? Date.toordinal data + 30 * i)
              && (Date.toordinal data + 30 * i <=? Date.MAXORDINAL)).
    + eexists [_]. cbn. split; [reflexivity|].
      constructor; [|constructor]. do 3 eexists. split; [exact Hi|reflexivity].
    + exists []. cbn. rewrite app_nil_r. split; [reflexivity|constructor].
Qed.

Lemma for_each_rows (g : string) (vp : Q) (l : list Z) :
  (forall i, In i l -> 0 <= i < num_parcelas) ->
  forall w, exists rows,
    despesas (snd (for_each l (parcela_body g vp) w)) = despesas w ++ rows /\
    Forall (row_of_call g vp) rows.
Proof.
  induction l as [|i l IH]; intros Hl w.
  - exists []. cbn. rewrite app_nil_r. split; [reflexivity|constructor].
  - cbn [for_each]. unfold bind at 1.
    destruct (parcela_body_rows g vp i w (Hl i (or_introl eq_refl)))
      as (rows1 & E1 & F1).
    destruct (parcela_body g vp i w) as [[[]|e] w1]; cbn [snd] in *.
    + destruct (IH (fun j Hj => Hl j (or_intror Hj)) w1) as (rows2 & E2 & F2).
      exists (rows1 ++ rows2). rewrite E2, E1, app_assoc.
      split; [reflexivity|]. apply Forall_app. split; assumption.
    + exists rows1. split; assumption.
Qed.

Lemma range_In (n i : Z) : In i (range n) <-> 0 <= i < n.
Proof.
  unfold range. rewrite in_map_iff. split.
  - intros (k & <- & Hk). apply in_seq in Hk. lia.
  - intros Hi. exists (Z.to_nat i). split; [lia|]. apply in_seq. lia.
Qed.

(** Whatever a call does, the sheet only grows, and by rows of the call. *)
Lemma add_despesa_rows (w : World) :
  exists rows,
    despesas (snd (add_despesa data categoria forma_pagamento cartao
                               valor_total num_parcelas descricao w))
    = despesas w ++ rows /\
    Forall (row_of_call (Py.slice_to 8 (uuids w (uuid_calls w)))
                        (Py.truediv valor_total num_parcelas)) rows.
Proof.
  rewrite add_despesa_unfold. unfold bind at 1. unfold uuid4_8 at 1.
  unfold bind at 1. unfold float_div.
  destruct (num_parcelas =? 0).
  - exists []. cbn. rewrite app_nil_r. split; [reflexivity|constructor].
  - unfold ret at 1. unfold bind at 1.
    match goal with
    | |- context [for_each ?l ?b ?w1] =>
        destruct (for_each_rows (Py.slice_to 8 (uuids w (uuid_calls w)))
                    (Py.truediv valor_total num_parcelas) (range num_parcelas)
                    (fun i Hi => proj1 (range_In num_parcelas i) Hi) w1)
          as (rows & E & F);
        destruct (for_each l b w1) as [[[]|e] w2]
    end; cbn [snd despesas] in *; exists rows; split; assumption.
Qed.

End AddDespesa.

(** ** Rounding and sums of amounts *)

Lemma round_half_even_near (x : Q) :
  (x - (1 # 2) <= inject_Z (Py.round_half_even x) <= x + (1 # 2))%Q.
Proof.
  unfold Py.round_half_even.
  pose proof (Qfloor_le x) as Hf.
  pose proof (Qlt_floor x) as Hc.
  rewrite inject_Z_plus in Hc. change (inject_Z 1) with 1%Q in Hc.
  destruct (x - inject_Z (Qfloor x) ?= 1 # 2)%Q eqn:E.
  - apply Qeq_alt in E.
    destruct (Z.even (Qfloor x)).
    + lra.
    + rewrite inject_Z_plus. change (inject_Z 1) with 1%Q. lra.
  - apply Qlt_alt in E. lra.
  - apply Qgt_alt in E. rewrite inject_Z_plus. change (inject_Z 1) with 1%Q. lra.
Qed.

Lemma round_half_even_nonneg (x : Q) :
  (0 <= x)%Q -> 0 <= Py.round_half_even x.
Proof.
  intros Hx. unfold Py.round_half_even. cbv zeta.
  assert (Hf : 0 <= Qfloor x).
  { change 0 with (Qfloor 0). apply Qfloor_resp_le. exact Hx. }
  destruct (_ ?= _)%Q; [destruct (Z.even _)|..]; lia.
Qed.

(** *** The nearest float *)

Lemma pow2_pos (e : Z) : (0 < 2 ^ e)%Q.
Proof. apply Qpower_0_lt. reflexivity. Qed.

Lemma ilog2_le (q : Q) : (0 < q)%Q -> (2 ^ Py.ilog2 q <= q)%Q.
Proof.
  intros Hq. unfold Py.ilog2. cbv zeta.
  set (e := Z.log2 (Qnum q) - Z.log2 (Z.pos (Qden q))).
  destruct (Qle_bool (2 ^ e) q) eqn:E; [apply Qle_bool_iff; exact E|].
  destruct q as [a b]. cbn [Qnum Qden] in *.
  assert (Ha : 0 < a) by (unfold Qlt in Hq; cbn in Hq; lia).
  pose proof (Z.log2_spec a Ha) as [Ha1 _].
  pose proof (Z.log2_spec (Z.pos b) (Pos2Z.is_pos b)) as [_ Hb2].
  pose proof (Z.log2_nonneg a) as Hla.
  pose proof (Z.log2_nonneg (Z.pos b)) as Hlb.
  replace (e - 1) with (Z.log2 a - Z.succ (Z.log2 (Z.pos b)))
    by (unfold e; lia).
  rewrite Qpower_minus by discriminate.
  change 2%Q with (inject_Z 2).
  rewrite <- !Zpower_Qpower by lia.
  set (pa := 2 ^ Z.log2 a) in *.
  set (pb := 2 ^ Z.succ (Z.log2 (Z.pos b))) in *.
  assert (Hpb : 0 < pb) by lia.
  apply Qle_shift_div_r.
  - change 0%Q with (inject_Z 0). rewrite <- Zlt_Qlt. exact Hpb.
  - unfold Qle. cbn. nia.
Qed.

Lemma ilog2_lt (q : Q) (k : Z) :
  (0 < q)%Q -> (q < 2 ^ k)%Q -> Py.ilog2 q < k.
Proof.
  intros Hq Hk. pose proof (ilog2_le q Hq) as H.
  apply (Qpower_lt_compat_l_inv 2); [|reflexivity].
  eapply Qle_lt_trans; eassumption.
Qed.

(** Below [2^45] two neighbouring floats are at most [2^-8] apart, so the
    nearest float is within [2^-9]. *)
Lemma nearest_near (q : Q) :
  (0 < q)%Q -> (q < 2 ^ 45)%Q ->
  (q - (1 # 512) <= Py.nearest q <= q + (1 # 512))%Q.
Proof.
  intros Hq Hk. unfold Py.nearest. cbv zeta. rewrite Qred_correct.
  pose proof (ilog2_lt q 45 Hq Hk) as He.
  set (s := Z.max (Py.ilog2 q - 52) (-1074)).
  assert (Hs : s <= -8) by (unfold s; lia).
  pose proof (pow2_pos s) as Hp.
  assert (Hp8 : (2 ^ s <= 1 # 256)%Q).
  { change (1 # 256)%Q with (2 ^ (-8))%Q.
    apply Qpower_le_compat_l; [exact Hs|discriminate]. }
  pose proof (round_half_even_near (q / 2 ^ s)) as Hr.
  assert (Hmul : (q / 2 ^ s * 2 ^ s == q)%Q)
    by (rewrite Qmult_comm; apply Qmult_div_r; lra).
  set (m := inject_Z (Py.round_half_even (q / 2 ^ s))) in *.
  set (x := (q / 2 ^ s)%Q) in *. set (p := (2 ^ s)%Q) in *.
  split; nra.
Qed.

Lemma to_float_near (q : Q) :
  (0 <= q)%Q -> (q < 2 ^ 45)%Q ->
  (q - (1 # 512) <= Py.to_float q <= q + (1 # 512))%Q.
Proof.
  intros Hq Hk. unfold Py.to_float. destruct q as [[|a|a] b]; cbn [Qnum].
  - assert (E : (0 # b == 0)%Q) by reflexivity. rewrite E. lra.
  - apply nearest_near; [reflexivity|exact Hk].
  - exfalso. unfold Qle in Hq. cbn in Hq. lia.
Qed.

Lemma nearest_nonneg (q : Q) : (0 < q)%Q -> (0 <= Py.nearest q)%Q.
Proof.
  intros Hq. unfold Py.nearest. cbv zeta. rewrite Qred_correct.
  set (s := Z.max (Py.ilog2 q - 52) (-1074)).
  pose proof (pow2_pos s) as Hp.
  assert (Hx : (0 <= q / 2 ^ s)%Q) by (apply Qle_shift_div_l; lra).
  pose proof (round_half_even_nonneg _ Hx) as Hm.
  apply Qmult_le_0_compat; [|lra].
  change 0%Q with (inject_Z 0). rewrite <- Zle_Qle. exact Hm.
Qed.

Lemma to_float_nonneg (q : Q) : (0 <= q)%Q -> (0 <= Py.to_float q)%Q.
Proof.
  intros Hq. unfold Py.to_float. destruct q as [[|a|a] b]; cbn [Qnum].
  - lra.
  - apply nearest_nonneg. reflexivity.
  - exfalso. unfold Qle in Hq. cbn in Hq. lia.
Qed.

(** For a total of at most [10^13], the cents that an installment stores
    are within a cent of the exact quotient: the quotient and the stored
    float are each within [2^-9] of the number they round, and the rounding
    to two places moves by at most half a cent. *)
Lemma round2_truediv_near (T : Q) (n : Z) :
  1 <= n -> (0 <= T)%Q -> (T <= 10000000000000)%Q ->
  (T / inject_Z n - (1 # 100) <= Py.round2 (Py.truediv T n)
   <= T / inject_Z n + (1 # 100))%Q.
Proof.
  intros Hn H0 Hmax.
  assert (Hq : (1 <= inject_Z n)%Q).
  { change 1%Q with (inject_Z 1). rewrite <- Zle_Qle. exact Hn. }
  assert (Hmul : (inject_Z n * (T / inject_Z n) == T)%Q).
  { apply Qmult_div_r. lra. }
  assert (Hx0 : (0 <= T / inject_Z n)%Q) by (apply Qle_shift_div_l; lra).
  assert (HxT : (T / inject_Z n <= T)%Q).
  { apply Qle_shift_div_r; [lra|]. nra. }
  assert (H45 : (2 ^ 45 == 35184372088832)%Q) by reflexivity.
  unfold Py.truediv, Py.round2.
  pose proof (to_float_near (T / inject_Z n) Hx0 ltac:(lra)) as Hx.
  pose proof (to_float_nonneg (T / inject_Z n) Hx0) as Hxn.
  set (x := Py.to_float (T / inject_Z n)) in *.
  pose proof (round_half_even_near (x * 100)) as Hk.
  assert (Hkz : 0 <= Py.round_half_even (x * 100))
    by (apply round_half_even_nonneg; lra).
  set (k := inject_Z (Py.round_half_even (x * 100))) in *.
  assert (Hk100 : (k / 100 == k * (1 # 100))%Q) by field.
  assert (Hk0 : (0 <= k / 100)%Q).
  { rewrite Hk100. apply Qmult_le_0_compat; [|lra].
    unfold k. change 0%Q with (inject_Z 0). rewrite <- Zle_Qle. exact Hkz. }
  set (kq := (k / 100)%Q) in *.
  pose proof (to_float_near kq Hk0 ltac:(lra)) as Hv.
  set (v := Py.to_float kq) in *. lra.
Qed.

Lemma col_sum_nil : col_sum [] = 0%Q.
Proof. reflexivity. Qed.

Lemma col_sum_cons (x : Q) (l : list Q) : col_sum (x :: l) = (x + col_sum l)%Q.
Proof. reflexivity. Qed.

Lemma col_sum_const (A : Type) (c : Q) (l : list A) :
  (col_sum (map (fun _ => c) l) == inject_Z (Z.of_nat (List.length l)) * c)%Q.
Proof.
  induction l as [|a l IH].
  - cbn [map List.length Z.of_nat]. rewrite col_sum_nil.
    change (inject_Z 0) with 0%Q. lra.
  - cbn [map List.length]. rewrite col_sum_cons, IH, Nat2Z.inj_succ. unfold Z.succ. rewrite inject_Z_plus.
    change (inject_Z 1) with 1%Q. lra.
Qed.

(** For a total of at most [10^13], [n] copies of the stored installment
    add up to the total within [n] cents. *)
Lemma installments_sum_near (T : Q) (n : Z) :
  1 <= n -> (0 <= T)%Q -> (T <= 10000000000000)%Q ->
  (Qabs (inject_Z n * Py.round2 (Py.truediv T n) - T)
   <= inject_Z n * (1 # 100))%Q.
Proof.
  intros Hn H0 Hmax.
  assert (Hq : (1 <= inject_Z n)%Q).
  { change 1%Q with (inject_Z 1). rewrite <- Zle_Qle. exact Hn. }
  assert (Hmul : (inject_Z n * (T / inject_Z n) == T)%Q).
  { apply Qmult_div_r. lra. }
  pose proof (round2_truediv_near T n Hn H0 Hmax) as Hr.
  set (q := (T / inject_Z n)%Q) in *.
  set (r := Py.round2 (Py.truediv T n)) in *.
  set (m := inject_Z n) in *.
  apply Qabs_Qle_condition. split; nra.
Qed.

(** ** Installments written by [add_despesa] *)

Lemma parcelas_Valor data cat fp cartao T n desc w :
  map Valor (parcelas data cat fp cartao T n desc w)
  = map (fun _ => Py.round2 (Py.truediv T n)) (seq 0 (Z.to_nat n)).
Proof. unfold parcelas. rewrite map_map. reflexivity. Qed.

Lemma parcelas_sum data cat fp cartao T n desc w :
  0 <= n ->
  (col_sum (map Valor (parcelas data cat fp cartao T n desc w))
   == inject_Z n * Py.round2 (Py.truediv T n))%Q.
Proof.
  intros Hn. rewrite parcelas_Valor, col_sum_const, length_seq, Z2Nat.id by exact Hn.
  reflexivity.
Qed.

Lemma indices_NoDup (k : nat) : NoDup (map Z.of_nat (seq 1 k)).
Proof.
  apply Finite.Injective_map_NoDup; [|apply seq_NoDup].
  intros a b. apply Nat2Z.inj.
Qed.

Lemma indices_In (n i : Z) :
  In i (map Z.of_nat (seq 1 (Z.to_nat n))) <-> 1 <= i <= n.
Proof.
  rewrite in_map_iff. split.
  - intros (k & <- & Hk). apply in_seq in Hk. lia.
  - intros Hi. exists (Z.to_nat i). split; [lia|]. apply in_seq. lia.
Qed.

(** C1 (as amended).  For an installment count [n >= 1] with installment
    dates that [date] can represent, [add_despesa] returns and the sheet
    gains exactly [n] rows; their installment indices are pairwise distinct
    and are exactly 1..n; all of them carry one group identifier and the
    count [n]; and for a total between 0 and [10^13] their amounts add up
    to the total within [n * 0.01]. *)
Theorem C1_installments_generated
    (data : Date.date) (categoria forma_pagamento cartao : string)
    (valor_total : Q) (num_parcelas : Z) (descricao : string) (w : World) :
  1 <= num_parcelas ->
  dates_representable data num_parcelas ->
  exists w' rows,
    add_despesa data categoria forma_pagamento cartao valor_total
                num_parcelas descricao w = (Returned tt, w') /\
    despesas w' = despesas w ++ rows /\
    Z.of_nat (List.length rows) = num_parcelas /\
    NoDup (map Parcela_Atual rows) /\
    (forall i, In i (map Parcela_Atual rows) <-> 1 <= i <= num_parcelas) /\
    (exists grupo_id, forall r, In r rows ->
       ID_Grupo_Parcelado r = grupo_id /\ Parcelas r = num_parcelas) /\
    ((0 <= valor_total)%Q -> (valor_total <= 10000000000000)%Q ->
     (Qabs (col_sum (map Valor rows) - valor_total)
      <= inject_Z num_parcelas * (1 # 100))%Q).
Proof.
  intros Hn Hd.
  eexists. exists (parcelas data categoria forma_pagamento cartao valor_total
                            num_parcelas descricao w).
  split; [apply add_despesa_returns; assumption|].
  split; [reflexivity|].
  split; [rewrite parcelas_length; lia|].
  rewrite parcelas_Parcela_Atual.
  split; [apply indices_NoDup|].
  split; [apply indices_In|].
  split.
  - exists (Py.slice_to 8 (uuids w (uuid_calls w))).
    intros r Hr. apply parcelas_In in Hr. destruct Hr as (k & _ & ->).
    split; reflexivity.
  - intros H0 Hmax. rewrite parcelas_sum by lia.
    apply installments_sum_near; assumption.
Qed.

(** 100.00 in three installments: the bound holds. *)
Lemma C1_witness :
  exists w' rows,
    add_despesa (Date.mkdate 2024 1 31) "Casa" "PIX" "" 100 3 "Sofa" w_empty
    = (Returned tt, w') /\
    despesas w' = despesas w_empty ++ rows /\
    Z.of_nat (List.length rows) = 3 /\
    NoDup (map Parcela_Atual rows) /\
    (forall i, In i (map Parcela_Atual rows) <-> 1 <= i <= 3) /\
    (exists grupo_id, forall r, In r rows ->
       ID_Grupo_Parcelado r = grupo_id /\ Parcelas r = 3) /\
    (Qabs (col_sum (map Valor rows) - 100) <= inject_Z 3 * (1 # 100))%Q.
Proof.
  destruct (C1_installments_generated (Date.mkdate 2024 1 31) "Casa" "PIX" ""
              100 3 "Sofa" w_empty)
    as (w' & rows & H1 & H2 & H3 & H4 & H5 & H6 & H7).
  - lia.
  - unfold dates_representable. vm_compute. split; [reflexivity|discriminate].
  - exists w', rows. repeat (split; [assumption|]).
    apply H7; vm_compute; discriminate.
Defined.

(** C1 as stated fails for large totals, where the floats are more than a
    cent apart: 10^15 in 3 installments is stored as three times
    333333333333333.3125, which misses the total by 0.0625, more than
    [3 * 0.01]. *)
Lemma C1_counterexample :
  exists w' rows,
    add_despesa (Date.mkdate 2024 1 31) "Casa" "PIX" "" 1000000000000000 3
                "Sofa" w_empty
    = (Returned tt, w') /\
    despesas w' = rows /\
    List.length rows = 3%nat /\
    (forall r, In r rows -> Valor r = (5333333333333333 # 16)%Q) /\
    (col_sum (map Valor rows) - 1000000000000000 == - (1 # 16))%Q /\
    ~ (Qabs (col_sum (map Valor rows) - 1000000000000000)
       <= inject_Z 3 * (1 # 100))%Q.
Proof.
  eexists. eexists. split; [vm_compute; reflexivity|].
  cbn [despesas]. split; [reflexivity|]. split; [reflexivity|].
  split; [intros r [<-|[<-|[<-|[]]]]; reflexivity|].
  split; [reflexivity|]. vm_compute. intros H. apply H. reflexivity.
Qed.

Lemma parcelas_nth_error data cat fp cartao T n desc w (k : nat) :
  (k < Z.to_nat n)%nat ->
  nth_error (parcelas data cat fp cartao T n desc w) k
  = Some (parcela data cat fp cartao T n desc (uuids w) (uuid_calls w) k).
Proof.
  intros Hk. unfold parcelas.
  rewrite nth_error_map, nth_error_nth' with (d := O)
    by (rewrite length_seq; exact Hk).
  rewrite seq_nth by exact Hk. reflexivity.
Qed.

(** *** Reading a stored date

    What a text 'Y-M-D' says, read independently of how it was written. *)

(** The value of a decimal digit. *)
Definition digit_value (c : ascii) : option Z :=
  let n := N_of_ascii c in
  if ((48 <=? n) && (n <=? 57))%N then Some (Z.of_N n - 48) else None.

(** The number that a text of decimal digits writes after [acc]. *)
Fixpoint digits_value (acc : Z) (s : string) : option Z :=
  match s with
  | EmptyString => Some acc
  | String c s' =>
      match digit_value c with
      | Some v => digits_value (10 * acc + v) s'
      | None => None
      end
  end.

(** The number that a nonempty text of decimal digits writes. *)
Definition number_written (s : string) : option Z :=
  match s with
  | EmptyString => None
  | String _ _ => digits_value 0 s
  end.

(** The fields of a text between the separators [sep]; [field] is the part
    of the current field already read. *)
Fixpoint fields (sep : ascii) (field : string) (s : string) : list string :=
  match s with
  | EmptyString => [field]
  | String c s' =>
      if Ascii.eqb c sep then field :: fields sep EmptyString s'
      else fields sep (field ++ String c EmptyString)%string s'
  end.

(** The year, month and day that a text 'Y-M-D' writes. *)
Definition date_written (s : string) : option (Z * Z * Z) :=
  match fields "-" EmptyString s with
  | [y; m; d] =>
      match number_written y, number_written m, number_written d with
      | Some y', Some m', Some d' => Some (y', m', d')
      | _, _, _ => None
      end
  | _ => None
  end.

Lemma string_length_append (s t : string) :
  String.length (s ++ t) = (String.length s + String.length t)%nat.
Proof. induction s as [|a s IH]; cbn; [reflexivity|]. rewrite IH. reflexivity. Qed.

Lemma pad_digits_length (w : nat) (n : Z) : String.length (Py.pad_digits w n) = w.
Proof.
  revert n. induction w as [|w IH]; intros n; [reflexivity|].
  cbn [Py.pad_digits]. rewrite string_length_append, IH. cbn. lia.
Qed.

Lemma digit_cases (n : Z) :
  0 <= n mod 10 < 10 ->
  n mod 10 = 0 \/ n mod 10 = 1 \/ n mod 10 = 2 \/ n mod 10 = 3 \/
  n mod 10 = 4 \/ n mod 10 = 5 \/ n mod 10 = 6 \/ n mod 10 = 7 \/
  n mod 10 = 8 \/ n mod 10 = 9.
Proof. lia. Qed.

Lemma digit_char (n : Z) :
  let c := ascii_of_N (48 + Z.to_N (n mod 10)) in
  digit_value c = Some (n mod 10) /\ Ascii.eqb c "-" = false.
Proof.
  pose proof (Z.mod_pos_bound n 10 eq_refl) as Hb.
  destruct (digit_cases n Hb) as [E|[E|[E|[E|[E|[E|[E|[E|[E|E]]]]]]]]];
    rewrite E; split; reflexivity.
Qed.

Lemma string_app_assoc (a b c : string) :
  ((a ++ b) ++ c = a ++ (b ++ c))%string.
Proof. induction a as [|x a IH]; cbn; [reflexivity|]. rewrite IH. reflexivity. Qed.

Lemma string_app_nil_r (a : string) : (a ++ "" = a)%string.
Proof. induction a as [|x a IH]; cbn; [reflexivity|]. rewrite IH. reflexivity. Qed.

Lemma digits_value_app (s t : string) :
  forall acc,
    digits_value acc (s ++ t)
    = match digits_value acc s with
      | Some a => digits_value a t
      | None => None
      end.
Proof.
  induction s as [|c s IH]; intros acc; cbn; [reflexivity|].
  destruct (digit_value c); [apply IH|reflexivity].
Qed.

Lemma digits_value_pad (w : nat) :
  forall n acc,
    0 <= n < 10 ^ Z.of_nat w ->
    digits_value acc (Py.pad_digits w n) = Some (acc * 10 ^ Z.of_nat w + n).
Proof.
  induction w as [|w IH]; intros n acc Hn.
  - cbn in *. f_equal. lia.
  - rewrite Nat2Z.inj_succ, Z.pow_succ_r in * by lia.
    cbn [Py.pad_digits]. rewrite digits_value_app, IH
      by (Z.to_euclidean_division_equations; lia).
    cbn [digits_value]. destruct (digit_char n) as [-> _]. f_equal.
    Z.to_euclidean_division_equations; lia.
Qed.

Lemma number_written_pad (w : nat) (n : Z) :
  0 <= n < 10 ^ Z.of_nat (S w) ->
  number_written (Py.pad_digits (S w) n) = Some n.
Proof.
  intros Hn. pose proof (digits_value_pad (S w) n 0 Hn) as H.
  pose proof (pad_digits_length (S w) n) as Hlen.
  unfold number_written.
  destruct (Py.pad_digits (S w) n) eqn:E; [discriminate Hlen|].
  rewrite H. f_equal; lia.
Qed.

Lemma fields_pad (w : nat) :
  forall n field rest,
    fields "-" field (Py.pad_digits w n ++ rest)
    = fields "-" (field ++ Py.pad_digits w n) rest.
Proof.
  induction w as [|w IH]; intros n field rest.
  - cbn. rewrite string_app_nil_r. reflexivity.
  - cbn [Py.pad_digits]. rewrite string_app_assoc, IH.
    cbn [append fields]. destruct (digit_char n) as [_ ->].
    rewrite string_app_assoc. reflexivity.
Qed.

Lemma year_text_pad (y : Z) :
  0 <= y <= 9999 ->
  exists w, Date.year_text y = Py.pad_digits (S w) y
            /\ y < 10 ^ Z.of_nat (S w).
Proof.
  intros Hy. unfold Date.year_text.
  destruct (y <? 10) eqn:E1; [apply Z.ltb_lt in E1; exists 0%nat; split; [reflexivity|exact E1]|].
  destruct (y <? 100) eqn:E2; [apply Z.ltb_lt in E2; exists 1%nat; split; [reflexivity|exact E2]|].
  destruct (y <? 1000) eqn:E3; [apply Z.ltb_lt in E3; exists 2%nat; split; [reflexivity|exact E3]|].
  exists 3%nat. split; [reflexivity|]. change (10 ^ Z.of_nat 4) with 10000. lia.
Qed.

(** The text that [strftime] writes for a date says that date. *)
Lemma date_written_strftime (d : Date.date) :
  Date.valid d = true ->
  date_written (Date.strftime_Ymd d)
  = Some (Date.year d, Date.month d, Date.day d).
Proof.
  intros V.
  destruct (DateOrder.valid_fields d V) as (Hy & Hm & Hd).
  pose proof (DateOrder.valid_day_31 d V) as H31.
  destruct (year_text_pad (Date.year d)) as (w & Ey & Hw); [lia|].
  unfold date_written, Date.strftime_Ymd. rewrite Ey.
  rewrite fields_pad. cbn [append fields Ascii.eqb Bool.eqb].
  rewrite fields_pad. cbn [append fields Ascii.eqb Bool.eqb].
  rewrite <- (string_app_nil_r (Py.pad_digits 2 (Date.day d))), fields_pad.
  cbn [append fields].
  rewrite !number_written_pad; [reflexivity|..];
    try (change (10 ^ Z.of_nat 2) with 100); lia.
Qed.

(** C2. The installment with index [i] in 1..n is stored with the date
    [data + timedelta(days=30*(i-1))]: the calendar date [d] whose ordinal
    is that of the submission date plus [30*(i-1)], a fixed offset of 30
    days per installment.  There is one such date; the stored text is
    [d.strftime('%Y-%m-%d')], and read back it says the year, month and
    day of [d]. *)
Theorem C2_installment_dates
    (data : Date.date) (categoria forma_pagamento cartao : string)
    (valor_total : Q) (num_parcelas : Z) (descricao : string) (w : World) :
  1 <= num_parcelas ->
  dates_representable data num_parcelas ->
  exists w' rows,
    add_despesa data categoria forma_pagamento cartao valor_total
                num_parcelas descricao w = (Returned tt, w') /\
    despesas w' = despesas w ++ rows /\
    forall i, 1 <= i <= num_parcelas ->
      exists r d,
        nth_error rows (Z.to_nat (i - 1)) = Some r /\
        Parcela_Atual r = i /\
        date_add_days data (30 * (i - 1)) w = (Returned d, w) /\
        Date.valid d = true /\
        Date.toordinal d = Date.toordinal data + 30 * (i - 1) /\
        (forall d', Date.valid d' = true ->
                    Date.toordinal d'
                    = Date.toordinal data + 30 * (i - 1) ->
                    d' = d) /\
        Data r = Date.strftime_Ymd d /\
        date_written (Data r) = Some (Date.year d, Date.month d, Date.day d).
Proof.
  intros Hn Hd.
  eexists. exists (parcelas data categoria forma_pagamento cartao valor_total
                            num_parcelas descricao w).
  split; [apply add_despesa_returns; assumption|].
  split; [reflexivity|].
  intros i Hi. destruct Hd as [Hlo Hhi].
  set (d := Date.fromordinal (Date.toordinal data + 30 * (i - 1))).
  assert (Hv : Date.valid d = true)
    by (apply DateOrder.fromordinal_valid; lia).
  assert (Ho : Date.toordinal d = Date.toordinal data + 30 * (i - 1))
    by (apply DateFacts.toordinal_fromordinal; lia).
  assert (Hr : Data (parcela data categoria forma_pagamento cartao valor_total
                             num_parcelas descricao (uuids w) (uuid_calls w)
                             (Z.to_nat (i - 1)))
               = Date.strftime_Ymd d).
  { cbn. rewrite Z2Nat.id by lia. reflexivity. }
  eexists. exists d.
  split; [apply parcelas_nth_error; lia|].
  split; [cbn; lia|].
  split; [apply date_add_days_ok; lia|].
  split; [exact Hv|]. split; [exact Ho|].
  split.
  { intros d' Hv' Ho'. apply DateOrder.toordinal_inj; [assumption..|lia]. }
  split; [exact Hr|].
  rewrite Hr. apply date_written_strftime. exact Hv.
Qed.

Lemma C2_witness :
  exists w' rows,
    add_despesa (Date.mkdate 2024 1 31) "Casa" "PIX" "" 100 3 "Sofa" w_empty
    = (Returned tt, w') /\
    despesas w' = despesas w_empty ++ rows /\
    forall i, 1 <= i <= 3 ->
      exists r d,
        nth_error rows (Z.to_nat (i - 1)) = Some r /\
        Parcela_Atual r = i /\
        date_add_days (Date.mkdate 2024 1 31) (30 * (i - 1)) w_empty
        = (Returned d, w_empty) /\
        Date.valid d = true /\
        Date.toordinal d
        = Date.toordinal (Date.mkdate 2024 1 31) + 30 * (i - 1) /\
        (forall d', Date.valid d' = true ->
                    Date.toordinal d'
                    = Date.toordinal (Date.mkdate 2024 1 31) + 30 * (i - 1) ->
                    d' = d) /\
        Data r = Date.strftime_Ymd d /\
        date_written (Data r) = Some (Date.year d, Date.month d, Date.day d).
Proof.
  apply (C2_installment_dates (Date.mkdate 2024 1 31) "Casa" "PIX" "" 100 3
                              "Sofa" w_empty).
  - lia.
  - unfold dates_representable. vm_compute. split; [reflexivity|discriminate].
Defined.

(** The dates of the example, read back from the sheet: 31 January, then
    1 March and 31 March, 30 and 60 days later. *)
Example dates_100_3 :
  let '(_, w) := add_despesa (Date.mkdate 2024 1 31) "Casa" "PIX" "" 100 3
                             "Sofa" w_empty in
  map (fun r => date_written (Data r)) (despesas w)
  = [Some (2024, 1, 31); Some (2024, 3, 1); Some (2024, 3, 31)].
Proof. vm_compute. reflexivity. Qed.

(** C3 (as amended).  Every installment row of one call stores the same
    amount, [round(valor_total / num_parcelas, 2)]: the float nearest to
    [k] cents, where [k] is the whole number nearest to a hundred times the
    float quotient (the even one of two equally near).  The last row
    stores it too, so no row absorbs the rounding remainder, and the rows
    add up to [num_parcelas] times that amount.  For a total between 0 and
    [10^13] the stored amount is within [2^-9] of [k] cents and the rows
    add up to the total within [num_parcelas * 0.01]. *)
Theorem C3_equal_rounded_amounts
    (data : Date.date) (categoria forma_pagamento cartao : string)
    (valor_total : Q) (num_parcelas : Z) (descricao : string) (w : World) :
  1 <= num_parcelas ->
  dates_representable data num_parcelas ->
  exists w' rows k,
    add_despesa data categoria forma_pagamento cartao valor_total
                num_parcelas descricao w = (Returned tt, w') /\
    despesas w' = despesas w ++ rows /\
    k = Py.round_half_even (Py.truediv valor_total num_parcelas * 100) /\
    (inject_Z k - (1 # 2) <= Py.truediv valor_total num_parcelas * 100
     <= inject_Z k + (1 # 2))%Q /\
    (forall r, In r rows ->
       Valor r = Py.round2 (Py.truediv valor_total num_parcelas) /\
       Valor r = Py.to_float (inject_Z k / 100)) /\
    (exists r, nth_error rows (Z.to_nat (num_parcelas - 1)) = Some r /\
               Parcela_Atual r = num_parcelas /\
               Valor r = Py.to_float (inject_Z k / 100)) /\
    (col_sum (map Valor rows)
     == inject_Z num_parcelas * Py.to_float (inject_Z k / 100))%Q /\
    ((0 <= valor_total)%Q -> (valor_total <= 10000000000000)%Q ->
     (inject_Z k / 100 - (1 # 512) <= Py.to_float (inject_Z k / 100)
      <= inject_Z k / 100 + (1 # 512))%Q /\
     (Qabs (col_sum (map Valor rows) - valor_total)
      <= inject_Z num_parcelas * (1 # 100))%Q).
Proof.
  intros Hn Hd.
  eexists. exists (parcelas data categoria forma_pagamento cartao valor_total
                            num_parcelas descricao w).
  exists (Py.round_half_even (Py.truediv valor_total num_parcelas * 100)).
  split; [apply add_despesa_returns; assumption|].
  split; [reflexivity|].
  split; [reflexivity|].
  split.
  { pose proof (round_half_even_near
                  (Py.truediv valor_total num_parcelas * 100)). lra. }
  split.
  { intros r Hr. apply parcelas_In in Hr. destruct Hr as (k & _ & ->).
    split; reflexivity. }
  split.
  { eexists. split; [apply parcelas_nth_error; lia|].
    split; [cbn; lia|reflexivity]. }
  split; [apply parcelas_sum; lia|].
  intros H0 Hmax. split.
  - assert (Hq : (1 <= inject_Z num_parcelas)%Q).
    { change 1%Q with (inject_Z 1). rewrite <- Zle_Qle. exact Hn. }
    assert (Hx0 : (0 <= valor_total / inject_Z num_parcelas)%Q)
      by (apply Qle_shift_div_l; lra).
    assert (HxT : (valor_total / inject_Z num_parcelas <= valor_total)%Q).
    { apply Qle_shift_div_r; [lra|].
      assert (Hmul : (inject_Z num_parcelas
                      * (valor_total / inject_Z num_parcelas)
                      == valor_total)%Q) by (apply Qmult_div_r; lra).
      nra. }
    assert (H45 : (2 ^ 45 == 35184372088832)%Q) by reflexivity.
    unfold Py.truediv.
    pose proof (to_float_near (valor_total / inject_Z num_parcelas) Hx0
                              ltac:(lra)) as Hx.
    pose proof (to_float_nonneg (valor_total / inject_Z num_parcelas) Hx0)
      as Hxn.
    set (x := Py.to_float (valor_total / inject_Z num_parcelas)) in *.
    pose proof (round_half_even_near (x * 100)) as Hk.
    assert (Hkz : 0 <= Py.round_half_even (x * 100))
      by (apply round_half_even_nonneg; lra).
    set (k := inject_Z (Py.round_half_even (x * 100))) in *.
    assert (Hk100 : (k / 100 == k * (1 # 100))%Q) by field.
    assert (Hk0 : (0 <= k / 100)%Q).
    { rewrite Hk100. apply Qmult_le_0_compat; [|lra].
      unfold k. change 0%Q with (inject_Z 0). rewrite <- Zle_Qle. exact Hkz. }
    apply to_float_near; [exact Hk0|lra].
  - rewrite parcelas_sum by lia. apply installments_sum_near; assumption.
Qed.

Lemma C3_witness :
  exists w' rows k,
    add_despesa (Date.mkdate 2024 1 31) "Casa" "PIX" "" 100 3 "Sofa" w_empty
    = (Returned tt, w') /\
    despesas w' = despesas w_empty ++ rows /\
    k = 3333 /\
    (forall r, In r rows -> Valor r = Py.to_float (inject_Z k / 100)) /\
    (exists r, nth_error rows (Z.to_nat (3 - 1)) = Some r /\
               Parcela_Atual r = 3 /\
               Valor r = Py.to_float (inject_Z k / 100)) /\
    (col_sum (map Valor rows)
     == inject_Z 3 * Py.to_float (inject_Z k / 100))%Q /\
    (inject_Z k / 100 - (1 # 512) <= Py.to_float (inject_Z k / 100)
     <= inject_Z k / 100 + (1 # 512))%Q /\
    (Qabs (col_sum (map Valor rows) - 100) <= inject_Z 3 * (1 # 100))%Q.
Proof.
  destruct (C3_equal_rounded_amounts (Date.mkdate 2024 1 31) "Casa" "PIX" ""
              100 3 "Sofa" w_empty)
    as (w' & rows & k & H1 & H2 & H3 & H4 & H5 & H6 & H7 & H8).
  - lia.
  - unfold dates_representable. vm_compute. split; [reflexivity|discriminate].
  - exists w', rows, k. split; [exact H1|]. split; [exact H2|].
    split; [rewrite H3; vm_compute; reflexivity|].
    split; [intros r Hr; apply (H5 r Hr)|].
    split; [exact H6|]. split; [exact H7|].
    apply H8; vm_compute; discriminate.
Defined.

(** C3 as stated fails for large totals: 10^15 in 7 installments is stored
    as seven times the float 142857142857142.84375, the quotient itself,
    since the floats near it are 0.03125 apart; the rows miss the total by
    0.09375, more than [7 * 0.01]. *)
Lemma C3_counterexample :
  exists w' rows,
    add_despesa (Date.mkdate 2024 1 31) "Casa" "PIX" "" 1000000000000000 7
                "Sofa" w_empty
    = (Returned tt, w') /\
    despesas w' = rows /\
    List.length rows = 7%nat /\
    (forall r, In r rows ->
       Valor r = Py.round2 (Py.truediv 1000000000000000 7) /\
       Valor r = Py.truediv 1000000000000000 7 /\
       Valor r = (4571428571428571 # 32)%Q) /\
    (col_sum (map Valor rows) - 1000000000000000 == - (3 # 32))%Q /\
    ~ (Qabs (col_sum (map Valor rows) - 1000000000000000)
       <= inject_Z 7 * (1 # 100))%Q.
Proof.
  eexists. eexists. split; [vm_compute; reflexivity|].
  cbn [despesas]. split; [reflexivity|]. split; [reflexivity|].
  split.
  { intros r [<-|[<-|[<-|[<-|[<-|[<-|[<-|[]]]]]]]];
      vm_compute; repeat split. }
  split; [reflexivity|]. vm_compute. intros H. apply H. reflexivity.
Qed.

(** The remainder is lost, not redistributed: 100.00 in 3 installments is
    stored as three times the float 33.33, which add up to less than
    100. *)
Example remainder_not_redistributed :
  let '(_, w) := add_despesa (Date.mkdate 2024 1 31) "Casa" "PIX" "" 100 3
                             "Sofa" w_empty in
  (col_sum (map Valor (despesas w)) == 3 * Py.to_float (3333 # 100))%Q /\
  (col_sum (map Valor (despesas w)) < 100)%Q /\
  (100 - (1 # 50) < col_sum (map Valor (despesas w)))%Q.
Proof. vm_compute. repeat split. Qed.

(** C9 (as amended). Every installment row stores the description
    followed by " - Parcela i/n", with its index [i] and the count [n], for
    every count [n >= 1]: a single installment is suffixed " - Parcela 1/1"
    like any other. *)
Theorem C9_description_suffix
    (data : Date.date) (categoria forma_pagamento cartao : string)
    (valor_total : Q) (num_parcelas : Z) (descricao : string) (w : World) :
  1 <= num_parcelas ->
  dates_representable data num_parcelas ->
  exists w' rows,
    add_despesa data categoria forma_pagamento cartao valor_total
                num_parcelas descricao w = (Returned tt, w') /\
    despesas w' = despesas w ++ rows /\
    forall i, 1 <= i <= num_parcelas ->
      exists r,
        nth_error rows (Z.to_nat (i - 1)) = Some r /\
        Parcela_Atual r = i /\
        Descricao r
        = (descricao ++ " - Parcela " ++ Py.str_int i ++ "/"
             ++ Py.str_int num_parcelas)%string.
Proof.
  intros Hn Hd.
  eexists. exists (parcelas data categoria forma_pagamento cartao valor_total
                            num_parcelas descricao w).
  split; [apply add_despesa_returns; assumption|].
  split; [reflexivity|].
  intros i Hi. eexists.
  split; [apply parcelas_nth_error; lia|].
  split; [cbn; lia|].
  cbn. replace (Z.of_nat (Z.to_nat (i - 1)) + 1) with i by lia. reflexivity.
Qed.

Lemma C9_witness :
  exists w' rows,
    add_despesa (Date.mkdate 2024 1 31) "Casa" "PIX" "" 100 3 "Sofa" w_empty
    = (Returned tt, w') /\
    despesas w' = despesas w_empty ++ rows /\
    forall i, 1 <= i <= 3 ->
      exists r,
        nth_error rows (Z.to_nat (i - 1)) = Some r /\
        Parcela_Atual r = i /\
        Descricao r
        = ("Sofa" ++ " - Parcela " ++ Py.str_int i ++ "/" ++ Py.str_int 3)%string.
Proof.
  apply (C9_description_suffix (Date.mkdate 2024 1 31) "Casa" "PIX" "" 100 3
                               "Sofa" w_empty).
  - lia.
  - unfold dates_representable. vm_compute. split; [reflexivity|discriminate].
Defined.

(** C9 as stated fails for a single installment: the description "Sofa"
    is stored as "Sofa - Parcela 1/1", not without the suffix. *)
Lemma C9_counterexample :
  exists w' r,
    add_despesa (Date.mkdate 2024 1 31) "Casa" "PIX" "" 100 1 "Sofa" w_empty
    = (Returned tt, w') /\
    despesas w' = [r] /\
    Parcelas r = 1 /\
    Descricao r = "Sofa - Parcela 1/1" /\
    Descricao r <> "Sofa".
Proof.
  eexists. eexists. split; [vm_compute; reflexivity|].
  cbn [despesas]. split; [reflexivity|]. cbn.
  split; [reflexivity|]. split; [reflexivity|discriminate].
Qed.

(** ** Order of the effects of one call *)

(** The rows appended by a sequence of effects, in order. *)
Fixpoint appended (evs : list effect) : list Despesa :=
  match evs with
  | [] => []
  | AppendRow r :: evs' => r :: appended evs'
  | _ :: evs' => appended evs'
  end.

(** The cache invalidations among a sequence of effects. *)
Fixpoint cache_clears (evs : list effect) : nat :=
  match evs with
  | [] => O
  | CacheDataClear :: evs' => S (cache_clears evs')
  | _ :: evs' => cache_clears evs'
  end.

Lemma appended_app (p q : list effect) :
  appended (p ++ q) = appended p ++ appended q.
Proof.
  induction p as [|e p IH]; [reflexivity|].
  destruct e; cbn; rewrite IH; reflexivity.
Qed.

Lemma cache_clears_app (p q : list effect) :
  cache_clears (p ++ q) = (cache_clears p + cache_clears q)%nat.
Proof.
  induction p as [|e p IH]; [reflexivity|].
  destruct e; cbn; rewrite IH; reflexivity.
Qed.

Section LoopEffects.

Variable data : Date.date.
Variables categoria forma_pagamento cartao : string.
Variable valor_total : Q.
Variable num_parcelas : Z.
Variable descricao : string.
Variable u : nat -> string.
Variable c : nat.

Let row := parcela data categoria forma_pagamento cartao valor_total
                   num_parcelas descricao u c.
Let effects := parcela_effects data categoria forma_pagamento cartao
                               valor_total num_parcelas descricao u c.

Lemma loop_appended (l : list nat) :
  appended (flat_map effects l) = map row l.
Proof.
  induction l as [|k l IH]; [reflexivity|]. cbn. rewrite IH. reflexivity.
Qed.

Lemma loop_cache_clears (l : list nat) :
  cache_clears (flat_map effects l) = O.
Proof.
  induction l as [|k l IH]; [reflexivity|]. cbn. exact IH.
Qed.

End LoopEffects.

Lemma prefix_firstn {A} (p q l : list A) :
  l = p ++ q -> p = firstn (List.length p) l.
Proof.
  intros ->. rewrite firstn_app, Nat.sub_diag, firstn_all, firstn_O, app_nil_r.
  reflexivity.
Qed.

Lemma firstn_seq (k a n : nat) : firstn k (seq a n) = seq a (Nat.min k n).
Proof.
  revert a n. induction k as [|k IH]; intros a [|n]; cbn; try reflexivity.
  rewrite IH. reflexivity.
Qed.

(** C10. One call draws the group identifier once, before the loop; then
    each pass draws a row identifier and appends the row of the next index,
    so the rows appended by any prefix of the effects have the indices
    1..k; the cache is cleared once, as the last effect, after all [n]
    rows. *)
Theorem C10_effects_in_order
    (data : Date.date) (categoria forma_pagamento cartao : string)
    (valor_total : Q) (num_parcelas : Z) (descricao : string) (w : World) :
  1 <= num_parcelas ->
  dates_representable data num_parcelas ->
  exists w' evs passes,
    add_despesa data categoria forma_pagamento cartao valor_total
                num_parcelas descricao w = (Returned tt, w') /\
    log w' = log w ++ evs /\
    despesas w' = despesas w ++ appended evs /\
    evs = Uuid4 (uuids w (uuid_calls w)) :: passes ++ [CacheDataClear] /\
    (forall r, In r (appended evs) ->
       ID_Grupo_Parcelado r = Py.slice_to 8 (uuids w (uuid_calls w))) /\
    (forall p q, evs = p ++ q ->
       map Parcela_Atual (appended p)
       = map Z.of_nat (seq 1 (List.length (appended p)))) /\
    Z.of_nat (List.length (appended passes)) = num_parcelas /\
    cache_clears passes = O /\
    cache_clears evs = 1%nat.
Proof.
  intros Hn Hd.
  set (rows := parcelas data categoria forma_pagamento cartao valor_total
                        num_parcelas descricao w).
  set (passes := flat_map
         (parcela_effects data categoria forma_pagamento cartao valor_total
                          num_parcelas descricao (uuids w) (uuid_calls w))
         (seq 0 (Z.to_nat num_parcelas))).
  assert (Hpasses : appended passes = rows) by apply loop_appended.
  assert (Hevs : appended (Uuid4 (uuids w (uuid_calls w))
                           :: passes ++ [CacheDataClear]) = rows).
  { cbn [appended]. rewrite appended_app, Hpasses. cbn. apply app_nil_r. }
  eexists. exists (Uuid4 (uuids w (uuid_calls w)) :: passes ++ [CacheDataClear]).
  exists passes.
  split; [apply add_despesa_returns; assumption|].
  split; [reflexivity|].
  split; [rewrite Hevs; reflexivity|].
  split; [reflexivity|].
  split.
  { rewrite Hevs. intros r Hr. apply parcelas_In in Hr.
    destruct Hr as (k & _ & ->). reflexivity. }
  split.
  { intros p q Hpq.
    assert (Hp : appended p = firstn (List.length (appended p)) rows).
    { apply prefix_firstn with (q := appended q).
      rewrite <- appended_app, <- Hpq, Hevs. reflexivity. }
    assert (Hlen : (List.length (appended p) <= Z.to_nat num_parcelas)%nat).
    { rewrite Hp, length_firstn. unfold rows. rewrite parcelas_length. lia. }
    rewrite Hp at 1. rewrite <- firstn_map. unfold rows.
    rewrite parcelas_Parcela_Atual, firstn_map, firstn_seq.
    rewrite Nat.min_l by exact Hlen. reflexivity. }
  split.
  { rewrite Hpasses. unfold rows. rewrite parcelas_length. lia. }
  split; [apply loop_cache_clears|].
  cbn [cache_clears]. rewrite cache_clears_app.
  unfold passes. rewrite loop_cache_clears. reflexivity.
Qed.

Lemma C10_witness :
  exists w' evs passes,
    add_despesa (Date.mkdate 2024 1 31) "Casa" "PIX" "" 100 3 "Sofa" w_empty
    = (Returned tt, w') /\
    log w' = log w_empty ++ evs /\
    despesas w' = despesas w_empty ++ appended evs /\
    evs = Uuid4 (uuids w_empty (uuid_calls w_empty))
          :: passes ++ [CacheDataClear] /\
    (forall r, In r (appended evs) ->
       ID_Grupo_Parcelado r
       = Py.slice_to 8 (uuids w_empty (uuid_calls w_empty))) /\
    (forall p q, evs = p ++ q ->
       map Parcela_Atual (appended p)
       = map Z.of_nat (seq 1 (List.length (appended p)))) /\
    Z.of_nat (List.length (appended passes)) = 3 /\
    cache_clears passes = O /\
    cache_clears evs = 1%nat.
Proof.
  apply (C10_effects_in_order (Date.mkdate 2024 1 31) "Casa" "PIX" "" 100 3
                              "Sofa" w_empty).
  - lia.
  - unfold dates_representable. vm_compute. split; [reflexivity|discriminate].
Defined.

(** The effects of the call of the example, in order. *)
Example effects_100_3 :
  let '(_, w) := add_despesa (Date.mkdate 2024 1 31) "Casa" "PIX" "" 100 3
                             "Sofa" w_empty in
  map (fun e => match e with
                | Uuid4 _ => "uuid4"
                | AppendRow r => ("append " ++ Py.str_int (Parcela_Atual r))%string
                | CacheDataClear => "clear"
                | _ => "st"
                end) (log w)
  = ["uuid4"; "uuid4"; "append 1"; "uuid4"; "append 2"; "uuid4"; "append 3";
     "clear"].
Proof. vm_compute. reflexivity. Qed.

(** ** Submission of an expense *)

Lemma float_pos_false (x : Q) : float_pos x = false <-> (x <= 0)%Q.
Proof.
  unfold float_pos. destruct (0 ?= x)%Q eqn:E.
  - apply Qeq_alt in E. split; [intros _; rewrite <- E; apply Qle_refl|reflexivity].
  - apply Qlt_alt in E. split; [discriminate|intros H; exfalso; lra].
  - apply Qgt_alt in E. split; [intros _; lra|reflexivity].
Qed.

Lemma truthy_false (s : string) : Py.truthy s = false <-> s = "".
Proof. destruct s; cbn; split; intros H; try reflexivity; discriminate. Qed.

Lemma truthy_or_empty (s : string) : (if Py.truthy s then s else "") = s.
Proof. destruct s; reflexivity. Qed.

(** A submission that the handler must refuse: no positive amount, no
    category, or payment by credit without a card. *)
Definition rejected (f : Form.despesa) : Prop :=
  (Form.valor_total f <= 0)%Q \/
  Form.categoria_despesa f = "" \/
  (Form.forma_pagamento f = "Crédito" /\ Form.cartao_selecionado f = "").

(** C7. A submission whose amount is not positive, whose category is
    missing, or that pays by credit without a card, only shows an error:
    the handler returns, the sheet is unchanged, no identifier is drawn, no
    row is appended and the cache is not cleared, so [add_despesa], whose
    first effect is to draw an identifier, has not run. *)
Theorem C7_rejected_submission (f : Form.despesa) (w : World) :
  rejected f ->
  exists msg w',
    form_despesa_submitted f w = (Returned tt, w') /\
    (msg = msg_campos \/ msg = msg_cartao) /\
    log w' = log w ++ [StError msg] /\
    despesas w' = despesas w /\
    uuid_calls w' = uuid_calls w.
Proof.
  intros Hrej. unfold form_despesa_submitted.
  destruct (float_pos (Form.valor_total f)
            && Py.truthy (Form.categoria_despesa f)
            && Py.truthy (Form.forma_pagamento f)) eqn:Echk.
  - apply andb_true_iff in Echk. destruct Echk as [Echk Hfp].
    apply andb_true_iff in Echk. destruct Echk as [Hpos Hcat].
    destruct Hrej as [Hv|[Hc|[Hcred Hcard]]].
    + apply float_pos_false in Hv. congruence.
    + apply truthy_false in Hc. congruence.
    + rewrite Hcred, Hcard. cbn [Py.truthy negb]. rewrite String.eqb_refl.
      cbn [andb]. exists msg_cartao. eexists.
      split; [reflexivity|]. cbn. repeat split. right. reflexivity.
  - exists msg_campos. eexists.
    split; [reflexivity|]. cbn. repeat split. left. reflexivity.
Qed.

Definition form_sem_valor : Form.despesa :=
  Form.mkdespesa (Date.mkdate 2024 1 31) "Casa" "PIX" 0 "" 3 "Sofa".

Lemma C7_witness :
  exists msg w',
    form_despesa_submitted form_sem_valor w_empty = (Returned tt, w') /\
    (msg = msg_campos \/ msg = msg_cartao) /\
    log w' = log w_empty ++ [StError msg] /\
    despesas w' = despesas w_empty /\
    uuid_calls w' = uuid_calls w_empty.
Proof.
  apply (C7_rejected_submission form_sem_valor w_empty).
  left. vm_compute. discriminate.
Defined.

(** Credit without a card is refused with the message about the card. *)
Example credito_sem_cartao :
  form_despesa_submitted
    (Form.mkdespesa (Date.mkdate 2024 1 31) "Casa" "Crédito" 100 "" 3 "Sofa")
    w_empty
  = (Returned tt, mkWorld [] (uuids w_empty) 0 [StError msg_cartao]).
Proof. vm_compute. reflexivity. Qed.

(** An accepted submission runs [add_despesa] and then reports success. *)
Lemma form_despesa_accepted (f : Form.despesa) (w : World) :
  float_pos (Form.valor_total f) = true ->
  Py.truthy (Form.categoria_despesa f) = true ->
  Py.truthy (Form.forma_pagamento f) = true ->
  (Form.forma_pagamento f =? "Crédito")%string
    && negb (Py.truthy (Form.cartao_selecionado f)) = false ->
  form_despesa_submitted f w
  = (add_despesa (Form.data_despesa f) (Form.categoria_despesa f)
                 (Form.forma_pagamento f) (Form.cartao_selecionado f)
                 (Form.valor_total f) (Form.num_parcelas f)
                 (Form.descricao_despesa f) ;;
     st_success ("✅ Despesa adicionada com sucesso! ("
                 ++ Py.str_int (Form.num_parcelas f)
                 ++ " parcela(s) criada(s))")%string ;;
     st_balloons) w.
Proof.
  intros H1 H2 H3 H4. unfold form_despesa_submitted.
  rewrite H1, H2, H3, H4. reflexivity.
Qed.

Lemma after_add_despesa_despesas (m : M unit) (msg : string) (w : World) :
  despesas (snd ((m ;; st_success msg ;; st_balloons) w)) = despesas (snd (m w)).
Proof.
  unfold bind. destruct (m w) as [[[]|e] w1]; reflexivity.
Qed.

(** C8 (as amended). Every row that a submission writes stores the payment
    method and the card selected in the form, as they are; with payment by
    credit the stored card is not empty.  With any other payment method the
    stored card is the selected one too, which is empty only if the card
    field was left blank.  An accepted submission with representable
    installment dates writes [num_parcelas] such rows. *)
Theorem C8_stored_card (f : Form.despesa) (w : World) :
  exists rows,
    despesas (snd (form_despesa_submitted f w)) = despesas w ++ rows /\
    (forall r, In r rows ->
       Forma_Pagamento r = Form.forma_pagamento f /\
       Cartao r = Form.cartao_selecionado f /\
       (Forma_Pagamento r = "Crédito" -> Cartao r <> "")) /\
    (~ rejected f -> Form.forma_pagamento f <> "" ->
     1 <= Form.num_parcelas f ->
     dates_representable (Form.data_despesa f) (Form.num_parcelas f) ->
     Z.of_nat (List.length rows) = Form.num_parcelas f).
Proof.
  destruct (float_pos (Form.valor_total f)) eqn:Hpos;
    [destruct (Py.truthy (Form.categoria_despesa f)) eqn:Hcat;
     [destruct (Py.truthy (Form.forma_pagamento f)) eqn:Hfp;
      [destruct ((Form.forma_pagamento f =? "Crédito")%string
                 && negb (Py.truthy (Form.cartao_selecionado f))) eqn:Hcred|]|]|].
  2: { (* accepted *)
    rewrite form_despesa_accepted by assumption.
    rewrite after_add_despesa_despesas.
    destruct (add_despesa_rows (Form.data_despesa f) (Form.categoria_despesa f)
                (Form.forma_pagamento f) (Form.cartao_selecionado f)
                (Form.valor_total f) (Form.num_parcelas f)
                (Form.descricao_despesa f) w) as (rows & E & F).
    exists rows. split; [exact E|]. split.
    - intros r Hr. rewrite Forall_forall in F.
      destruct (F r Hr) as (id & d & i & _ & ->). cbn.
      rewrite truthy_or_empty. repeat split.
      intros Hc. rewrite Hc, String.eqb_refl in Hcred. cbn in Hcred.
      apply negb_false_iff in Hcred. intros He. rewrite He in Hcred.
      discriminate.
    - intros _ _ Hn Hd.
      rewrite (add_despesa_returns _ _ _ _ _ _ _ w Hn Hd) in E.
      cbn [snd despesas] in E. apply app_inv_head in E. subst rows.
      rewrite parcelas_length. lia. }
  all: exists []; rewrite app_nil_r; unfold form_despesa_submitted;
    rewrite Hpos; try rewrite Hcat; try rewrite Hfp; try rewrite Hcred;
    cbn [andb]; (split; [reflexivity|]);
    (split; [intros r []|]); intros Hrej Hne; exfalso.
  - apply andb_true_iff in Hcred. destruct Hcred as [Hc Hb].
    apply String.eqb_eq in Hc. apply negb_true_iff, truthy_false in Hb.
    apply Hrej. right. right. split; assumption.
  - apply truthy_false in Hfp. contradiction.
  - apply truthy_false in Hcat. apply Hrej. right. left. exact Hcat.
  - apply float_pos_false in Hpos. apply Hrej. left. exact Hpos.
Qed.

Definition form_credito : Form.despesa :=
  Form.mkdespesa (Date.mkdate 2024 1 31) "Casa" "Crédito" 100 "Nubank" 2 "Sofa".

Lemma C8_witness :
  exists rows,
    despesas (snd (form_despesa_submitted form_credito w_empty))
    = despesas w_empty ++ rows /\
    (forall r, In r rows ->
       Forma_Pagamento r = Form.forma_pagamento form_credito /\
       Cartao r = Form.cartao_selecionado form_credito /\
       (Forma_Pagamento r = "Crédito" -> Cartao r <> "")) /\
    (~ rejected form_credito -> Form.forma_pagamento form_credito <> "" ->
     1 <= Form.num_parcelas form_credito ->
     dates_representable (Form.data_despesa form_credito)
                         (Form.num_parcelas form_credito) ->
     Z.of_nat (List.length rows) = Form.num_parcelas form_credito).
Proof. exact (C8_stored_card form_credito w_empty). Defined.

Example form_credito_accepted :
  ~ rejected form_credito /\
  List.length (despesas (snd (form_despesa_submitted form_credito w_empty)))
  = 2%nat.
Proof.
  split; [|vm_compute; reflexivity].
  intros [H|[H|[_ H]]]; [vm_compute in H; apply H; reflexivity| |];
    discriminate.
Qed.

Definition form_pix_com_cartao : Form.despesa :=
  Form.mkdespesa (Date.mkdate 2024 1 31) "Casa" "PIX" 100 "Nubank" 1 "Sofa".

(** C8 as stated fails: a submission by PIX with the card "Nubank" selected
    is accepted, and its row stores "Nubank" with a payment method that is
    not credit. *)
Lemma C8_counterexample :
  exists w' r,
    form_despesa_submitted form_pix_com_cartao w_empty = (Returned tt, w') /\
    despesas w' = [r] /\
    Forma_Pagamento r <> "Crédito" /\
    Cartao r = "Nubank" /\
    Cartao r <> "".
Proof.
  eexists. eexists. split; [vm_compute; reflexivity|].
  cbn [despesas]. split; [reflexivity|]. cbn.
  split; [discriminate|]. split; [reflexivity|discriminate].
Qed.

(** ** Grouping and summing *)

Section GroupByFacts.

Variable K : Type.
Variable cmp : K -> K -> comparison.

(** What the comparison of a key type offers. *)
Hypothesis cmp_eq : forall a b, cmp a b = Eq <-> a = b.
Hypothesis cmp_antisym : forall a b, cmp b a = CompOpp (cmp a b).
Hypothesis cmp_trans :
  forall a b c, cmp a b = Lt -> cmp b c = Lt -> cmp a c = Lt.

Definition klt (a b : K) : Prop := cmp a b = Lt.

(** [key == k], as the filter of a group. *)
Definition same_key (k a : K) : bool :=
  match cmp a k with
  | Eq => true
  | _ => false
  end.

(** The values of the rows of key [k] added up: the sum of a group. *)
Definition group_total (rows : list (K * Q)) (k : K) : Q :=
  col_sum (map snd (filter (fun kv => same_key k (fst kv)) rows)).

Lemma same_key_iff (k a : K) : same_key k a = true <-> a = k.
Proof.
  unfold same_key. rewrite <- cmp_eq.
  destruct (cmp a k); split; intros H; try reflexivity; discriminate.
Qed.

Lemma add_to_group_keys (k : K) (v : Q) (g : Series K) :
  map fst (add_to_group cmp k v g) = index_insert cmp k (map fst g).
Proof.
  induction g as [|[k1 v1] g IH]; [reflexivity|].
  cbn. destruct (cmp k k1); cbn; [reflexivity|reflexivity|].
  rewrite IH. reflexivity.
Qed.

Lemma groupby_sum_keys_acc (rows : list (K * Q)) (g : Series K) :
  map fst (fold_left (fun g kv => add_to_group cmp (fst kv) (snd kv) g) rows g)
  = index_union cmp (map fst g) (map fst rows).
Proof.
  revert g. induction rows as [|[k v] rows IH]; intros g; [reflexivity|].
  cbn. rewrite IH, add_to_group_keys. reflexivity.
Qed.

Lemma groupby_sum_keys (rows : list (K * Q)) :
  map fst (groupby_sum cmp rows) = index_union cmp [] (map fst rows).
Proof. apply groupby_sum_keys_acc. Qed.

(** *** Sums are preserved *)

Lemma add_to_group_sum (k : K) (v : Q) (g : Series K) :
  (col_sum (map snd (add_to_group cmp k v g)) == col_sum (map snd g) + v)%Q.
Proof.
  induction g as [|[k1 v1] g IH]; cbn.
  - rewrite col_sum_cons, !col_sum_nil. lra.
  - destruct (cmp k k1); cbn; rewrite !col_sum_cons; [lra|lra|].
    rewrite IH. lra.
Qed.

Lemma groupby_sum_total_acc (rows : list (K * Q)) (g : Series K) :
  (col_sum (map snd
     (fold_left (fun g kv => add_to_group cmp (fst kv) (snd kv) g) rows g))
   == col_sum (map snd g) + col_sum (map snd rows))%Q.
Proof.
  revert g. induction rows as [|[k v] rows IH]; intros g; cbn.
  - rewrite col_sum_nil. lra.
  - rewrite IH, add_to_group_sum, col_sum_cons. lra.
Qed.

Lemma groupby_sum_total (rows : list (K * Q)) :
  (col_sum (map snd (groupby_sum cmp rows)) == col_sum (map snd rows))%Q.
Proof.
  unfold groupby_sum. rewrite groupby_sum_total_acc. cbn.
  rewrite col_sum_nil. lra.
Qed.

(** *** Keys: membership and order *)

Lemma index_insert_In (k x : K) (idx : list K) :
  In x (index_insert cmp k idx) <-> x = k \/ In x idx.
Proof.
  induction idx as [|k1 idx IH]; cbn.
  - intuition.
  - destruct (cmp k k1) eqn:E; cbn.
    + apply cmp_eq in E. subst k1. intuition.
    + intuition.
    + rewrite IH. intuition.
Qed.

Lemma index_union_In (x : K) (b a : list K) :
  In x (index_union cmp a b) <-> In x a \/ In x b.
Proof.
  unfold index_union. revert a.
  induction b as [|k b IH]; intros a; cbn.
  - intuition.
  - rewrite IH, index_insert_In. intuition.
Qed.

Lemma index_insert_sorted (k : K) (idx : list K) :
  StronglySorted klt idx -> StronglySorted klt (index_insert cmp k idx).
Proof.
  induction idx as [|k1 idx IH]; intros Hs; cbn.
  - constructor; constructor.
  - inversion Hs as [|? ? Hs' Hall]; subst.
    destruct (cmp k k1) eqn:E.
    + exact Hs.
    + constructor; [exact Hs|]. constructor; [exact E|].
      rewrite Forall_forall in *. intros x Hx.
      apply cmp_trans with k1; [exact E|apply Hall; exact Hx].
    + constructor; [apply IH; exact Hs'|].
      rewrite Forall_forall in *. intros x Hx.
      apply index_insert_In in Hx. destruct Hx as [->|Hx].
      * unfold klt. rewrite cmp_antisym, E. reflexivity.
      * apply Hall. exact Hx.
Qed.

Lemma index_union_sorted (b a : list K) :
  StronglySorted klt a -> StronglySorted klt (index_union cmp a b).
Proof.
  unfold index_union. revert a.
  induction b as [|k b IH]; intros a Hs; cbn; [exact Hs|].
  apply IH, index_insert_sorted, Hs.
Qed.

Lemma klt_irrefl (a : K) : ~ klt a a.
Proof.
  unfold klt. intros H.
  assert (E : cmp a a = Eq) by (apply cmp_eq; reflexivity).
  congruence.
Qed.

Lemma sorted_NoDup (l : list K) : StronglySorted klt l -> NoDup l.
Proof.
  induction 1 as [|a l Hs IH Hall]; constructor; [|exact IH].
  intros Hin. rewrite Forall_forall in Hall.
  exact (klt_irrefl a (Hall a Hin)).
Qed.

Lemma groupby_sum_sorted (rows : list (K * Q)) :
  StronglySorted klt (map fst (groupby_sum cmp rows)).
Proof.
  rewrite groupby_sum_keys. apply index_union_sorted. constructor.
Qed.

Lemma groupby_sum_In (rows : list (K * Q)) (k : K) :
  In k (map fst (groupby_sum cmp rows)) <-> In k (map fst rows).
Proof.
  rewrite groupby_sum_keys, index_union_In. cbn. intuition.
Qed.

(** *** The entry of a key is the sum of its group *)

Lemma series_get_absent (s : Series K) (k : K) :
  ~ In k (map fst s) -> series_get cmp s k = None.
Proof.
  induction s as [|[k1 v1] s IH]; intros Hn; [reflexivity|].
  cbn in *. destruct (cmp k k1) eqn:E.
  - apply cmp_eq in E. subst. intuition.
  - apply IH. intuition.
  - apply IH. intuition.
Qed.

Lemma series_get_add_other (k k' : K) (v : Q) (g : Series K) :
  k' <> k ->
  series_get cmp (add_to_group cmp k v g) k' = series_get cmp g k'.
Proof.
  intros Hne. induction g as [|[k1 v1] g IH]; cbn.
  - destruct (cmp k' k) eqn:E; [apply cmp_eq in E; contradiction| |]; reflexivity.
  - destruct (cmp k k1) eqn:E; cbn.
    + apply cmp_eq in E. subst k1.
      destruct (cmp k' k) eqn:E'; [apply cmp_eq in E'; contradiction| |];
        reflexivity.
    + destruct (cmp k' k) eqn:E'; [apply cmp_eq in E'; contradiction| |];
        reflexivity.
    + rewrite IH. reflexivity.
Qed.

Lemma series_get_add_same (k : K) (v : Q) (g : Series K) :
  StronglySorted klt (map fst g) ->
  (fillna0 (series_get cmp (add_to_group cmp k v g) k)
   == fillna0 (series_get cmp g k) + v)%Q.
Proof.
  assert (Hkk : cmp k k = Eq) by (apply cmp_eq; reflexivity).
  induction g as [|[k1 v1] g IH]; intros Hs; cbn.
  - rewrite Hkk. cbn. lra.
  - inversion Hs as [|? ? Hs' Hall]; subst.
    destruct (cmp k k1) eqn:E; cbn; rewrite ?Hkk, ?E; cbn.
    + lra.
    + rewrite series_get_absent; [cbn; lra|].
      intros Hin. rewrite Forall_forall in Hall.
      apply (klt_irrefl k). apply cmp_trans with k1; [exact E|].
      apply Hall. exact Hin.
    + apply IH. exact Hs'.
Qed.

Lemma group_total_cons (k k1 : K) (v1 : Q) (rows : list (K * Q)) :
  (group_total ((k1, v1) :: rows) k
   == (if same_key k k1 then v1 else 0) + group_total rows k)%Q.
Proof.
  unfold group_total. cbn. destruct (same_key k k1); cbn;
    rewrite ?col_sum_cons; lra.
Qed.

Lemma groupby_sum_get_acc (rows : list (K * Q)) (k : K) :
  forall g : Series K,
    StronglySorted klt (map fst g) ->
    (fillna0 (series_get cmp
       (fold_left (fun g kv => add_to_group cmp (fst kv) (snd kv) g) rows g) k)
     == fillna0 (series_get cmp g k) + group_total rows k)%Q.
Proof.
  induction rows as [|[k1 v1] rows IH]; intros g Hs.
  - cbn. unfold group_total. cbn. rewrite col_sum_nil. lra.
  - cbn [fold_left fst snd]. rewrite IH, group_total_cons.
    + destruct (same_key k k1) eqn:E.
      * apply same_key_iff in E. subst k1.
        rewrite series_get_add_same by exact Hs. lra.
      * rewrite series_get_add_other; [lra|].
        intros Heq. subst k1.
        assert (same_key k k = true) by (apply same_key_iff; reflexivity).
        congruence.
    + rewrite add_to_group_keys. apply index_insert_sorted. exact Hs.
Qed.

(** The entry of [k] in the grouped sums, zero when [k] has no row, is the
    sum of the values of the rows of key [k]. *)
Lemma groupby_sum_get (rows : list (K * Q)) (k : K) :
  (fillna0 (series_get cmp (groupby_sum cmp rows) k) == group_total rows k)%Q.
Proof.
  unfold groupby_sum. rewrite groupby_sum_get_acc by constructor. cbn. lra.
Qed.

End GroupByFacts.

Arguments klt {K} cmp a b.
Arguments same_key {K} cmp k a.
Arguments group_total {K} cmp rows k.

(** ** Order of keys: periods and category names *)

Lemma period_compare_eq (p q : Period) : period_compare p q = Eq <-> p = q.
Proof.
  destruct p as [y m], q as [y' m']. unfold period_compare. cbn.
  destruct (y ?= y') eqn:E.
  - apply Z.compare_eq_iff in E. subst y'. rewrite Z.compare_eq_iff.
    split; [intros ->; reflexivity|intros H; inversion H; reflexivity].
  - split; [discriminate|]. intros H. inversion H. subst.
    rewrite Z.compare_refl in E. discriminate.
  - split; [discriminate|]. intros H. inversion H. subst.
    rewrite Z.compare_refl in E. discriminate.
Qed.

Lemma period_compare_lt (p q : Period) :
  period_compare p q = Lt <->
  fst p < fst q \/ (fst p = fst q /\ snd p < snd q).
Proof.
  unfold period_compare. destruct (fst p ?= fst q) eqn:E.
  - apply Z.compare_eq_iff in E. rewrite Z.compare_lt_iff. lia.
  - apply Z.compare_lt_iff in E. intuition.
  - apply Z.compare_gt_iff in E. split; [discriminate|lia].
Qed.

Lemma period_compare_antisym (p q : Period) :
  period_compare q p = CompOpp (period_compare p q).
Proof.
  unfold period_compare.
  rewrite (Z.compare_antisym (fst p) (fst q)), (Z.compare_antisym (snd p) (snd q)).
  destruct (fst p ?= fst q); reflexivity.
Qed.

Lemma period_compare_trans (p q r : Period) :
  period_compare p q = Lt -> period_compare q r = Lt -> period_compare p r = Lt.
Proof. rewrite !period_compare_lt. lia. Qed.

Lemma ascii_compare_refl (c : ascii) : Ascii.compare c c = Eq.
Proof. apply N.compare_refl. Qed.

Lemma string_compare_trans (s t u : string) :
  String.compare s t = Lt -> String.compare t u = Lt -> String.compare s u = Lt.
Proof.
  revert t u. induction s as [|a s IH]; intros [|b t] [|c u]; cbn;
    try discriminate; try reflexivity.
  unfold Ascii.compare.
  destruct (N.compare_spec (N_of_ascii a) (N_of_ascii b)) as [E1|E1|E1];
    destruct (N.compare_spec (N_of_ascii b) (N_of_ascii c)) as [E2|E2|E2];
    try discriminate; intros H1 H2.
  - rewrite E1, E2, N.compare_refl. exact (IH _ _ H1 H2).
  - rewrite E1. apply N.compare_lt_iff in E2. rewrite E2. reflexivity.
  - rewrite <- E2. apply N.compare_lt_iff in E1. rewrite E1. reflexivity.
  - assert (E : (N_of_ascii a < N_of_ascii c)%N) by lia.
    apply N.compare_lt_iff in E. rewrite E. reflexivity.
Qed.

Lemma string_compare_eq (s t : string) : String.compare s t = Eq <-> s = t.
Proof.
  split; [apply String.compare_eq_iff|]. intros <-.
  induction s as [|a s IH]; cbn; [reflexivity|].
  rewrite ascii_compare_refl. exact IH.
Qed.

Lemma string_compare_antisym (s t : string) :
  String.compare t s = CompOpp (String.compare s t).
Proof. apply String.compare_antisym. Qed.

(** *** The text of a period orders as the period does *)

Lemma compare_append_same (s t t' : string) :
  String.compare (s ++ t) (s ++ t') = String.compare t t'.
Proof.
  induction s as [|a s IH]; [reflexivity|].
  cbn. rewrite ascii_compare_refl. exact IH.
Qed.

Lemma compare_append_lt (s s' t t' : string) :
  String.length s = String.length s' ->
  String.compare s s' = Lt ->
  String.compare (s ++ t) (s' ++ t') = Lt.
Proof.
  revert s'. induction s as [|a s IH]; intros [|b s']; cbn;
    try discriminate.
  intros Hlen. destruct (Ascii.compare a b); try discriminate.
  - apply IH. lia.
  - reflexivity.
Qed.

Lemma digit_compare_lt (a b : Z) :
  0 <= a < b -> b < 10 ->
  Ascii.compare (ascii_of_N (48 + Z.to_N a)) (ascii_of_N (48 + Z.to_N b)) = Lt.
Proof.
  intros Ha Hb. unfold Ascii.compare.
  rewrite !N_ascii_embedding by lia. apply N.compare_lt_iff. lia.
Qed.

Lemma pad_digits_lt (w : nat) :
  forall a b, 0 <= a < b -> b < 10 ^ Z.of_nat w ->
    String.compare (Py.pad_digits w a) (Py.pad_digits w b) = Lt.
Proof.
  induction w as [|w IH]; intros a b Hab Hb.
  - cbn in Hb. lia.
  - rewrite Nat2Z.inj_succ, Z.pow_succ_r in Hb by lia.
    cbn [Py.pad_digits].
    destruct (Z.eq_dec (a / 10) (b / 10)) as [E|E].
    + rewrite E, compare_append_same. cbn [String.compare].
      rewrite digit_compare_lt; [reflexivity| |];
        Z.to_euclidean_division_equations; lia.
    + apply compare_append_lt.
      * rewrite !pad_digits_length. reflexivity.
      * apply IH; Z.to_euclidean_division_equations; lia.
Qed.

(** The periods of timestamps: four digits of year, two of month. *)
Definition period_ok (p : Period) : Prop :=
  0 <= fst p < 10000 /\ 0 <= snd p < 100.

Lemma period_str_lt (p q : Period) :
  period_ok p -> period_ok q ->
  period_compare p q = Lt ->
  String.compare (period_str p) (period_str q) = Lt.
Proof.
  intros [Hy Hm] [Hy' Hm'] Hlt. apply period_compare_lt in Hlt.
  unfold period_str. destruct Hlt as [Hlt|[E Hlt]].
  - apply compare_append_lt.
    + rewrite !pad_digits_length. reflexivity.
    + apply (pad_digits_lt 4); [lia|]. change (10 ^ Z.of_nat 4) with 10000. lia.
  - rewrite E, !compare_append_same.
    apply (pad_digits_lt 2); [lia|]. change (10 ^ Z.of_nat 2) with 100. lia.
Qed.

Lemma valid_period_ok (d : Date.date) :
  Date.valid d = true -> period_ok (to_period_M d).
Proof.
  unfold Date.valid, period_ok, to_period_M, Date.MINYEAR, Date.MAXYEAR.
  intros H. repeat (apply andb_true_iff in H; destruct H as [H ?]).
  repeat match goal with
         | H : (_ <=? _) = true |- _ => apply Z.leb_le in H
         end.
  cbn [fst snd]. lia.
Qed.

(** ** Sums per category *)

(** [Categoria == c], the rows of one category. *)
Definition da_categoria (c : string) (r : DF.row) : bool :=
  same_key String.compare c (DF.Categoria r).

Lemma da_categoria_iff (c : string) (r : DF.row) :
  da_categoria c r = true <-> DF.Categoria r = c.
Proof. apply (same_key_iff _ String.compare string_compare_eq). Qed.

Lemma filter_pairs {A K} (cmp : K -> K -> comparison) (key : A -> K)
    (val : A -> Q) (k : K) (df : list A) :
  group_total cmp (map (fun r => (key r, val r)) df) k
  = col_sum (map val (filter (fun r => same_key cmp k (key r)) df)).
Proof.
  unfold group_total. f_equal.
  induction df as [|r df IH]; [reflexivity|].
  cbn. destruct (same_key cmp k (key r)); cbn; rewrite IH; reflexivity.
Qed.


Definition df_exemplo_categorias : list DF.row :=
  [DF.mkrow (Date.mkdate 2024 1 5) "Mercado" 120;
   DF.mkrow (Date.mkdate 2024 1 9) "Casa" (9950 # 100);
   DF.mkrow (Date.mkdate 2024 2 1) "Mercado" 80].

Example soma_por_categoria_exemplo :
  map fst (soma_por_categoria df_exemplo_categorias) = ["Casa"; "Mercado"] /\
  Forall2 Qeq (map snd (soma_por_categoria df_exemplo_categorias))
          [9950 # 100; 200]%Q.
Proof.
  vm_compute. split; [reflexivity|]. repeat constructor.
Qed.

(** ** Totals per month *)

(** [Mes == p], the rows dated in the month [p]. *)
Definition do_mes (p : Period) (r : DF.row) : bool :=
  same_key period_compare p (to_period_M (DF.Data r)).

(** The sum of the amounts of the rows of [df] dated in the month [p]. *)
Definition total_do_mes (df : list DF.row) (p : Period) : Q :=
  col_sum (map DF.Valor (filter (do_mes p) df)).

(** The index of the combined table: the months of either series. *)
Definition meses (df_receitas df_despesas : list DF.row) : list Period :=
  index_union period_compare
    (map fst (soma_mensal df_receitas)) (map fst (soma_mensal df_despesas)).

(** The row of the combined table at the month [p]. *)
Definition linha_do_mes (df_receitas df_despesas : list DF.row) (p : Period)
  : Mensal :=
  let receitas :=
    fillna0 (series_get period_compare (soma_mensal df_receitas) p) in
  let despesas :=
    fillna0 (series_get period_compare (soma_mensal df_despesas) p) in
  mkMensal (period_str p) receitas despesas (receitas - despesas)%Q.

Lemma do_mes_iff (p : Period) (r : DF.row) :
  do_mes p r = true <-> to_period_M (DF.Data r) = p.
Proof. apply (same_key_iff _ period_compare period_compare_eq). Qed.

(** The guards of [get_dados_mensais] only shortcut the empty cases. *)
Lemma get_dados_mensais_eq (df_receitas df_despesas : list DF.row) :
  get_dados_mensais df_receitas df_despesas
  = map (linha_do_mes df_receitas df_despesas) (meses df_receitas df_despesas).
Proof.
  unfold get_dados_mensais, meses, linha_do_mes.
  destruct df_receitas as [|r0 rs], df_despesas as [|d0 ds];
    cbn [DF.empty andb negb]; [reflexivity| | |].
  - change (soma_mensal []) with (@nil (Period * Q)).
    destruct (soma_mensal (d0 :: ds)); reflexivity.
  - change (soma_mensal []) with (@nil (Period * Q)).
    destruct (soma_mensal (r0 :: rs)); reflexivity.
  - destruct (soma_mensal (r0 :: rs)); [|reflexivity].
    destruct (soma_mensal (d0 :: ds)); reflexivity.
Qed.

Lemma soma_mensal_In (df : list DF.row) (p : Period) :
  In p (map fst (soma_mensal df))
  <-> exists r, In r df /\ to_period_M (DF.Data r) = p.
Proof.
  unfold soma_mensal. rewrite groupby_sum_In by apply period_compare_eq.
  rewrite map_map. cbn [fst]. rewrite in_map_iff.
  split; intros (r & H1 & H2); exists r; split; assumption.
Qed.

Lemma soma_mensal_get (df : list DF.row) (p : Period) :
  (fillna0 (series_get period_compare (soma_mensal df) p)
   == total_do_mes df p)%Q.
Proof.
  unfold soma_mensal, total_do_mes.
  rewrite groupby_sum_get.
  - rewrite filter_pairs. reflexivity.
  - apply period_compare_eq.
  - apply period_compare_antisym.
  - apply period_compare_trans.
Qed.

Lemma meses_sorted (df_receitas df_despesas : list DF.row) :
  StronglySorted (klt period_compare) (meses df_receitas df_despesas).
Proof.
  unfold meses. apply index_union_sorted.
  - apply period_compare_eq.
  - apply period_compare_antisym.
  - apply period_compare_trans.
  - apply groupby_sum_sorted.
    + apply period_compare_eq.
    + apply period_compare_antisym.
    + apply period_compare_trans.
Qed.

Lemma meses_In (df_receitas df_despesas : list DF.row) (p : Period) :
  In p (meses df_receitas df_despesas)
  <-> exists r, In r (df_receitas ++ df_despesas)
                /\ to_period_M (DF.Data r) = p.
Proof.
  unfold meses. rewrite index_union_In by apply period_compare_eq.
  rewrite !soma_mensal_In. split.
  - intros [(r & Hr & E)|(r & Hr & E)]; exists r; rewrite in_app_iff; auto.
  - intros (r & Hr & E). apply in_app_iff in Hr.
    destruct Hr as [Hr|Hr]; [left|right]; exists r; auto.
Qed.

Lemma Forall2_map_right {A B} (P : A -> B -> Prop) (f : A -> B) (l : list A) :
  (forall a, In a l -> P a (f a)) -> Forall2 P l (map f l).
Proof.
  induction l as [|a l IH]; intros H; cbn; constructor.
  - apply H. left. reflexivity.
  - apply IH. intros b Hb. apply H. right. exact Hb.
Qed.

Lemma StronglySorted_map {A B} (R : A -> A -> Prop) (S : B -> B -> Prop)
    (f : A -> B) (l : list A) :
  (forall a b, In a l -> In b l -> R a b -> S (f a) (f b)) ->
  StronglySorted R l -> StronglySorted S (map f l).
Proof.
  intros Hf Hs. induction Hs as [|a l Hs IH Hall]; cbn; constructor.
  - apply IH. intros x y Hx Hy. apply Hf; right; assumption.
  - rewrite Forall_forall in *. intros y Hy.
    apply in_map_iff in Hy. destruct Hy as (x & <- & Hx).
    apply Hf; [left; reflexivity|right; exact Hx|apply Hall; exact Hx].
Qed.


(** The example of the specification: receitas of 1000 in 2024-01, despesas
    of 400 in 2024-01 and of 100 in 2024-02. *)
Definition receitas_exemplo : list DF.row :=
  [DF.mkrow (Date.mkdate 2024 1 10) "Salario" 1000].

Definition despesas_exemplo : list DF.row :=
  [DF.mkrow (Date.mkdate 2024 1 15) "Casa" 400;
   DF.mkrow (Date.mkdate 2024 2 3) "Mercado" 100].

Example get_dados_mensais_exemplo :
  map Mes (get_dados_mensais receitas_exemplo despesas_exemplo)
  = ["2024-01"; "2024-02"] /\
  Forall2 Qeq (map Receitas (get_dados_mensais receitas_exemplo despesas_exemplo))
          [1000; 0]%Q /\
  Forall2 Qeq (map Despesas (get_dados_mensais receitas_exemplo despesas_exemplo))
          [400; 100]%Q /\
  Forall2 Qeq (map Saldo (get_dados_mensais receitas_exemplo despesas_exemplo))
          [600; -100]%Q.
Proof.
  vm_compute. split; [reflexivity|]. repeat split; repeat constructor.
Qed.

(** C5. When every row carries a calendar date (as every timestamp of a
    loaded table does), the months of the table of [get_dados_mensais] go
    up strictly from row to row in the order of their texts 'YYYY-MM'. *)
Theorem C5_months_ascending (df_receitas df_despesas : list DF.row) :
  Forall (fun r => Date.valid (DF.Data r) = true) df_receitas ->
  Forall (fun r => Date.valid (DF.Data r) = true) df_despesas ->
  StronglySorted (fun a b => String.compare a b = Lt)
    (map Mes (get_dados_mensais df_receitas df_despesas)).
Proof.
  intros Hr Hd.
  assert (Hok : forall p, In p (meses df_receitas df_despesas) -> period_ok p).
  { intros p Hp. apply meses_In in Hp. destruct Hp as (r & Hin & <-).
    apply valid_period_ok. apply in_app_iff in Hin.
    rewrite Forall_forall in Hr, Hd. destruct Hin; auto. }
  rewrite get_dados_mensais_eq, map_map.
  change (fun x => Mes (linha_do_mes df_receitas df_despesas x)) with period_str.
  apply StronglySorted_map with (R := klt period_compare);
    [|apply meses_sorted].
  intros a b Ha Hb Hab. apply period_str_lt; auto.
Qed.

Lemma C5_witness :
  StronglySorted (fun a b => String.compare a b = Lt)
    (map Mes (get_dados_mensais receitas_exemplo despesas_exemplo)).
Proof.
  apply (C5_months_ascending receitas_exemplo despesas_exemplo);
    repeat constructor.
Defined.

(** * More of [main.py] *)

(** ** Every outcome of [add_despesa] *)

Lemma for_each_app {A} (l1 l2 : list A) (body : A -> M unit) (w : World) :
  for_each (l1 ++ l2) body w = (for_each l1 body ;; for_each l2 body) w.
Proof.
  revert w. induction l1 as [|x l1 IH]; intros w; cbn [app for_each].
  - reflexivity.
  - unfold bind in *. destruct (body x w) as [[[]|e] w1]; [|reflexivity].
    apply IH.
Qed.

(** The effects that [add_despesa] itself can have: identifiers, rows of
    "Despesas" and the cache, nothing on the screen or on "Receitas". *)
Definition is_sheet_effect (e : effect) : bool :=
  match e with
  | Uuid4 _ | AppendRow _ | CacheDataClear => true
  | AppendRowReceitas _ | StError _ | StSuccess _ | StBalloons => false
  end.

Section AddDespesaOutcomes.

Variable data : Date.date.
Variables categoria forma_pagamento cartao : string.
Variable valor_total : Q.
Variable num_parcelas : Z.
Variable descricao : string.

(** Whether [data + timedelta(days=30*i)] is a [date]. *)
Definition data_parcela_ok (i : Z) : bool :=
  negb (999999999 <? Z.abs (30 * i))
  && ((0 <? Date.toordinal data + 30 * i)
      && (Date.toordinal data + 30 * i <=? Date.MAXORDINAL)).

Lemma date_add_days_cases (i : Z) (w : World) :
  date_add_days data (30 * i) w
  = if data_parcela_ok i
    then (Returned (Date.fromordinal (Date.toordinal data + 30 * i)), w)
    else (Raised OverflowError, w).
Proof.
  unfold date_add_days, data_parcela_ok.
  destruct (999999999 <? Z.abs (30 * i)); cbn [negb andb]; [reflexivity|].
  destruct ((0 <? Date.toordinal data + 30 * i)
            && (Date.toordinal data + 30 * i <=? Date.MAXORDINAL)); reflexivity.
Qed.

Lemma data_parcela_ok_iff (i : Z) :
  0 <= i ->
  data_parcela_ok i = true
  <-> 0 < Date.toordinal data + 30 * i <= Date.MAXORDINAL
      /\ 30 * i <= 999999999.
Proof.
  intros Hi. unfold data_parcela_ok.
  rewrite !andb_true_iff, negb_true_iff, Z.ltb_ge, Z.ltb_lt, Z.leb_le. lia.
Qed.

(** A pass whose date is out of range draws its identifier and raises. *)
Lemma parcela_body_raises (g : string) (vp : Q) (i : Z) (w : World) :
  data_parcela_ok i = false ->
  parcela_body data categoria forma_pagamento cartao num_parcelas descricao
               g vp i w
  = (Raised OverflowError,
     mkWorld (despesas w) (uuids w) (S (uuid_calls w))
             (log w ++ [Uuid4 (uuids w (uuid_calls w))])).
Proof.
  intros H. unfold parcela_body, bind, uuid4_8.
  rewrite date_add_days_cases, H. reflexivity.
Qed.

Lemma parcela_body_outcome (g : string) (vp : Q) (i : Z) (w : World) :
  exists w',
    parcela_body data categoria forma_pagamento cartao num_parcelas descricao
                 g vp i w
    = (if data_parcela_ok i then Returned tt else Raised OverflowError, w') /\
    exists evs, log w' = log w ++ evs /\ forallb is_sheet_effect evs = true
                /\ cache_clears evs = O.
Proof.
  unfold parcela_body, bind, uuid4_8.
  rewrite date_add_days_cases. destruct (data_parcela_ok i).
  - eexists. split; [reflexivity|]. cbn [log].
    eexists [_; _]. rewrite <- app_assoc. split; [reflexivity|].
    split; reflexivity.
  - eexists. split; [reflexivity|]. cbn [log].
    eexists [_]. split; [reflexivity|]. split; reflexivity.
Qed.

(** The loop: it returns when every date is in range and raises
    [OverflowError] otherwise; either way it leaves the screen and the
    cache alone. *)
Lemma for_each_outcome (g : string) (vp : Q) (l : list Z) :
  forall w, exists w',
    for_each l (parcela_body data categoria forma_pagamento cartao
                             num_parcelas descricao g vp) w
    = (if forallb data_parcela_ok l then Returned tt else Raised OverflowError,
       w') /\
    exists evs, log w' = log w ++ evs /\ forallb is_sheet_effect evs = true
                /\ cache_clears evs = O.
Proof.
  induction l as [|i l IH]; intros w.
  - exists w. split; [reflexivity|]. exists []. rewrite app_nil_r.
    repeat split.
  - cbn [for_each forallb]. unfold bind at 1.
    destruct (parcela_body_outcome g vp i w) as (w1 & E1 & evs1 & L1 & F1 & C1).
    rewrite E1. destruct (data_parcela_ok i); cbn [andb].
    + destruct (IH w1) as (w2 & E2 & evs2 & L2 & F2 & C2).
      exists w2. split; [exact E2|]. exists (evs1 ++ evs2).
      rewrite L2, L1, app_assoc, forallb_app, F1, F2, cache_clears_app, C1, C2.
      repeat split.
    + exists w1. split; [reflexivity|]. exists evs1. repeat split; assumption.
Qed.

Lemma range_ok_iff :
  1 <= num_parcelas ->
  forallb data_parcela_ok (range num_parcelas) = true
  <-> dates_representable data num_parcelas.
Proof.
  intros Hn. rewrite forallb_forall. unfold dates_representable. split.
  - intros H.
    assert (H0 : data_parcela_ok 0 = true) by (apply H, range_In; lia).
    assert (H1 : data_parcela_ok (num_parcelas - 1) = true)
      by (apply H, range_In; lia).
    apply data_parcela_ok_iff in H0; [|lia].
    apply data_parcela_ok_iff in H1; [|lia]. lia.
  - intros [Hlo Hhi] i Hi. apply range_In in Hi.
    apply data_parcela_ok_iff; [lia|]. unfold Date.MAXORDINAL in *. lia.
Qed.

(** X1.  The outcome of a call, for every argument.  It raises
    [ZeroDivisionError] for a count of zero, returns for a negative count
    (an empty loop), and for a count [n >= 1] returns exactly when every
    installment date is a [date], raising [OverflowError] otherwise.  Its
    effects are on identifiers, sheet and cache only.  When it returns, the
    sheet has gained the rows of the call, one per installment, and the
    cache was cleared once; when it raises, the cache was not cleared. *)
Theorem add_despesa_outcome (w : World) :
  exists o w' evs,
    add_despesa data categoria forma_pagamento cartao valor_total
                num_parcelas descricao w = (o, w') /\
    log w' = log w ++ evs /\
    forallb is_sheet_effect evs = true /\
    (num_parcelas = 0 ->
     o = Raised ZeroDivisionError /\ despesas w' = despesas w) /\
    (num_parcelas < 0 -> o = Returned tt /\ despesas w' = despesas w) /\
    (1 <= num_parcelas ->
     (o = Returned tt <-> dates_representable data num_parcelas) /\
     (o = Returned tt \/ o = Raised OverflowError)) /\
    (o = Returned tt ->
     cache_clears evs = 1%nat /\
     despesas w' = despesas w
                   ++ parcelas data categoria forma_pagamento cartao
                               valor_total num_parcelas descricao w /\
     List.length (parcelas data categoria forma_pagamento cartao
                           valor_total num_parcelas descricao w)
     = Z.to_nat num_parcelas) /\
    (o <> Returned tt -> cache_clears evs = O).
Proof.
  rewrite add_despesa_unfold. unfold bind at 1. unfold uuid4_8 at 1.
  unfold bind at 1. unfold float_div.
  destruct (num_parcelas =? 0) eqn:E0.
  - apply Z.eqb_eq in E0. unfold raise. do 3 eexists.
    split; [reflexivity|]. cbn [log despesas].
    split; [reflexivity|]. split; [reflexivity|].
    split; [split; reflexivity|].
    split; [lia|]. split; [lia|].
    split; [discriminate|reflexivity].
  - apply Z.eqb_neq in E0. unfold ret at 1. unfold bind at 1.
    match goal with
    | |- context [for_each ?l ?b ?w1] =>
        destruct (for_each_outcome
                    (Py.slice_to 8 (uuids w (uuid_calls w)))
                    (Py.truediv valor_total num_parcelas) l w1)
          as (w2 & E2 & evs2 & L2 & F2 & C2)
    end.
    rewrite E2. cbn [log] in L2.
    destruct (forallb data_parcela_ok (range num_parcelas)) eqn:Eok.
    + assert (Hrows : despesas w2
                      = despesas w
                        ++ parcelas data categoria forma_pagamento cartao
                                    valor_total num_parcelas descricao w).
      { destruct (Z_lt_le_dec num_parcelas 0) as [Hn|Hn].
        - unfold parcelas. replace (Z.to_nat num_parcelas) with O by lia.
          cbn [seq map]. rewrite app_nil_r.
          unfold range in E2.
          replace (Z.to_nat num_parcelas) with O in E2 by lia.
          cbn in E2. inversion E2. reflexivity.
        - assert (Hd : dates_representable data num_parcelas)
            by (apply range_ok_iff; [lia|exact Eok]).
          unfold range in E2.
          rewrite (for_each_parcelas data categoria forma_pagamento cartao
                     valor_total num_parcelas descricao
                     (uuids w) (uuid_calls w)) in E2.
          + inversion E2. reflexivity.
          + reflexivity.
          + cbn [uuid_calls]. lia.
          + apply Hd.
          + left. rewrite Nat.add_0_l, Z2Nat.id by lia. apply Hd. }
      unfold cache_data_clear, emit. do 3 eexists. split; [reflexivity|].
      cbn [log despesas]. rewrite L2, <- !app_assoc.
      split; [reflexivity|].
      split; [cbn; rewrite forallb_app, F2; reflexivity|].
      split; [lia|].
      split.
      { intros Hn. split; [reflexivity|]. rewrite Hrows. unfold parcelas.
        replace (Z.to_nat num_parcelas) with O by lia. apply app_nil_r. }
      split.
      { intros Hn. split; [|left; reflexivity].
        split; [intros _; apply range_ok_iff; assumption|reflexivity]. }
      split; [|congruence]. intros _.
      split; [cbn; rewrite cache_clears_app, C2; reflexivity|].
      split; [exact Hrows|apply parcelas_length].
    + do 3 eexists. split; [reflexivity|].
      rewrite L2, <- !app_assoc. split; [reflexivity|].
      split; [cbn; exact F2|].
      split; [lia|].
      split.
      { intros Hn. exfalso. unfold range in Eok.
        replace (Z.to_nat num_parcelas) with O in Eok by lia. discriminate. }
      split.
      { intros Hn. split; [|right; reflexivity].
        split; [discriminate|]. intros Hd.
        apply range_ok_iff in Hd; [congruence|exact Hn]. }
      split; [discriminate|]. intros _. cbn. exact C2.
Qed.


End AddDespesaOutcomes.


Example add_despesa_9999 :
  let '(o, w) := add_despesa (Date.mkdate 9999 12 1) "Casa" "PIX" "" 100 3
                             "Sofa" w_empty in
  o = Raised OverflowError /\
  map Data (despesas w) = ["9999-12-01"; "9999-12-31"] /\
  cache_clears (log w) = O.
Proof. vm_compute. repeat split. Qed.

(** ** What the form of expenses shows *)

(** The text of [st.success] after a saved expense. *)
Definition msg_sucesso (num_parcelas : Z) : string :=
  ("✅ Despesa adicionada com sucesso! ("
   ++ Py.str_int num_parcelas ++ " parcela(s) criada(s))")%string.

(** The checks of the handler: required fields, then the card of a payment
    by credit. *)
Definition campos_ok (f : Form.despesa) : Prop :=
  (0 < Form.valor_total f)%Q /\
  Form.categoria_despesa f <> "" /\
  Form.forma_pagamento f <> "".

Definition falta_cartao (f : Form.despesa) : Prop :=
  Form.forma_pagamento f = "Crédito" /\ Form.cartao_selecionado f = "".

Lemma float_pos_true (x : Q) : float_pos x = true <-> (0 < x)%Q.
Proof.
  split.
  - intros H. destruct (Qlt_le_dec 0 x) as [Hx|Hx]; [exact Hx|].
    apply float_pos_false in Hx. congruence.
  - intros H. destruct (float_pos x) eqn:E; [reflexivity|].
    apply float_pos_false in E. exfalso. lra.
Qed.

Lemma truthy_true (s : string) : Py.truthy s = true <-> s <> "".
Proof.
  destruct s; cbn; split; intros H; try reflexivity; try discriminate.
  contradiction.
Qed.

Lemma campos_ok_iff (f : Form.despesa) :
  float_pos (Form.valor_total f)
  && Py.truthy (Form.categoria_despesa f)
  && Py.truthy (Form.forma_pagamento f) = true
  <-> campos_ok f.
Proof.
  unfold campos_ok.
  rewrite !andb_true_iff, float_pos_true, !truthy_true. tauto.
Qed.

Lemma falta_cartao_iff (f : Form.despesa) :
  (Form.forma_pagamento f =? "Crédito")%string
  && negb (Py.truthy (Form.cartao_selecionado f)) = true
  <-> falta_cartao f.
Proof.
  unfold falta_cartao.
  rewrite andb_true_iff, String.eqb_eq, negb_true_iff, truthy_false. tauto.
Qed.

Lemma sheet_effect_not_screen (evs : list effect) (e : effect) :
  forallb is_sheet_effect evs = true -> In e evs -> is_sheet_effect e = true.
Proof. intros H. rewrite forallb_forall in H. apply H. Qed.

(** X3.  Which error the form shows, and that an error is all that happens:
    the message about required fields when the amount is not positive or
    the category or the payment method is empty; the message about the card
    only when those are filled in and a payment by credit has no card.
    With an error on the screen nothing was drawn, written or cleared. *)
Theorem form_despesa_errors (f : Form.despesa) (w : World) :
  exists o w' evs,
    form_despesa_submitted f w = (o, w') /\
    log w' = log w ++ evs /\
    (In (StError msg_campos) evs <-> ~ campos_ok f) /\
    (In (StError msg_cartao) evs <-> campos_ok f /\ falta_cartao f) /\
    (forall msg, In (StError msg) evs ->
       evs = [StError msg] /\ o = Returned tt /\
       despesas w' = despesas w /\ uuid_calls w' = uuid_calls w).
Proof.
  assert (Hne : msg_campos <> msg_cartao) by (vm_compute; discriminate).
  unfold form_despesa_submitted.
  destruct (float_pos (Form.valor_total f)
            && Py.truthy (Form.categoria_despesa f)
            && Py.truthy (Form.forma_pagamento f)) eqn:Eok.
  - assert (Hok : campos_ok f) by (apply campos_ok_iff; exact Eok).
    destruct ((Form.forma_pagamento f =? "Crédito")%string
              && negb (Py.truthy (Form.cartao_selecionado f))) eqn:Ecard.
    + assert (Hc : falta_cartao f) by (apply falta_cartao_iff; exact Ecard).
      do 3 eexists. split; [reflexivity|]. cbn [log despesas uuid_calls].
      split; [reflexivity|].
      split.
      { split; [|tauto]. intros [H|[]]. exfalso. congruence. }
      split; [split; [tauto|intros _; left; reflexivity]|].
      intros msg [H|[]]. inversion H. subst msg. repeat split.
    + assert (Hc : ~ falta_cartao f).
      { intros H. apply falta_cartao_iff in H. congruence. }
      destruct (add_despesa_outcome (Form.data_despesa f)
                  (Form.categoria_despesa f) (Form.forma_pagamento f)
                  (Form.cartao_selecionado f) (Form.valor_total f)
                  (Form.num_parcelas f) (Form.descricao_despesa f) w)
        as (o1 & w1 & evs1 & E1 & L1 & F1 & _).
      assert (Hno : forall msg evs2,
                (forall e, In e evs2 -> e = StSuccess (msg_sucesso (Form.num_parcelas f))
                                        \/ e = StBalloons) ->
                ~ In (StError msg) (evs1 ++ evs2)).
      { intros msg evs2 H2 Hin. apply in_app_iff in Hin.
        destruct Hin as [Hin|Hin].
        - apply (sheet_effect_not_screen _ _ F1) in Hin. discriminate.
        - destruct (H2 _ Hin); discriminate. }
      unfold bind at 1. rewrite E1. destruct o1 as [[]|e].
      * unfold bind, st_success, st_balloons, emit. cbn [log].
        do 3 eexists. split; [reflexivity|]. cbn [log].
        rewrite L1, <- !app_assoc. split; [reflexivity|].
        assert (Hno' : forall msg,
                  ~ In (StError msg)
                       (evs1 ++ [StSuccess (msg_sucesso (Form.num_parcelas f))]
                             ++ [StBalloons])).
        { intros msg. apply Hno. intros e0 [<-|[<-|[]]]; auto. }
        split; [split; [intros H; destruct (Hno' _ H)|tauto]|].
        split; [split; [intros H; destruct (Hno' _ H)|tauto]|].
        intros msg H. destruct (Hno' _ H).
      * do 3 eexists. split; [reflexivity|].
        rewrite L1. split; [reflexivity|].
        assert (Hno' : forall msg, ~ In (StError msg) evs1).
        { intros msg H. apply (Hno msg []); [intros e0 []|].
          rewrite app_nil_r. exact H. }
        split; [split; [intros H; destruct (Hno' _ H)|tauto]|].
        split; [split; [intros H; destruct (Hno' _ H)|tauto]|].
        intros msg H. destruct (Hno' _ H).
  - assert (Hok : ~ campos_ok f).
    { intros H. apply campos_ok_iff in H. congruence. }
    do 3 eexists. split; [reflexivity|]. cbn [log despesas uuid_calls].
    split; [reflexivity|].
    split; [split; [intros _; exact Hok|intros _; left; reflexivity]|].
    split.
    { split; [|tauto]. intros [H|[]]. exfalso. congruence. }
    intros msg [H|[]]. inversion H. subst msg. repeat split.
Qed.


(** ** Income: [add_receita] and the form "form_receita" *)

(** The worksheet "Receitas" beside the rest of the world. *)
Record Planilhas : Type := mkPlanilhas {
  receitas : list Receita.linha;
  mundo : World
}.

(** Computations that also reach the worksheet "Receitas". *)
Definition MP (A : Type) : Type := Planilhas -> outcome A * Planilhas.

Definition bindP {A B} (m : MP A) (k : A -> MP B) : MP B :=
  fun p =>
    match m p with
    | (Returned a, p') => k a p'
    | (Raised e, p') => (Raised e, p')
    end.

(** A computation over the world, run beside the worksheet. *)
Definition liftW {A} (m : M A) : MP A :=
  fun p =>
    match m (mundo p) with
    | (o, w') => (o, mkPlanilhas (receitas p) w')
    end.

(** [sheet.append_row(r)] on "Receitas": the row goes below the last row
    of the sheet, and the call is an effect like any other. *)
Definition append_row_receitas (r : Receita.linha) : MP unit :=
  fun p =>
    (Returned tt,
     mkPlanilhas (receitas p ++ [r])
       (mkWorld (despesas (mundo p)) (uuids (mundo p)) (uuid_calls (mundo p))
                (log (mundo p) ++ [AppendRowReceitas r]))).

Definition add_receita (data : Date.date)
    (tipo_receita categoria : string) (valor : Q) (descricao : string)
  : MP unit :=
  bindP (liftW uuid4_8) (fun receita_id =>
  bindP (append_row_receitas
           (Receita.mklinha receita_id (Date.strftime_Ymd data) categoria
                            tipo_receita valor descricao)) (fun _ =>
  liftW cache_data_clear)).

Definition msg_receita : string := "✅ Receita adicionada com sucesso!".

(** The block under [if submitted:] of the form "form_receita". *)
Definition form_receita_submitted (f : Receita.form) : MP unit :=
  if float_pos (Receita.valor_receita f)
     && Py.truthy (Receita.categoria_receita f)
  then
    bindP (add_receita (Receita.data_receita f) (Receita.tipo_receita f)
                       (Receita.categoria_receita f) (Receita.valor_receita f)
                       (Receita.descricao_receita f)) (fun _ =>
    bindP (liftW (st_success msg_receita)) (fun _ =>
    liftW st_balloons))
  else liftW (st_error msg_campos).

(** X5.  A submitted income never raises and never touches the worksheet of
    expenses.  With a positive amount and a category it appends one row to
    "Receitas": a fresh identifier, the date as '%Y-%m-%d', and category,
    type, amount and description as entered (the amount is not rounded and
    the description gets no suffix), in the column order of the sheet.  The
    effects come in this order: the identifier is drawn, the row is
    appended, the cache is cleared, then success and balloons are shown.
    Otherwise it
    only shows the error about required fields: no identifier is drawn and
    no row is written. *)
Theorem form_receita_saves_or_rejects (f : Receita.form) (p : Planilhas) :
  exists p' evs,
    form_receita_submitted f p = (Returned tt, p') /\
    despesas (mundo p') = despesas (mundo p) /\
    log (mundo p') = log (mundo p) ++ evs /\
    ((0 < Receita.valor_receita f)%Q /\ Receita.categoria_receita f <> "" ->
     receitas p'
     = receitas p
       ++ [Receita.mklinha
             (Py.slice_to 8 (uuids (mundo p) (uuid_calls (mundo p))))
             (Date.strftime_Ymd (Receita.data_receita f))
             (Receita.categoria_receita f) (Receita.tipo_receita f)
             (Receita.valor_receita f) (Receita.descricao_receita f)] /\
     uuid_calls (mundo p') = S (uuid_calls (mundo p)) /\
     evs = [Uuid4 (uuids (mundo p) (uuid_calls (mundo p)));
            AppendRowReceitas
              (Receita.mklinha
                 (Py.slice_to 8 (uuids (mundo p) (uuid_calls (mundo p))))
                 (Date.strftime_Ymd (Receita.data_receita f))
                 (Receita.categoria_receita f) (Receita.tipo_receita f)
                 (Receita.valor_receita f) (Receita.descricao_receita f));
            CacheDataClear; StSuccess msg_receita; StBalloons]) /\
    (~ ((0 < Receita.valor_receita f)%Q /\ Receita.categoria_receita f <> "") ->
     receitas p' = receitas p /\
     uuid_calls (mundo p') = uuid_calls (mundo p) /\
     evs = [StError msg_campos]).
Proof.
  unfold form_receita_submitted.
  destruct (float_pos (Receita.valor_receita f)
            && Py.truthy (Receita.categoria_receita f)) eqn:E.
  - apply andb_true_iff in E. destruct E as [Hv Hc].
    apply float_pos_true in Hv. apply truthy_true in Hc.
    do 2 eexists. split; [reflexivity|]. cbn.
    split; [reflexivity|].
    rewrite <- !app_assoc. split; [reflexivity|].
    split; [intros _; repeat split|]. intros H. exfalso. apply H.
    split; assumption.
  - assert (Hn : ~ ((0 < Receita.valor_receita f)%Q
                    /\ Receita.categoria_receita f <> "")).
    { intros [Hv Hc]. apply float_pos_true in Hv. apply truthy_true in Hc.
      rewrite Hv, Hc in E. discriminate. }
    do 2 eexists. split; [reflexivity|]. cbn.
    split; [reflexivity|]. split; [reflexivity|].
    split; [intros H; destruct (Hn H)|]. intros _. repeat split.
Qed.

Example form_receita_exemplo :
  let p := mkPlanilhas [] w_empty in
  let f := Receita.mkform (Date.mkdate 2024 1 10) "Fixa" "Salario"
                          (100001 # 300) "Janeiro" in
  exists p',
    form_receita_submitted f p = (Returned tt, p') /\
    receitas p'
    = [Receita.mklinha "00000000" "2024-01-10" "Salario" "Fixa"
                       (100001 # 300) "Janeiro"] /\
    map (fun e => match e with
                  | Uuid4 _ => "uuid4"
                  | AppendRowReceitas _ => "append"
                  | CacheDataClear => "clear"
                  | StSuccess _ => "success"
                  | StBalloons => "balloons"
                  | _ => "other"
                  end) (log (mundo p'))
    = ["uuid4"; "append"; "clear"; "success"; "balloons"].
Proof. eexists. repeat split. Qed.

(** ** Amounts of the installments *)

(** An integer within half a unit of [x], strictly, is what [round] gives. *)
Lemma round_half_even_unique (x : Q) (k : Z) :
  (inject_Z k - (1 # 2) < x)%Q -> (x < inject_Z k + (1 # 2))%Q ->
  Py.round_half_even x = k.
Proof.
  intros Hlo Hhi. unfold Py.round_half_even.
  pose proof (Qfloor_le x) as Hf.
  pose proof (Qlt_floor x) as Hc.
  rewrite inject_Z_plus in Hc. change (inject_Z 1) with 1%Q in Hc.
  assert (Hk : Qfloor x = k \/ Qfloor x + 1 = k).
  { assert (H1 : (inject_Z (Qfloor x) < inject_Z (k + 1))%Q).
    { rewrite inject_Z_plus. change (inject_Z 1) with 1%Q. lra. }
    assert (H2 : (inject_Z (k - 1) < inject_Z (Qfloor x + 1))%Q).
    { unfold Z.sub. rewrite !inject_Z_plus.
      change (inject_Z (- (1))) with (-1 # 1)%Q.
      change (inject_Z 1) with 1%Q. lra. }
    rewrite <- Zlt_Qlt in H1, H2. lia. }
  destruct (x - inject_Z (Qfloor x) ?= 1 # 2)%Q eqn:E.
  - apply Qeq_alt in E. exfalso. destruct Hk as [Hk|Hk].
    + rewrite Hk in E. lra.
    + rewrite <- Hk, inject_Z_plus in Hlo.
      change (inject_Z 1) with 1%Q in Hlo. lra.
  - apply Qlt_alt in E. destruct Hk as [Hk|Hk]; [exact Hk|exfalso].
    rewrite <- Hk, inject_Z_plus in Hlo.
    change (inject_Z 1) with 1%Q in Hlo. lra.
  - apply Qgt_alt in E. destruct Hk as [Hk|Hk]; [exfalso|exact Hk].
    rewrite Hk in E. lra.
Qed.

Section Valores.

Variable data : Date.date.
Variables categoria forma_pagamento cartao : string.
Variable valor_total : Q.
Variable num_parcelas : Z.
Variable descricao : string.

(** X8.  An expense whose float quotient [valor_total / num_parcelas] is
    below half a cent vanishes: every installment is stored with the amount
    zero. *)
Theorem small_total_stored_as_zero (w : World) :
  1 <= num_parcelas ->
  dates_representable data num_parcelas ->
  (0 <= valor_total)%Q ->
  (Py.truediv valor_total num_parcelas < 1 # 200)%Q ->
  exists w' rows,
    add_despesa data categoria forma_pagamento cartao valor_total
                num_parcelas descricao w = (Returned tt, w') /\
    despesas w' = despesas w ++ rows /\
    Z.of_nat (List.length rows) = num_parcelas /\
    (forall r, In r rows -> Valor r = 0%Q) /\
    (col_sum (map Valor rows) == 0)%Q.
Proof.
  intros Hn Hd H0 Hsmall.
  assert (Hq : (1 <= inject_Z num_parcelas)%Q).
  { change 1%Q with (inject_Z 1). rewrite <- Zle_Qle. exact Hn. }
  assert (Hx0 : (0 <= Py.truediv valor_total num_parcelas)%Q).
  { apply to_float_nonneg, Qle_shift_div_l; lra. }
  assert (Hr : Py.round2 (Py.truediv valor_total num_parcelas) = 0%Q).
  { unfold Py.round2.
    rewrite (round_half_even_unique _ 0);
      [reflexivity|change (inject_Z 0) with 0%Q; lra..]. }
  do 2 eexists.
  split; [apply add_despesa_returns; assumption|].
  split; [reflexivity|].
  split; [rewrite parcelas_length; lia|].
  split.
  - intros r Hr'. apply parcelas_In in Hr'. destruct Hr' as (k & _ & ->).
    cbn [parcela nova_linha Valor]. exact Hr.
  - rewrite parcelas_sum by lia. rewrite Hr. lra.
Qed.

End Valores.

(** One cent, the float nearest to 0.01, in three installments. *)
Lemma small_total_stored_as_zero_witness :
  exists w' rows,
    add_despesa (Date.mkdate 2024 1 31) "Casa" "PIX" "" (Py.to_float (1 # 100))
                3 "Sofa" w_empty
    = (Returned tt, w') /\
    despesas w' = despesas w_empty ++ rows /\
    Z.of_nat (List.length rows) = 3 /\
    (forall r, In r rows -> Valor r = 0%Q) /\
    (col_sum (map Valor rows) == 0)%Q.
Proof.
  apply (small_total_stored_as_zero (Date.mkdate 2024 1 31) "Casa" "PIX" ""
           (Py.to_float (1 # 100)) 3 "Sofa" w_empty).
  - lia.
  - unfold dates_representable. vm_compute. split; [reflexivity|discriminate].
  - vm_compute. discriminate.
  - vm_compute. reflexivity.
Defined.

(** It is the float quotient that counts: three cents in six installments
    are half a cent each as numbers, but the float quotient is the float
    just above 0.005, and each installment is stored as one cent. *)
Example three_cents_in_six :
  let '(_, w) := add_despesa (Date.mkdate 2024 1 31) "Casa" "PIX" ""
                             (Py.to_float (3 # 100)) 6 "Sofa" w_empty in
  map Valor (despesas w) = repeat (Py.to_float (1 # 100)) 6 /\
  (1 # 200 < Py.truediv (Py.to_float (3 # 100)) 6)%Q.
Proof. vm_compute. split; reflexivity. Qed.

(** ** The monthly table as a whole *)

Lemma col_sum_map_ext {A} (f g : A -> Q) (l : list A) :
  (forall a, In a l -> (f a == g a)%Q) ->
  (col_sum (map f l) == col_sum (map g l))%Q.
Proof.
  induction l as [|a l IH]; intros H; cbn [map]; [reflexivity|].
  rewrite !col_sum_cons, IH.
  - rewrite (H a); [reflexivity|left; reflexivity].
  - intros b Hb. apply H. right. exact Hb.
Qed.

Lemma col_sum_map_plus {A} (f g : A -> Q) (l : list A) :
  (col_sum (map (fun a => f a + g a) l)
   == col_sum (map f l) + col_sum (map g l))%Q.
Proof.
  induction l as [|a l IH]; cbn [map].
  - rewrite !col_sum_nil. lra.
  - rewrite !col_sum_cons, IH. lra.
Qed.

Lemma col_sum_map_minus {A} (f g : A -> Q) (l : list A) :
  (col_sum (map (fun a => f a - g a) l)
   == col_sum (map f l) - col_sum (map g l))%Q.
Proof.
  induction l as [|a l IH]; cbn [map].
  - rewrite !col_sum_nil. lra.
  - rewrite !col_sum_cons, IH. lra.
Qed.

Lemma col_sum_map_zero {A} (l : list A) :
  (col_sum (map (fun _ => 0) l) == 0)%Q.
Proof.
  induction l as [|a l IH]; cbn [map].
  - rewrite col_sum_nil. lra.
  - rewrite col_sum_cons, IH. lra.
Qed.

(** Over an index without repeats, the amount of a row counts in the month
    of the row and in no other. *)
Lemma col_sum_one_month (r : DF.row) (idx : list Period) :
  NoDup idx ->
  (col_sum (map (fun p => if do_mes p r then DF.Valor r else 0) idx)
   == if existsb (fun p => do_mes p r) idx then DF.Valor r else 0)%Q.
Proof.
  induction 1 as [|p idx Hp Hnd IH]; cbn [map existsb].
  - rewrite col_sum_nil. reflexivity.
  - rewrite col_sum_cons, IH. destruct (do_mes p r) eqn:E; cbn [orb].
    + replace (existsb (fun q => do_mes q r) idx) with false; [lra|].
      symmetry. apply not_true_is_false. intros Hex.
      apply existsb_exists in Hex. destruct Hex as (q & Hq & Eq').
      apply do_mes_iff in E. apply do_mes_iff in Eq'. congruence.
    + destruct (existsb (fun q => do_mes q r) idx); lra.
Qed.

Lemma total_do_mes_cons (r : DF.row) (df : list DF.row) (p : Period) :
  (total_do_mes (r :: df) p
   == (if do_mes p r then DF.Valor r else 0) + total_do_mes df p)%Q.
Proof.
  unfold total_do_mes. cbn [filter]. destruct (do_mes p r); cbn [map].
  - rewrite col_sum_cons. reflexivity.
  - lra.
Qed.

(** The monthly sums of a table, over an index that has all its months,
    add up to the sum of the table. *)
Lemma total_do_mes_sum (idx : list Period) (df : list DF.row) :
  NoDup idx ->
  (forall r, In r df -> In (to_period_M (DF.Data r)) idx) ->
  (col_sum (map (total_do_mes df) idx) == col_sum (map DF.Valor df))%Q.
Proof.
  intros Hnd. induction df as [|r df IH]; intros Hin.
  - cbn [map]. rewrite col_sum_nil.
    rewrite (col_sum_map_ext _ (fun _ => 0%Q)); [apply col_sum_map_zero|].
    intros p _. reflexivity.
  - cbn [map]. rewrite col_sum_cons.
    rewrite (col_sum_map_ext _
               (fun p => (if do_mes p r then DF.Valor r else 0)
                         + total_do_mes df p)%Q)
      by (intros p _; apply total_do_mes_cons).
    rewrite col_sum_map_plus, col_sum_one_month by exact Hnd.
    rewrite IH by (intros x Hx; apply Hin; right; exact Hx).
    replace (existsb (fun p => do_mes p r) idx) with true; [reflexivity|].
    symmetry. apply existsb_exists. exists (to_period_M (DF.Data r)).
    split; [apply Hin; left; reflexivity|]. apply do_mes_iff. reflexivity.
Qed.

Lemma meses_NoDup (df_receitas df_despesas : list DF.row) :
  NoDup (meses df_receitas df_despesas).
Proof.
  apply (sorted_NoDup _ period_compare period_compare_eq), meses_sorted.
Qed.

(** On tables whose rows all have a date, the columns of the monthly table
    add up to the tables they come from. *)
Lemma columns_add_up_dated (df_receitas df_despesas : list DF.row) :
  let df_mensal := get_dados_mensais df_receitas df_despesas in
  (col_sum (map Receitas df_mensal) == col_sum (map DF.Valor df_receitas))%Q /\
  (col_sum (map Despesas df_mensal) == col_sum (map DF.Valor df_despesas))%Q /\
  (col_sum (map Saldo df_mensal)
   == col_sum (map DF.Valor df_receitas)
      - col_sum (map DF.Valor df_despesas))%Q.
Proof.
  cbv zeta. rewrite get_dados_mensais_eq, !map_map.
  assert (Hr : (col_sum (map (fun p => Receitas (linha_do_mes df_receitas df_despesas p))
                             (meses df_receitas df_despesas))
                == col_sum (map DF.Valor df_receitas))%Q).
  { rewrite (col_sum_map_ext _ (total_do_mes df_receitas))
      by (intros p _; apply soma_mensal_get).
    apply total_do_mes_sum; [apply meses_NoDup|].
    intros r Hin. apply meses_In. exists r.
    split; [apply in_app_iff; left; exact Hin|reflexivity]. }
  assert (Hd : (col_sum (map (fun p => Despesas (linha_do_mes df_receitas df_despesas p))
                             (meses df_receitas df_despesas))
                == col_sum (map DF.Valor df_despesas))%Q).
  { rewrite (col_sum_map_ext _ (total_do_mes df_despesas))
      by (intros p _; apply soma_mensal_get).
    apply total_do_mes_sum; [apply meses_NoDup|].
    intros r Hin. apply meses_In. exists r.
    split; [apply in_app_iff; right; exact Hin|reflexivity]. }
  split; [exact Hr|]. split; [exact Hd|].
  rewrite <- Hr, <- Hd, <- col_sum_map_minus. reflexivity.
Qed.

(** On tables whose rows all have a date, the monthly table is empty only
    when both tables are, and has at most one row per row of the tables. *)
Lemma table_size_dated (df_receitas df_despesas : list DF.row) :
  (get_dados_mensais df_receitas df_despesas = []
   <-> df_receitas = [] /\ df_despesas = []) /\
  (df_receitas <> [] ->
   DF.empty (soma_mensal df_receitas) = false) /\
  (df_despesas <> [] ->
   DF.empty (soma_mensal df_despesas) = false) /\
  (List.length (get_dados_mensais df_receitas df_despesas)
   <= List.length df_receitas + List.length df_despesas)%nat.
Proof.
  assert (Hne : forall df, df <> [] -> DF.empty (soma_mensal df) = false).
  { intros [|r df] H; [contradiction|].
    destruct (soma_mensal (r :: df)) as [|kv s] eqn:E; [|reflexivity].
    assert (Hin : In (to_period_M (DF.Data r)) (map fst (soma_mensal (r :: df)))).
    { apply soma_mensal_In. exists r. split; [left|]; reflexivity. }
    rewrite E in Hin. destruct Hin. }
  split; [|split; [apply Hne|split; [apply Hne|]]].
  - split.
    + intros H. rewrite get_dados_mensais_eq in H.
      apply map_eq_nil in H.
      assert (Hall : forall r, ~ In r (df_receitas ++ df_despesas)).
      { intros r Hin.
        assert (Hp : In (to_period_M (DF.Data r))
                        (meses df_receitas df_despesas))
          by (apply meses_In; exists r; split; [exact Hin|reflexivity]).
        rewrite H in Hp. destruct Hp. }
      destruct df_receitas as [|r rs].
      * destruct df_despesas as [|d ds]; [split; reflexivity|].
        destruct (Hall d). left. reflexivity.
      * destruct (Hall r). left. reflexivity.
    + intros [-> ->]. reflexivity.
  - rewrite get_dados_mensais_eq, length_map, <- length_app.
    rewrite <- (length_map (fun r => to_period_M (DF.Data r))
                           (df_receitas ++ df_despesas)).
    apply NoDup_incl_length; [apply meses_NoDup|].
    intros p Hp. apply meses_In in Hp. destruct Hp as (r & Hin & <-).
    apply (in_map (fun x => to_period_M (DF.Data x))). exact Hin.
Qed.

(** ** Tables with blank cells *)

Module DFLoaded.

(** A row as [load_receitas] and [load_despesas] return it.  A blank cell of
    the sheet comes out of [get_all_records] as the empty text:
    [pd.to_datetime] turns it into NaT in the column Data, and
    [pd.to_numeric] into NaN in the column Valor.  Both are [None] here. *)
Record row : Type := mkrow {
  Data : option Date.date;
  Categoria : string;
  Valor : option Q
}.

(** [Data.notna()] on one row. *)
Definition tem_data (r : row) : bool :=
  match Data r with
  | Some _ => true
  | None => false
  end.

(** What [sum] adds for one row: it skips NaN. *)
Definition valor_somado (r : row) : Q := fillna0 (Valor r).

End DFLoaded.

(** The rows that [groupby('Mes')] groups: it drops the rows whose key is
    NaT, as [to_period('M')] of NaT is. *)
Fixpoint dropna (df : list DFLoaded.row) : list DF.row :=
  match df with
  | [] => []
  | r :: df' =>
      match DFLoaded.Data r with
      | Some d =>
          DF.mkrow d (DFLoaded.Categoria r) (DFLoaded.valor_somado r)
          :: dropna df'
      | None => dropna df'
      end
  end.

(** [df.groupby('Mes')['Valor'].sum()] on a loaded table. *)
Definition soma_mensal_loaded (df : list DFLoaded.row) : Series Period :=
  soma_mensal (dropna df).

(** [get_dados_mensais] on the tables as they are loaded. *)
Definition get_dados_mensais_loaded (df_receitas df_despesas : list DFLoaded.row)
  : list Mensal :=
  if DF.empty df_receitas && DF.empty df_despesas then []
  else
    let receitas_mensais :=
      if negb (DF.empty df_receitas) then soma_mensal_loaded df_receitas
      else [] in
    let despesas_mensais :=
      if negb (DF.empty df_despesas) then soma_mensal_loaded df_despesas
      else [] in
    if DF.empty receitas_mensais && DF.empty despesas_mensais then []
    else
      map (fun p =>
             let receitas := fillna0 (series_get period_compare receitas_mensais p) in
             let despesas := fillna0 (series_get period_compare despesas_mensais p) in
             mkMensal (period_str p) receitas despesas (receitas - despesas)%Q)
          (index_union period_compare
             (map fst receitas_mensais) (map fst despesas_mensais)).

(** A table without blank cells, as a loaded table. *)
Definition sem_brancos (df : list DF.row) : list DFLoaded.row :=
  map (fun r => DFLoaded.mkrow (Some (DF.Data r)) (DF.Categoria r)
                               (Some (DF.Valor r))) df.

Lemma dropna_sem_brancos (df : list DF.row) : dropna (sem_brancos df) = df.
Proof.
  unfold sem_brancos.
  induction df as [|[d c v] df IH]; [reflexivity|].
  cbn. rewrite IH. reflexivity.
Qed.

Lemma dropna_Valor (df : list DFLoaded.row) :
  map DF.Valor (dropna df)
  = map DFLoaded.valor_somado (filter DFLoaded.tem_data df).
Proof.
  induction df as [|r df IH]; [reflexivity|].
  cbn. unfold DFLoaded.tem_data. destruct (DFLoaded.Data r); cbn;
    rewrite IH; reflexivity.
Qed.

Lemma dropna_length (df : list DFLoaded.row) :
  List.length (dropna df) = List.length (filter DFLoaded.tem_data df).
Proof.
  induction df as [|r df IH]; [reflexivity|].
  cbn. unfold DFLoaded.tem_data. destruct (DFLoaded.Data r); cbn;
    rewrite IH; reflexivity.
Qed.

Lemma dropna_nil (df : list DFLoaded.row) :
  dropna df = [] <-> forall r, In r df -> DFLoaded.Data r = None.
Proof.
  induction df as [|r df IH]; cbn.
  - split; [intros _ x []|reflexivity].
  - destruct (DFLoaded.Data r) eqn:E.
    + split; [discriminate|].
      intros H. specialize (H r (or_introl eq_refl)). congruence.
    + rewrite IH. split.
      * intros H x [<-|Hx]; [exact E|apply H; exact Hx].
      * intros H x Hx. apply H. right. exact Hx.
Qed.

Lemma soma_mensal_nil (df : list DF.row) :
  DF.empty (soma_mensal df) = true <-> df = [].
Proof.
  split.
  - intros H. destruct df as [|r df]; [reflexivity|].
    destruct (soma_mensal (r :: df)) as [|kv s] eqn:E; [|discriminate].
    assert (Hin : In (to_period_M (DF.Data r)) (map fst (soma_mensal (r :: df)))).
    { apply soma_mensal_In. exists r. split; [left|]; reflexivity. }
    rewrite E in Hin. destruct Hin.
  - intros ->. reflexivity.
Qed.

(** The monthly table of the loaded tables is the monthly table of their
    rows with a date. *)
Lemma get_dados_mensais_loaded_eq (df_receitas df_despesas : list DFLoaded.row) :
  get_dados_mensais_loaded df_receitas df_despesas
  = get_dados_mensais (dropna df_receitas) (dropna df_despesas).
Proof.
  assert (Hs : forall df : list DFLoaded.row,
             (if negb (DF.empty df) then soma_mensal_loaded df else [])
             = soma_mensal (dropna df)).
  { intros [|r df]; reflexivity. }
  assert (Hd : forall df : list DF.row,
             (if negb (DF.empty df) then soma_mensal df else [])
             = soma_mensal df).
  { intros [|r df]; reflexivity. }
  unfold get_dados_mensais_loaded, get_dados_mensais. cbv zeta.
  rewrite !Hs, !Hd.
  destruct (DF.empty df_receitas && DF.empty df_despesas) eqn:E.
  - apply andb_prop in E. destruct E as [E1 E2].
    destruct df_receitas; [|discriminate].
    destruct df_despesas; [|discriminate]. reflexivity.
  - destruct (DF.empty (dropna df_receitas) && DF.empty (dropna df_despesas))
      eqn:E'; [|reflexivity].
    apply andb_prop in E'. destruct E' as [E1 E2].
    destruct (dropna df_receitas); [|discriminate].
    destruct (dropna df_despesas); [|discriminate]. reflexivity.
Qed.

(** Without blank cells the two agree. *)
Lemma get_dados_mensais_sem_brancos (df_receitas df_despesas : list DF.row) :
  get_dados_mensais_loaded (sem_brancos df_receitas) (sem_brancos df_despesas)
  = get_dados_mensais df_receitas df_despesas.
Proof.
  rewrite get_dados_mensais_loaded_eq, !dropna_sem_brancos. reflexivity.
Qed.


(** X10.  The monthly table is empty exactly when no row of either table has
    a date: that is the first emptiness test of [get_dados_mensais] when both
    tables are empty, and the second when the tables have rows but every cell
    Data is blank, since the sums by month of a table are empty exactly when
    none of its rows has a date.  The table has at most one row per row with
    a date. *)
Theorem monthly_table_size (df_receitas df_despesas : list DFLoaded.row) :
  (get_dados_mensais_loaded df_receitas df_despesas = []
   <-> forall r, In r (df_receitas ++ df_despesas) -> DFLoaded.Data r = None) /\
  (forall df,
     DF.empty (soma_mensal_loaded df) = true
     <-> forall r, In r df -> DFLoaded.Data r = None) /\
  (List.length (get_dados_mensais_loaded df_receitas df_despesas)
   <= List.length (filter DFLoaded.tem_data df_receitas)
      + List.length (filter DFLoaded.tem_data df_despesas))%nat.
Proof.
  split; [|split].
  - rewrite get_dados_mensais_loaded_eq.
    destruct (table_size_dated (dropna df_receitas) (dropna df_despesas))
      as (H & _).
    rewrite H, !dropna_nil. split.
    + intros [H1 H2] r Hin. apply in_app_iff in Hin.
      destruct Hin as [Hin|Hin]; [apply H1|apply H2]; exact Hin.
    + intros Hall. split; intros r Hin; apply Hall, in_app_iff;
        [left|right]; exact Hin.
  - intros df. unfold soma_mensal_loaded.
    rewrite soma_mensal_nil. apply dropna_nil.
  - rewrite get_dados_mensais_loaded_eq, <- !dropna_length.
    apply table_size_dated.
Qed.

(** One receita whose cell Data is blank: the first test passes, the second
    returns the empty table. *)
Example get_dados_mensais_sem_data :
  let df_receitas := [DFLoaded.mkrow None "Salário" (Some 100%Q)] in
  DF.empty df_receitas && DF.empty (@nil DFLoaded.row) = false /\
  get_dados_mensais_loaded df_receitas [] = [].
Proof. split; reflexivity. Qed.

(** A receita of January, one without a date and one without an amount, and
    a despesa of February. *)
Example get_dados_mensais_com_brancos :
  get_dados_mensais_loaded
    [DFLoaded.mkrow (Some (Date.mkdate 2024 1 15)) "Salário" (Some 100%Q);
     DFLoaded.mkrow None "Salário" (Some 50%Q);
     DFLoaded.mkrow (Some (Date.mkdate 2024 1 20)) "Extra" None]
    [DFLoaded.mkrow (Some (Date.mkdate 2024 2 1)) "Mercado" (Some 30%Q)]
  = [mkMensal "2024-01" (0 + 100 + 0) 0 (0 + 100 + 0 - 0);
     mkMensal "2024-02" 0 30 (0 - 30)]%Q.
Proof. vm_compute. reflexivity. Qed.

(** ** The metrics of the current month *)

(** [ts.strftime('%Y-%m')]. *)
Definition strftime_Ym (d : Date.date) : string :=
  (Py.pad_digits 4 (Date.year d) ++ "-" ++ Py.pad_digits 2 (Date.month d))%string.

(** [df[df['Data'].dt.strftime('%Y-%m') == mes_atual]['Valor'].sum()]. *)
Definition soma_do_mes (df : list DF.row) (mes_atual : string) : Q :=
  col_sum (map DF.Valor
             (filter (fun r => (strftime_Ym (DF.Data r) =? mes_atual)%string) df)).

Definition receitas_mes (df_receitas : list DF.row) (mes_atual : string) : Q :=
  if negb (DF.empty df_receitas) then soma_do_mes df_receitas mes_atual
  else 0%Q.

Definition despesas_mes (df_despesas : list DF.row) (mes_atual : string) : Q :=
  if negb (DF.empty df_despesas) then soma_do_mes df_despesas mes_atual
  else 0%Q.

Definition saldo_mes (df_receitas df_despesas : list DF.row)
    (mes_atual : string) : Q :=
  (receitas_mes df_receitas mes_atual - despesas_mes df_despesas mes_atual)%Q.

Lemma period_str_inj (p q : Period) :
  period_ok p -> period_ok q -> period_str p = period_str q -> p = q.
Proof.
  intros Hp Hq E.
  assert (Hrefl : String.compare (period_str p) (period_str q) = Eq)
    by (apply string_compare_eq; exact E).
  destruct (period_compare p q) eqn:C.
  - apply period_compare_eq. exact C.
  - rewrite (period_str_lt p q Hp Hq C) in Hrefl. discriminate.
  - assert (C' : period_compare q p = Lt)
      by (rewrite period_compare_antisym, C; reflexivity).
    pose proof (period_str_lt q p Hq Hp C') as H.
    rewrite string_compare_antisym, Hrefl in H. discriminate.
Qed.

Lemma total_do_mes_absent (df : list DF.row) (p : Period) :
  (forall r, In r df -> to_period_M (DF.Data r) <> p) ->
  (total_do_mes df p == 0)%Q.
Proof.
  intros Hn. unfold total_do_mes.
  replace (filter (do_mes p) df) with (@nil DF.row);
    [cbn; rewrite col_sum_nil; reflexivity|].
  symmetry. induction df as [|r df IH]; [reflexivity|].
  cbn. destruct (do_mes p r) eqn:E.
  - apply do_mes_iff in E. exfalso. apply (Hn r); [left; reflexivity|exact E].
  - apply IH. intros x Hx. apply Hn. right. exact Hx.
Qed.

(** Comparing the texts '%Y-%m' selects the rows of that year and month. *)
Lemma soma_do_mes_total (df : list DF.row) (hoje : Date.date) :
  Forall (fun r => Date.valid (DF.Data r) = true) df ->
  Date.valid hoje = true ->
  soma_do_mes df (strftime_Ym hoje) = total_do_mes df (to_period_M hoje).
Proof.
  intros Hdf Hh. unfold soma_do_mes, total_do_mes. do 2 f_equal.
  apply filter_ext_in. intros r Hr.
  rewrite Forall_forall in Hdf. specialize (Hdf r Hr).
  destruct (do_mes (to_period_M hoje) r) eqn:E.
  - apply do_mes_iff in E. apply String.eqb_eq.
    change (period_str (to_period_M (DF.Data r))
            = period_str (to_period_M hoje)).
    rewrite E. reflexivity.
  - apply String.eqb_neq. intros Heq.
    assert (Hp : to_period_M (DF.Data r) = to_period_M hoje)
      by (apply period_str_inj; [apply valid_period_ok..|exact Heq]; assumption).
    apply do_mes_iff in Hp. congruence.
Qed.

Lemma valor_mes_total (df : list DF.row) (hoje : Date.date) :
  Forall (fun r => Date.valid (DF.Data r) = true) df ->
  Date.valid hoje = true ->
  ((if negb (DF.empty df) then soma_do_mes df (strftime_Ym hoje) else 0)
   == total_do_mes df (to_period_M hoje))%Q.
Proof.
  intros Hdf Hh. destruct df as [|r df]; cbn [DF.empty negb].
  - unfold total_do_mes. cbn. rewrite col_sum_nil. reflexivity.
  - rewrite soma_do_mes_total by assumption. reflexivity.
Qed.



Example metricas_exemplo :
  (receitas_mes receitas_exemplo "2024-02" == 0)%Q /\
  (despesas_mes despesas_exemplo "2024-02" == 100)%Q /\
  (saldo_mes receitas_exemplo despesas_exemplo "2024-02" == -100)%Q.
Proof. vm_compute. repeat split. Qed.

(** ** Expenses by payment method and by credit card *)

Module DFDespesas.

(** A row of the table returned by [load_despesas], with the columns that
    the dashboard and the history group and filter by. *)
Record row : Type := mkrow {
  Data : Date.date;
  Categoria : string;
  Forma_Pagamento : string;
  Cartao : string;
  Valor : Q
}.

End DFDespesas.

(** [df.groupby(chave)['Valor'].sum().reset_index()]. *)
Definition soma_por {A} (chave : A -> string) (valor : A -> Q) (df : list A)
  : Series string :=
  groupby_sum String.compare (map (fun r => (chave r, valor r)) df).

(** The table behind the chart "Despesas por Forma de Pagamento": none when
    the dashboard shows the notice instead. *)
Definition despesas_forma (df_despesas : list DFDespesas.row)
  : option (Series string) :=
  if negb (DF.empty df_despesas) then
    let despesas_forma :=
      soma_por DFDespesas.Forma_Pagamento DFDespesas.Valor df_despesas in
    if negb (DF.empty despesas_forma) then Some despesas_forma else None
  else None.

(** [(df['Forma_Pagamento'] == 'Crédito') & (df['Cartao'] != '')]. *)
Definition credito_com_cartao (r : DFDespesas.row) : bool :=
  (DFDespesas.Forma_Pagamento r =? "Crédito")%string
  && negb (DFDespesas.Cartao r =? "")%string.

(** The table behind the chart "Despesas por Cartão de Crédito": none when
    the dashboard leaves the chart out. *)
Definition despesas_cartao (df_despesas : list DFDespesas.row)
  : option (Series string) :=
  if negb (DF.empty df_despesas) then
    let despesas_credito := filter credito_com_cartao df_despesas in
    if negb (DF.empty despesas_credito)
    then Some (soma_por DFDespesas.Cartao DFDespesas.Valor despesas_credito)
    else None
  else None.

(** The metric "Total em Crédito" of the history: none when the history
    shows the notice instead. *)
Definition total_em_credito (df_despesas : list DFDespesas.row) : option Q :=
  if negb (DF.empty df_despesas) then
    Some (col_sum
            (map DFDespesas.Valor
               (filter (fun r => (DFDespesas.Forma_Pagamento r =? "Crédito")%string)
                       df_despesas)))
  else None.

Section SomaPor.

Context {A : Type}.
Variable chave : A -> string.
Variable valor : A -> Q.

Lemma soma_por_In (df : list A) (c : string) :
  In c (map fst (soma_por chave valor df))
  <-> exists r, In r df /\ chave r = c.
Proof.
  unfold soma_por. rewrite groupby_sum_In by apply string_compare_eq.
  rewrite map_map. cbn [fst]. rewrite in_map_iff.
  split; intros (r & H1 & H2); exists r; split; assumption.
Qed.

Lemma soma_por_NoDup (df : list A) : NoDup (map fst (soma_por chave valor df)).
Proof.
  apply (sorted_NoDup _ String.compare string_compare_eq).
  apply groupby_sum_sorted.
  - apply string_compare_eq.
  - apply string_compare_antisym.
  - apply string_compare_trans.
Qed.

Lemma soma_por_get (df : list A) (c : string) :
  (fillna0 (series_get String.compare (soma_por chave valor df) c)
   == col_sum (map valor (filter (fun r => (chave r =? c)%string) df)))%Q.
Proof.
  unfold soma_por. rewrite groupby_sum_get.
  - rewrite filter_pairs.
    rewrite (filter_ext (fun r => same_key String.compare c (chave r))
                        (fun r => (chave r =? c)%string)); [reflexivity|].
    intros r. destruct (chave r =? c)%string eqn:E.
    + apply String.eqb_eq in E.
      apply (same_key_iff _ String.compare string_compare_eq). exact E.
    + apply String.eqb_neq in E. apply not_true_is_false. intros H.
      apply (same_key_iff _ String.compare string_compare_eq) in H.
      contradiction.
  - apply string_compare_eq.
  - apply string_compare_antisym.
  - apply string_compare_trans.
Qed.

Lemma soma_por_total (df : list A) :
  (col_sum (map snd (soma_por chave valor df)) == col_sum (map valor df))%Q.
Proof.
  unfold soma_por. rewrite groupby_sum_total, map_map. reflexivity.
Qed.

End SomaPor.

Lemma card_chart_total (df_despesas : list DFDespesas.row) :
  match despesas_cartao df_despesas with
  | Some s =>
      (col_sum (map snd s)
       == col_sum (map DFDespesas.Valor
                       (filter credito_com_cartao df_despesas)))%Q
  | None => filter credito_com_cartao df_despesas = []
  end.
Proof.
  unfold despesas_cartao.
  destruct df_despesas as [|r0 df0]; cbn [DF.empty negb]; [reflexivity|].
  destruct (filter credito_com_cartao (r0 :: df0)) as [|r1 l1] eqn:Ef;
    cbn [DF.empty negb]; [reflexivity|].
  apply soma_por_total.
Qed.


Lemma despesas_forma_some (df_despesas : list DFDespesas.row) :
  df_despesas <> [] ->
  despesas_forma df_despesas
  = Some (soma_por DFDespesas.Forma_Pagamento DFDespesas.Valor df_despesas).
Proof.
  intros Hne. destruct df_despesas as [|r0 df0]; [contradiction|].
  unfold despesas_forma. cbn [DF.empty negb].
  destruct (soma_por DFDespesas.Forma_Pagamento DFDespesas.Valor
                     (r0 :: df0)) as [|kv s] eqn:E; [|reflexivity].
  assert (Hin : In (DFDespesas.Forma_Pagamento r0)
                   (map fst (soma_por DFDespesas.Forma_Pagamento
                                      DFDespesas.Valor (r0 :: df0)))).
  { apply soma_por_In. exists r0. split; [left|]; reflexivity. }
  rewrite E in Hin. destruct Hin.
Qed.


Definition despesas_carregadas_exemplo : list DFDespesas.row :=
  [DFDespesas.mkrow (Date.mkdate 2024 1 5) "Casa" "Crédito" "Nubank" 300;
   DFDespesas.mkrow (Date.mkdate 2024 1 9) "Mercado" "PIX" "" 50;
   DFDespesas.mkrow (Date.mkdate 2024 2 1) "Mercado" "Crédito" "Inter" 20].


Example despesas_cartao_exemplo :
  option_map (map fst) (despesas_cartao despesas_carregadas_exemplo)
  = Some ["Inter"; "Nubank"] /\
  option_map (map fst) (despesas_forma despesas_carregadas_exemplo)
  = Some ["Crédito"; "PIX"].
Proof. vm_compute. split; reflexivity. Qed.

(** ** Dates of the installments *)

Lemma year_text_4 (y : Z) : 1000 <= y -> Date.year_text y = Py.pad_digits 4 y.
Proof.
  intros Hy. unfold Date.year_text.
  replace (y <? 10) with false by (symmetry; apply Z.ltb_ge; lia).
  replace (y <? 100) with false by (symmetry; apply Z.ltb_ge; lia).
  replace (y <? 1000) with false by (symmetry; apply Z.ltb_ge; lia).
  reflexivity.
Qed.

(** From the year 1000 on, the text '%Y-%m-%d' orders as the dates do. *)
Lemma strftime_Ymd_lt (d1 d2 : Date.date) :
  Date.valid d1 = true -> Date.valid d2 = true ->
  1000 <= Date.year d1 ->
  DateOrder.date_lt d1 d2 ->
  String.compare (Date.strftime_Ymd d1) (Date.strftime_Ymd d2) = Lt.
Proof.
  intros V1 V2 Hy1000 Hlt.
  destruct (DateOrder.valid_fields d1 V1) as (Hy1 & Hm1 & Hd1).
  destruct (DateOrder.valid_fields d2 V2) as (Hy2 & Hm2 & Hd2).
  pose proof (DateOrder.valid_day_31 d1 V1).
  pose proof (DateOrder.valid_day_31 d2 V2).
  assert (Hy2000 : 1000 <= Date.year d2).
  { unfold DateOrder.date_lt in Hlt. lia. }
  unfold Date.strftime_Ymd. rewrite !year_text_4 by assumption.
  destruct Hlt as [Hy|[Ey [Hm|[Em Hd]]]].
  - apply compare_append_lt.
    + rewrite !pad_digits_length. reflexivity.
    + apply (pad_digits_lt 4); [lia|]. change (10 ^ Z.of_nat 4) with 10000. lia.
  - rewrite Ey, !compare_append_same.
    apply compare_append_lt.
    + rewrite !pad_digits_length. reflexivity.
    + apply (pad_digits_lt 2); [lia|]. change (10 ^ Z.of_nat 2) with 100. lia.
  - rewrite Ey, Em, !compare_append_same.
    apply (pad_digits_lt 2); [lia|]. change (10 ^ Z.of_nat 2) with 100. lia.
Qed.

(** *** Order and identity of the rows of one call *)

Lemma seq_sorted (a n : nat) : StronglySorted lt (seq a n).
Proof.
  revert a. induction n as [|n IH]; intros a; cbn [seq]; constructor.
  - apply IH.
  - apply Forall_forall. intros k Hk. apply in_seq in Hk. lia.
Qed.

Lemma sorted_texts_NoDup (l : list string) :
  StronglySorted (fun a b => String.compare a b = Lt) l -> NoDup l.
Proof.
  apply (sorted_NoDup _ String.compare string_compare_eq).
Qed.

Section DatasDasParcelas.

Variable data : Date.date.
Variables categoria forma_pagamento cartao : string.
Variable valor_total : Q.
Variable num_parcelas : Z.
Variable descricao : string.

Lemma parcelas_Data (w : World) :
  map Data (parcelas data categoria forma_pagamento cartao valor_total
                     num_parcelas descricao w)
  = map (fun k => Date.strftime_Ymd
                    (Date.fromordinal (Date.toordinal data + 30 * Z.of_nat k)))
        (seq 0 (Z.to_nat num_parcelas)).
Proof. unfold parcelas. rewrite map_map. reflexivity. Qed.

Lemma year_after (k : Z) :
  Date.valid data = true ->
  0 <= k -> Date.toordinal data + k <= Date.MAXORDINAL ->
  Date.year data <= Date.year (Date.fromordinal (Date.toordinal data + k)).
Proof.
  intros V Hk Hmax.
  pose proof (DateFacts.toordinal_pos data V) as Hpos.
  destruct (Z.eq_dec k 0) as [->|Hne].
  - rewrite Z.add_0_r, DateOrder.fromordinal_toordinal by exact V. lia.
  - pose proof (DateOrder.fromordinal_lt (Date.toordinal data)
                  (Date.toordinal data + k) ltac:(lia) ltac:(lia) Hmax) as H.
    rewrite DateOrder.fromordinal_toordinal in H by exact V.
    unfold DateOrder.date_lt in H. lia.
Qed.

(** X14.  For a submission from the year 1000 on, every installment is
    stored with a calendar date, and the stored texts go up strictly with
    the index in the order of strings: no two installments of a call share
    a date, and sorting the sheet by the text of the date keeps the
    installments in order.  (Before the year 1000 a text may have fewer
    digits for the year than the next one, and then it does not.) *)
Theorem installment_dates_ascending (w : World) :
  Date.valid data = true ->
  1000 <= Date.year data ->
  1 <= num_parcelas ->
  dates_representable data num_parcelas ->
  exists w' rows,
    add_despesa data categoria forma_pagamento cartao valor_total
                num_parcelas descricao w = (Returned tt, w') /\
    despesas w' = despesas w ++ rows /\
    (forall r, In r rows ->
       exists d, Date.valid d = true /\
                 Data r = Date.strftime_Ymd d /\
                 Date.toordinal d
                 = Date.toordinal data + 30 * (Parcela_Atual r - 1)) /\
    StronglySorted (fun a b => String.compare a b = Lt) (map Data rows) /\
    NoDup (map Data rows).
Proof.
  intros Hvalid Hyear Hn [Hlo Hhi].
  assert (Hrange : forall k, (k < Z.to_nat num_parcelas)%nat ->
            1 <= Date.toordinal data + 30 * Z.of_nat k <= Date.MAXORDINAL)
    by (intros k Hk; lia).
  assert (Hsorted :
    StronglySorted (fun a b => String.compare a b = Lt)
      (map Data (parcelas data categoria forma_pagamento cartao valor_total
                          num_parcelas descricao w))).
  { rewrite parcelas_Data.
    apply StronglySorted_map with (R := lt); [|apply seq_sorted].
    intros a b Ha Hb Hab. apply in_seq in Ha. apply in_seq in Hb.
    apply strftime_Ymd_lt.
    - apply DateOrder.fromordinal_valid, Hrange. lia.
    - apply DateOrder.fromordinal_valid, Hrange. lia.
    - pose proof (year_after (30 * Z.of_nat a) Hvalid ltac:(lia)
                             ltac:(apply Hrange; lia)). lia.
    - apply DateOrder.fromordinal_lt.
      + apply Hrange. lia.
      + lia.
      + apply Hrange. lia. }
  do 2 eexists.
  split; [apply add_despesa_returns; [exact Hn|split; assumption]|].
  split; [reflexivity|].
  split; [|split; [exact Hsorted|apply sorted_texts_NoDup, Hsorted]].
  intros r Hr. apply parcelas_In in Hr. destruct Hr as (k & Hk & ->).
  exists (Date.fromordinal (Date.toordinal data + 30 * Z.of_nat k)).
  split; [apply DateOrder.fromordinal_valid, Hrange, Hk|].
  split; [reflexivity|].
  rewrite DateFacts.toordinal_fromordinal by (apply Hrange, Hk).
  cbn [parcela nova_linha Parcela_Atual]. lia.
Qed.

(** X15.  The first installment is stored with the date of the submission
    itself: adding no days to a date gives the date back. *)
Theorem first_installment_date (w : World) :
  Date.valid data = true ->
  1 <= num_parcelas ->
  dates_representable data num_parcelas ->
  exists w' r rows,
    add_despesa data categoria forma_pagamento cartao valor_total
                num_parcelas descricao w = (Returned tt, w') /\
    despesas w' = despesas w ++ r :: rows /\
    Parcela_Atual r = 1 /\
    Data r = Date.strftime_Ymd data.
Proof.
  intros Hv Hn Hd.
  assert (E : parcelas data categoria forma_pagamento cartao valor_total
                       num_parcelas descricao w
              = parcela data categoria forma_pagamento cartao valor_total
                        num_parcelas descricao (uuids w) (uuid_calls w) O
                :: map (parcela data categoria forma_pagamento cartao
                                valor_total num_parcelas descricao
                                (uuids w) (uuid_calls w))
                       (seq 1 (Z.to_nat num_parcelas - 1))).
  { unfold parcelas.
    replace (Z.to_nat num_parcelas) with (S (Z.to_nat num_parcelas - 1)) at 1
      by lia.
    reflexivity. }
  do 3 eexists.
  split; [apply add_despesa_returns; assumption|].
  cbn [despesas]. rewrite E. split; [reflexivity|].
  split; [reflexivity|].
  cbn [parcela nova_linha Data Z.of_nat].
  rewrite Z.mul_0_r, Z.add_0_r, DateOrder.fromordinal_toordinal by exact Hv.
  reflexivity.
Qed.

(** X16.  Each row gets an identifier of its own draw: a call makes one draw for
    the group and one per row, in order.  When the identifiers drawn
    during the call differ in their first eight characters, the rows have
    pairwise distinct identifiers, none of them the group identifier. *)
Theorem row_ids_distinct (w : World) :
  1 <= num_parcelas ->
  dates_representable data num_parcelas ->
  (forall i j : nat,
     (uuid_calls w <= i < j)%nat ->
     (j <= uuid_calls w + Z.to_nat num_parcelas)%nat ->
     Py.slice_to 8 (uuids w i) <> Py.slice_to 8 (uuids w j)) ->
  exists w' rows,
    add_despesa data categoria forma_pagamento cartao valor_total
                num_parcelas descricao w = (Returned tt, w') /\
    despesas w' = despesas w ++ rows /\
    uuid_calls w' = (uuid_calls w + 1 + Z.to_nat num_parcelas)%nat /\
    map ID rows
    = map (fun k => Py.slice_to 8 (uuids w (uuid_calls w + 1 + k)%nat))
          (seq 0 (Z.to_nat num_parcelas)) /\
    NoDup (map ID rows) /\
    (forall r, In r rows ->
       ID_Grupo_Parcelado r = Py.slice_to 8 (uuids w (uuid_calls w)) /\
       ID r <> ID_Grupo_Parcelado r).
Proof.
  intros Hn Hd Hfresh.
  assert (Hids : map ID (parcelas data categoria forma_pagamento cartao
                                  valor_total num_parcelas descricao w)
                 = map (fun k => Py.slice_to 8
                                   (uuids w (uuid_calls w + 1 + k)%nat))
                       (seq 0 (Z.to_nat num_parcelas))).
  { unfold parcelas. rewrite map_map. reflexivity. }
  do 2 eexists.
  split; [apply add_despesa_returns; assumption|].
  cbn [despesas uuid_calls]. split; [reflexivity|]. split; [reflexivity|].
  split; [exact Hids|]. split.
  - rewrite Hids. apply Finite.Injective_map_NoDup_in; [|apply seq_NoDup].
    intros a b Ha Hb E. apply in_seq in Ha. apply in_seq in Hb.
    destruct (Nat.lt_trichotomy a b) as [H|[H|H]]; [exfalso|exact H|exfalso].
    + apply (Hfresh (uuid_calls w + 1 + a)%nat (uuid_calls w + 1 + b)%nat);
        [lia|lia|exact E].
    + apply (Hfresh (uuid_calls w + 1 + b)%nat (uuid_calls w + 1 + a)%nat);
        [lia|lia|symmetry; exact E].
  - intros r Hr. apply parcelas_In in Hr. destruct Hr as (k & Hk & ->).
    split; [reflexivity|]. cbn [parcela nova_linha ID ID_Grupo_Parcelado].
    intros E.
    apply (Hfresh (uuid_calls w) (uuid_calls w + 1 + k)%nat);
      [lia|lia|symmetry; exact E].
Qed.

End DatasDasParcelas.

Lemma installment_dates_ascending_witness :
  exists w' rows,
    add_despesa (Date.mkdate 2024 1 31) "Casa" "PIX" "" 100 3 "Sofa" w_empty
    = (Returned tt, w') /\
    despesas w' = despesas w_empty ++ rows /\
    (forall r, In r rows ->
       exists d, Date.valid d = true /\
                 Data r = Date.strftime_Ymd d /\
                 Date.toordinal d
                 = Date.toordinal (Date.mkdate 2024 1 31)
                   + 30 * (Parcela_Atual r - 1)) /\
    StronglySorted (fun a b => String.compare a b = Lt) (map Data rows) /\
    NoDup (map Data rows).
Proof.
  apply (installment_dates_ascending (Date.mkdate 2024 1 31) "Casa" "PIX" ""
           100 3 "Sofa" w_empty).
  - reflexivity.
  - vm_compute. discriminate.
  - lia.
  - unfold dates_representable. vm_compute. split; [reflexivity|discriminate].
Defined.

Lemma first_installment_date_witness :
  exists w' r rows,
    add_despesa (Date.mkdate 2024 1 31) "Casa" "PIX" "" 100 3 "Sofa" w_empty
    = (Returned tt, w') /\
    despesas w' = despesas w_empty ++ r :: rows /\
    Parcela_Atual r = 1 /\
    Data r = Date.strftime_Ymd (Date.mkdate 2024 1 31).
Proof.
  apply (first_installment_date (Date.mkdate 2024 1 31) "Casa" "PIX" ""
           100 3 "Sofa" w_empty).
  - reflexivity.
  - lia.
  - unfold dates_representable. vm_compute. split; [reflexivity|discriminate].
Defined.

Lemma row_ids_distinct_witness :
  exists w' rows,
    add_despesa (Date.mkdate 2024 1 31) "Casa" "PIX" "" 100 3 "Sofa" w_empty
    = (Returned tt, w') /\
    despesas w' = despesas w_empty ++ rows /\
    uuid_calls w' = (uuid_calls w_empty + 1 + Z.to_nat 3)%nat /\
    map ID rows
    = map (fun k => Py.slice_to 8
                      (uuids w_empty (uuid_calls w_empty + 1 + k)%nat))
          (seq 0 (Z.to_nat 3)) /\
    NoDup (map ID rows) /\
    (forall r, In r rows ->
       ID_Grupo_Parcelado r
       = Py.slice_to 8 (uuids w_empty (uuid_calls w_empty)) /\
       ID r <> ID_Grupo_Parcelado r).
Proof.
  apply (row_ids_distinct (Date.mkdate 2024 1 31) "Casa" "PIX" "" 100 3
           "Sofa" w_empty).
  - lia.
  - unfold dates_representable. vm_compute. split; [reflexivity|discriminate].
  - intros i j Hi Hj. cbn in Hi, Hj.
    assert (Hij : (i = 0 /\ (j = 1 \/ j = 2 \/ j = 3)
                   \/ i = 1 /\ (j = 2 \/ j = 3) \/ i = 2 /\ j = 3)%nat) by lia.
    destruct Hij as [[-> [->|[->| ->]]]|[[-> [->| ->]]|[-> ->]]];
      vm_compute; discriminate.
Defined.

(** Around the year 1000 the texts of a call are not in order: '999-12-20'
    is followed by '1000-01-19', which comes before it as a string. *)
Example datas_do_ano_999 :
  let '(_, w) := add_despesa (Date.mkdate 999 12 20) "Casa" "PIX" "" 100 2
                             "Sofa" w_empty in
  map Data (despesas w) = ["999-12-20"; "1000-01-19"] /\
  String.compare "999-12-20" "1000-01-19" = Gt.
Proof. vm_compute. split; reflexivity. Qed.
